(** * UAV insurance premium pricing: a shallow embedding of the rating engine

    The development embeds [model_operations.py] (zero guard, drone and
    camera rating, aggregation, capacity adjustments) and the rating pass
    [compute_model] of [main.py], and states the properties of the
    natural-language specification over that embedding.

    Conventions of the embedding.
    - A Python value is a [pyval]: bool, int, float, complex or str.
    - A Python [float] is idealised as an exact rational ([Q], kept in
      lowest terms by [Qred]); binary rounding, infinities and NaN are not
      represented.  Integers are exact ([Z]), as in Python.  The properties
      therefore give a float result through the operations that compute it
      ([py_mul], [py_truediv], [py_round], ...), in the order the code
      applies them, with what holds of it under any rounding (which
      exception, which type, a whole number next to its argument), and not
      as an exact number.
    - An exception is a [Raise e] result; [Ok v] is a normal return.
    - A record (a [dict] decoded from JSON) is a [gmap string pyval]; a list
      of records is a store indexed by position, every position holding its
      own object (as [json.loads] produces them).
    - [pow] and [math.log] on floats are library functions, taken as a
      parameter ([mathlib]); their error cases are written out. *)

From Stdlib Require Import ZArith QArith Qround Qabs Lqa String Permutation Sorted.
From stdpp Require Import gmap strings list fin_maps.

Local Open Scope string_scope.
Local Open Scope Z_scope.

(** ** Python values, exceptions and results *)

Inductive pyval : Type :=
  | PBool (b : bool)
  | PInt (z : Z)
  | PFloat (q : Q)
  | PComplex (re im : Q)
  | PStr (s : string).

(** The built-in exceptions the program can raise, and [UserError] for an
    exception class defined by a program (this program defines none).  The
    [OverflowError] of an int too large for a float is not represented: the
    ints of a document are taken to fit a float. *)
Inductive pyexn : Type :=
  | TypeError
  | KeyError
  | ValueError
  | ZeroDivisionError
  | UserError (name : string).

Inductive res (A : Type) : Type :=
  | Ok (a : A)
  | Raise (e : pyexn).
Arguments Ok {A} a.
Arguments Raise {A} e.

Definition res_bind {A B} (f : A -> res B) (r : res A) : res B :=
  match r with
  | Ok a => f a
  | Raise e => Raise e
  end.

#[global] Instance res_mret : MRet res := fun _ a => Ok a.
#[global] Instance res_mbind : MBind res := fun _ _ f r => res_bind f r.

(** The sentinel returned by the zero guard: the empty string. *)
Definition NotApplicable : pyval := PStr "".

(** ** The numeric tower *)

Inductive num : Type :=
  | NInt (z : Z)
  | NFloat (q : Q)
  | NComplex (re im : Q).

Definition as_num (v : pyval) : option num :=
  match v with
  | PBool b => Some (NInt (Z.b2z b))
  | PInt z => Some (NInt z)
  | PFloat q => Some (NFloat q)
  | PComplex re im => Some (NComplex re im)
  | PStr _ => None
  end.

(** The rational value of a real number ([None] for a complex). *)
Definition num_real (n : num) : option Q :=
  match n with
  | NInt z => Some (inject_Z z)
  | NFloat q => Some q
  | NComplex _ _ => None
  end.

Definition num_complex (n : num) : Q * Q :=
  match n with
  | NInt z => (inject_Z z, 0%Q)
  | NFloat q => (q, 0%Q)
  | NComplex re im => (re, im)
  end.

Definition as_real (v : pyval) : option Q :=
  match as_num v with
  | Some n => num_real n
  | None => None
  end.

Definition Qltb (a b : Q) : bool := negb (Qle_bool b a).

Definition num_is_zero (n : num) : bool :=
  match n with
  | NInt z => Z.eqb z 0
  | NFloat q => Qeq_bool q 0
  | NComplex re im => Qeq_bool re 0 && Qeq_bool im 0
  end.

(** Arithmetic of two numbers: int with int stays int, a complex operand
    makes the result complex, anything else is a float. *)
Definition num_binop (fi : Z -> Z -> Z) (ff : Q -> Q -> Q)
    (fc : Q * Q -> Q * Q -> Q * Q) (a b : num) : pyval :=
  match a, b with
  | NInt x, NInt y => PInt (fi x y)
  | NInt x, NFloat y => PFloat (Qred (ff (inject_Z x) y))
  | NFloat x, NInt y => PFloat (Qred (ff x (inject_Z y)))
  | NFloat x, NFloat y => PFloat (Qred (ff x y))
  | _, _ =>
      let c := fc (num_complex a) (num_complex b) in
      PComplex (Qred (fst c)) (Qred (snd c))
  end.

Definition cadd (a b : Q * Q) : Q * Q := ((fst a + fst b)%Q, (snd a + snd b)%Q).
Definition csub (a b : Q * Q) : Q * Q := ((fst a - fst b)%Q, (snd a - snd b)%Q).
Definition cmul (a b : Q * Q) : Q * Q :=
  ((fst a * fst b - snd a * snd b)%Q, (fst a * snd b + snd a * fst b)%Q).
Definition cdiv (a b : Q * Q) : Q * Q :=
  let d := (fst b * fst b + snd b * snd b)%Q in
  (((fst a * fst b + snd a * snd b) / d)%Q,
   ((snd a * fst b - fst a * snd b) / d)%Q).

(** [s * n] on a string: [n] copies of [s], none when [n <= 0]. *)
Definition str_repeat (s : string) (n : Z) : string :=
  Nat.iter (Z.to_nat n) (String.append s) "".

(** [a + b] *)
Definition py_add (a b : pyval) : res pyval :=
  match as_num a, as_num b with
  | Some x, Some y => Ok (num_binop Z.add Qplus cadd x y)
  | None, None =>
      match a, b with
      | PStr s, PStr t => Ok (PStr (String.append s t))
      | _, _ => Raise TypeError
      end
  | _, _ => Raise TypeError
  end.

(** [a - b] *)
Definition py_sub (a b : pyval) : res pyval :=
  match as_num a, as_num b with
  | Some x, Some y => Ok (num_binop Z.sub Qminus csub x y)
  | _, _ => Raise TypeError
  end.

(** [a * b]; a string times an int (or bool) is a repetition. *)
Definition py_mul (a b : pyval) : res pyval :=
  match as_num a, as_num b with
  | Some x, Some y => Ok (num_binop Z.mul Qmult cmul x y)
  | None, Some (NInt n) =>
      match a with PStr s => Ok (PStr (str_repeat s n)) | _ => Raise TypeError end
  | Some (NInt n), None =>
      match b with PStr s => Ok (PStr (str_repeat s n)) | _ => Raise TypeError end
  | _, _ => Raise TypeError
  end.

(** [a / b]: true division, never an int. *)
Definition py_truediv (a b : pyval) : res pyval :=
  match as_num a, as_num b with
  | Some x, Some y =>
      if num_is_zero y then Raise ZeroDivisionError
      else match num_real x, num_real y with
           | Some p, Some q => Ok (PFloat (Qred (p / q)))
           | _, _ =>
               let c := cdiv (num_complex x) (num_complex y) in
               Ok (PComplex (Qred (fst c)) (Qred (snd c)))
           end
  | _, _ => Raise TypeError
  end.

(** [v != 0] *)
Definition py_ne_zero (v : pyval) : bool :=
  match as_num v with
  | Some n => negb (num_is_zero n)
  | None => true
  end.

(** Truth value of [v] in a condition. *)
Definition py_truthy (v : pyval) : bool :=
  match v with
  | PStr s => negb (String.eqb s "")
  | _ => py_ne_zero v
  end.

(** [a < b]: real numbers among themselves, strings among themselves. *)
Definition py_lt (a b : pyval) : res bool :=
  match as_real a, as_real b with
  | Some p, Some q => Ok (Qltb p q)
  | _, _ =>
      match a, b with
      | PStr s, PStr t => Ok (String.ltb s t)
      | _, _ => Raise TypeError
      end
  end.

(** [a > b] *)
Definition py_gt (a b : pyval) : res bool := py_lt b a.

(** Rounding of a rational to the nearest integer, ties to even. *)
Definition round_half_even_Z (x : Q) : Z :=
  let f := Qfloor x in
  let r := (x - inject_Z f)%Q in
  if Qltb r (1 # 2) then f
  else if Qltb (1 # 2) r then f + 1
  else if Z.even f then f else f + 1.

Definition round_half_even (q : Q) (ndigits : nat) : Q :=
  let s := inject_Z (10 ^ Z.of_nat ndigits) in
  Qred (inject_Z (round_half_even_Z (q * s)) / s).

(** [round(v, ndigits)] with [ndigits >= 0]: an int is returned as it is,
    a float is rounded to a float, anything else has no [__round__]. *)
Definition py_round (v : pyval) (ndigits : nat) : res pyval :=
  match v with
  | PBool b => Ok (PInt (Z.b2z b))
  | PInt z => Ok (PInt z)
  | PFloat q => Ok (PFloat (round_half_even q ndigits))
  | PComplex _ _ => Raise TypeError
  | PStr _ => Raise TypeError
  end.

(** [sum(vs)]: left fold of [+] from the int [0]. *)
Definition py_sum (vs : list pyval) : res pyval :=
  foldl (fun acc v => a ← acc; py_add a v) (Ok (PInt 0)) vs.

(** [isinstance(v, (int, float))]; a bool is an int. *)
Definition is_int_or_float (v : pyval) : bool :=
  match v with
  | PBool _ | PInt _ | PFloat _ => true
  | PComplex _ _ | PStr _ => false
  end.

(** ** Library functions on floats *)

(** [lib_log2 x] is the float [math.log(x, 2)] for [x > 0]; [lib_pow x y]
    is the float [pow(x, y)] where that is a float; [lib_cpow c y] is the
    complex [pow(c, y)]. *)
Record mathlib : Type := MathLib {
  lib_log2 : Q -> Q;
  lib_pow : Q -> Q -> Q;
  lib_cpow : Q * Q -> Q -> Q * Q
}.

Definition Q_is_integer (q : Q) : bool := Pos.eqb (Qden (Qred q)) 1.

(** ** Dictionaries *)

Abbreviation item := (gmap string pyval).

(** [d[k]] on a dict with string keys *)
Definition getitem (d : item) (k : string) : res pyval :=
  match d !! k with
  | Some v => Ok v
  | None => Raise KeyError
  end.

(** [d[k]] where the key is any value: only a string can be present. *)
Definition getitem_val (d : item) (k : pyval) : res pyval :=
  match k with
  | PStr s => getitem d s
  | _ => Raise KeyError
  end.

(** [d.get(k, dflt)] *)
Definition dict_get (d : item) (k : string) (dflt : pyval) : pyval :=
  default dflt (d !! k).

(** The rate parameters after [_PARAMETERS.get(section, {})]: a missing
    section is the empty dict. *)
Record params : Type := Params {
  gross_base_rates : item;
  max_takeoff_weight_adj : item;
  ilf_riebesell_curve : item
}.

(** ** State and exceptions

    A computation that mutates a store [S] and may raise: the store reached
    so far is kept when an exception is raised, as an in-place mutation is. *)

Definition stE (S A : Type) : Type := S -> S * res A.

Definition st_ret {S A} (a : A) : stE S A := fun s => (s, Ok a).

Definition st_bind {S A B} (f : A -> stE S B) (m : stE S A) : stE S B :=
  fun s =>
    match m s with
    | (s', Ok a) => f a s'
    | (s', Raise e) => (s', Raise e)
    end.

Definition st_lift {S A} (r : res A) : stE S A := fun s => (s, r).

#[global] Instance stE_mret {S} : MRet (stE S) := fun _ a => st_ret a.
#[global] Instance stE_mbind {S} : MBind (stE S) := fun _ _ f m => st_bind f m.

(** Reading [d[k]] and the assignment [d[k] = v] on the record in the store. *)
Definition rec_get (k : string) : stE item pyval := fun d => (d, getitem d k).
Definition rec_set (k : string) (v : pyval) : stE item unit :=
  fun d => (<[k:=v]> d, Ok tt).

(** The computation leaves the entry [k] of the record as it found it. *)
Definition frames {A} (k : string) (m : stE item A) : Prop :=
  forall d, (m d).1 !! k = d !! k.

(** [for x in xs: body], each element being its own object: the loop stops
    at the first exception, leaving the later elements untouched. *)
Fixpoint for_each (body : stE item unit) (xs : list item) : list item * res unit :=
  match xs with
  | [] => ([], Ok tt)
  | x :: rest =>
      match body x with
      | (x', Ok _) =>
          let '(rest', r) := for_each body rest in (x' :: rest', r)
      | (x', Raise e) => (x' :: rest, Raise e)
      end
  end.

(** ** model_operations.py *)

Section Operations.
Context (lib : mathlib) (P : params).

(** *** BaseModelOperations *)

Definition _execute_if_not_zero (value : pyval) (callback : unit -> res pyval)
    : res pyval :=
  if py_ne_zero value then callback tt else Ok NotApplicable.

Definition calculate_premium (final_rate value : pyval) : res pyval :=
  r ← _execute_if_not_zero value (fun _ => py_mul value final_rate);
  py_truediv r (PInt 100).

Definition calculate_total_net (product_list : list item)
    (insurance_type : string) : res pyval :=
  s ← py_sum (map (fun product => dict_get product insurance_type (PInt 0))
                  product_list);
  py_round s 0.

Definition calculate_total_gross (product_list : list item)
    (brokerage : pyval) (insurance_type : string) : res pyval :=
  hull_net ← calculate_total_net product_list insurance_type;
  d ← py_sub (PInt 1) brokerage;
  q ← py_truediv hull_net d;
  py_round q 0.

Definition calculate_premium_total (premiums : list pyval) : res pyval :=
  py_sum premiums.

(** *** DroneOperations *)

Definition hull_base_rate (drone_value : pyval) (in_percentage : bool)
    : res pyval :=
  base_rate ← _execute_if_not_zero drone_value
                (fun _ => getitem (gross_base_rates P) "hull");
  if in_percentage then py_mul base_rate (PInt 100) else Ok base_rate.

Definition hull_weight_adj (drone_value drone_weight : pyval) : res pyval :=
  _execute_if_not_zero drone_value
    (fun _ => getitem_val (max_takeoff_weight_adj P) drone_weight).

Definition hull_final_rate (drone_value drone_weight : pyval)
    (in_percentage : bool) : res pyval :=
  final_rate ← _execute_if_not_zero drone_value
                 (fun _ =>
                    a ← hull_base_rate drone_value false;
                    b ← hull_weight_adj drone_value drone_weight;
                    py_mul a b);
  if in_percentage then py_mul final_rate (PInt 100) else Ok final_rate.

(** [math.log(a, 2)]: a real number is required, and a positive one. *)
Definition math_log2 (a : pyval) : res pyval :=
  match as_real a with
  | Some q =>
      if Qle_bool q 0 then Raise ValueError
      else Ok (PFloat (lib_log2 lib q))
  | None => Raise TypeError
  end.

(** [pow(b, e)] for a float exponent [e], with the special cases of the
    interpreter written out: [x ** 0 = 1], [1 ** y = 1], [0 ** y] is [0]
    for [y > 0] and an error for [y < 0], and a negative base with a
    fractional exponent gives a complex number. *)
Definition float_pow (x y : Q) : res pyval :=
  if Qeq_bool y 0 then Ok (PFloat 1)
  else if Qeq_bool x 1 then Ok (PFloat 1)
  else if Qeq_bool x 0 then
    (if Qltb y 0 then Raise ZeroDivisionError else Ok (PFloat 0))
  else if Qltb x 0 && negb (Q_is_integer y) then
    let c := lib_cpow lib (x, 0%Q) y in Ok (PComplex (fst c) (snd c))
  else Ok (PFloat (lib_pow lib x y)).

Definition complex_pow (c : Q * Q) (y : Q) : res pyval :=
  if Qeq_bool y 0 then Ok (PComplex 1 0)
  else if Qeq_bool (fst c) 0 && Qeq_bool (snd c) 0 then
    (if Qltb y 0 then Raise ZeroDivisionError else Ok (PComplex 0 0))
  else let r := lib_cpow lib c y in Ok (PComplex (fst r) (snd r)).

Definition py_pow (b e : pyval) : res pyval :=
  match as_num b, as_real e with
  | Some (NComplex re im), Some y => complex_pow (re, im) y
  | Some (NInt z), Some y => float_pow (inject_Z z) y
  | Some (NFloat x), Some y => float_pow x y
  | _, _ => Raise TypeError
  end.

Definition __calculate_riesebell (base_limit z x : pyval) : res pyval :=
  q ← py_truediv x base_limit;
  a ← py_add (PInt 1) z;
  e ← math_log2 a;
  py_pow q e.

Definition tpl_base_rate (drone_value : pyval) (in_percentage : bool)
    : res pyval :=
  base_rate ← _execute_if_not_zero drone_value
                (fun _ => getitem (gross_base_rates P) "liability");
  if in_percentage then py_mul base_rate (PInt 100) else Ok base_rate.

Definition tpl_base_layer_premium (drone_value : pyval) : res pyval :=
  _execute_if_not_zero drone_value
    (fun _ => r ← tpl_base_rate drone_value false; py_mul r drone_value).

Definition tpl_ilf (drone_value tpl_limit tpl_excess : pyval) : res pyval :=
  base_limit ← getitem (ilf_riebesell_curve P) "base_limit";
  z ← getitem (ilf_riebesell_curve P) "z";
  tpl_sum ← py_add tpl_limit tpl_excess;
  _execute_if_not_zero drone_value
    (fun _ =>
       a ← __calculate_riesebell base_limit z tpl_sum;
       b ← __calculate_riesebell base_limit z tpl_excess;
       py_sub a b).

Definition tpl_layer_premium (drone_value tpl_limit tpl_excess : pyval)
    : res pyval :=
  _execute_if_not_zero drone_value
    (fun _ =>
       a ← tpl_base_layer_premium drone_value;
       b ← tpl_ilf drone_value tpl_limit tpl_excess;
       py_mul a b).

(** *** CameraOperations *)

(** The filter of the generator in [rate]:
    [drone["has_detachable_camera"] and drone["value"] > 0]. *)
Definition camera_eligible (drone : item) : res bool :=
  c ← getitem drone "has_detachable_camera";
  if py_truthy c then
    v ← getitem drone "value"; py_gt v (PInt 0)
  else Ok false.

(** [max] over the generator, consumed in order: [cur] is the largest
    rate so far; a later rate replaces it only when strictly greater;
    an exhausted generator that produced nothing is a [ValueError]. *)
Fixpoint max_rate (drones_list : list item) (cur : option pyval)
    : res pyval :=
  match drones_list with
  | [] =>
      match cur with
      | Some m => Ok m
      | None => Raise ValueError
      end
  | drone :: rest =>
      match camera_eligible drone with
      | Raise e => Raise e
      | Ok false => max_rate rest cur
      | Ok true =>
          match (v ← getitem drone "value";
                 w ← getitem drone "weight";
                 hull_final_rate v w false) with
          | Raise e => Raise e
          | Ok r =>
              match cur with
              | None => max_rate rest (Some r)
              | Some m =>
                  match py_gt r m with
                  | Raise e => Raise e
                  | Ok b => max_rate rest (Some (if b then r else m))
                  end
              end
          end
      end
  end.

Definition rate (drones_list : list item) (in_percentage : bool)
    : res pyval :=
  r ← max_rate drones_list None;
  if in_percentage then py_mul r (PInt 100) else Ok r.

End Operations.

(** *** PremiumAdjustments *)

(** A reference into a store of records: the position of the record, with
    the sort key read from it. *)
Definition keyed : Type := nat * pyval.

(** The key function of [sorted], applied to every record in order before
    any comparison is made. *)
Fixpoint sort_keys (field : string) (i : nat) (xs : list item)
    : res (list keyed) :=
  match xs with
  | [] => Ok []
  | x :: rest =>
      k ← getitem x field;
      ks ← sort_keys field (S i) rest;
      Ok ((i, k) :: ks)
  end.

(** Insertion into a list in descending key order: the new element passes
    only the strictly greater keys, so it stays in front of its ties. *)
Fixpoint insert_desc (x : keyed) (l : list keyed) : res (list keyed) :=
  match l with
  | [] => Ok [x]
  | y :: ys =>
      match py_lt (snd x) (snd y) with
      | Raise e => Raise e
      | Ok true => r ← insert_desc x ys; Ok (y :: r)
      | Ok false => Ok (x :: y :: ys)
      end
  end.

(** The order [sorted(..., reverse=True)] gives: descending keys, equal
    keys in their original order; comparing a string with a number is a
    [TypeError]. *)
Fixpoint sort_desc (l : list keyed) : res (list keyed) :=
  match l with
  | [] => Ok []
  | x :: xs => s ← sort_desc xs; insert_desc x s
  end.

(** [sorted(xs, key=lambda x: x[field], reverse=True)], as references. *)
Definition sorted_by_desc (field : string) (xs : list item) : res (list nat) :=
  ks ← sort_keys field 0 xs;
  s ← sort_desc ks;
  Ok (s.*1).

(** [for idx, x in enumerate(view): if idx < limit: continue; x[field] = v]
    on the records the view refers to; [idx] is the rank of the first
    reference of [view]. *)
Fixpoint overwrite_beyond (field : string) (v : pyval) (limit : Z)
    (idx : nat) (view : list nat) (store : list item) : list item :=
  match view with
  | [] => store
  | i :: rest =>
      let store' :=
        if Z.of_nat idx <? limit then store
        else alter (insert field v) i store in
      overwrite_beyond field v limit (S idx) rest store'
  end.

Definition limited_drones_in_use (drones : list item) (max_drones_in_air : Z)
    : res (list item) :=
  sorted_drones ← sorted_by_desc "hull_premium" drones;
  Ok (overwrite_beyond "hull_premium" (PInt 150) max_drones_in_air 0
        sorted_drones drones).

Definition limited_cameras_in_use (cameras : list item) (max_drones_in_air : Z)
    (drones : list item) : res (list item) :=
  if max_drones_in_air <? Z.of_nat (length cameras) then
    cameras_sorted ← sorted_by_desc "value" cameras;
    Ok (overwrite_beyond "hull_premium" (PInt 50) max_drones_in_air 0
          cameras_sorted cameras)
  else Ok cameras.

(** ** main.py: the rating pass *)

(** The fleet document.  A missing ["drones"] or ["detachable_cameras"]
    entry is read as the empty list by [model_data.get(_, [])]; a missing
    ["net_prem"] or ["gross_prem"] is [None]: the totals then go to a fresh
    dict that is not attached to the document. *)
Record model_data : Type := ModelData {
  drones : list item;
  detachable_cameras : list item;
  brokerage : option pyval;
  net_prem : option item;
  gross_prem : option item
}.

Section Orchestrator.
Context (lib : mathlib) (P : params).

(** The body of [for drone in drones]. *)
Definition rate_drone : stE item unit :=
  v ← rec_get "value";
  r ← st_lift (hull_base_rate P v true);
  rec_set "hull_base_rate" r;;
  v ← rec_get "value";
  w ← rec_get "weight";
  r ← st_lift (hull_weight_adj P v w);
  rec_set "hull_weight_adjustment" r;;
  v ← rec_get "value";
  w ← rec_get "weight";
  hull_final ← st_lift (hull_final_rate P v w true);
  r ← st_lift (py_round hull_final 1);
  rec_set "hull_final_rate" r;;
  f ← rec_get "hull_final_rate";
  v ← rec_get "value";
  r ← st_lift (calculate_premium f v);
  rec_set "hull_premium" r;;
  v ← rec_get "value";
  r ← st_lift (tpl_base_rate P v true);
  rec_set "tpl_base_rate" r;;
  v ← rec_get "value";
  r ← st_lift (tpl_base_layer_premium P v);
  rec_set "tpl_base_layer_premium" r;;
  v ← rec_get "value";
  l ← rec_get "tpl_limit";
  x ← rec_get "tpl_excess";
  ilf ← st_lift (tpl_ilf lib P v l x);
  r ← st_lift (py_round ilf 2);
  rec_set "tpl_ilf" r;;
  v ← rec_get "value";
  l ← rec_get "tpl_limit";
  x ← rec_get "tpl_excess";
  layer ← st_lift (tpl_layer_premium lib P v l x);
  r ← st_lift (py_round layer 0);
  rec_set "tpl_layer_premium" r.

(** The second half of that body, from [drone['tpl_base_rate'] = ...]:
    the liability fields.  Every step reads its inputs from the record
    again, so the half stands on its own. *)
Definition rate_drone_liability : stE item unit :=
  v ← rec_get "value";
  r ← st_lift (tpl_base_rate P v true);
  rec_set "tpl_base_rate" r;;
  v ← rec_get "value";
  r ← st_lift (tpl_base_layer_premium P v);
  rec_set "tpl_base_layer_premium" r;;
  v ← rec_get "value";
  l ← rec_get "tpl_limit";
  x ← rec_get "tpl_excess";
  ilf ← st_lift (tpl_ilf lib P v l x);
  r ← st_lift (py_round ilf 2);
  rec_set "tpl_ilf" r;;
  v ← rec_get "value";
  l ← rec_get "tpl_limit";
  x ← rec_get "tpl_excess";
  layer ← st_lift (tpl_layer_premium lib P v l x);
  r ← st_lift (py_round layer 0);
  rec_set "tpl_layer_premium" r.

(** The body of [for camera in cameras]. *)
Definition rate_camera (highest_drone_rate : pyval) : stE item unit :=
  r ← st_lift (py_round highest_drone_rate 1);
  rec_set "hull_rate" r;;
  v ← rec_get "value";
  p ← st_lift (calculate_premium highest_drone_rate v);
  rec_set "hull_premium" p.

(** The values of a summary dict that are ints or floats, in the key
    order of the map where the code has the insertion order of the dict:
    the properties take this list up to a permutation. *)
Definition numeric_values (d : item) : list pyval :=
  List.filter is_int_or_float (map_to_list d).*2.

Definition net_totals (ds cs : list item) : stE item unit :=
  t ← st_lift (calculate_total_net ds "hull_premium");
  rec_set "drones_hull" t;;
  t ← st_lift (calculate_total_net ds "tpl_layer_premium");
  rec_set "drones_tpl" t;;
  t ← st_lift (calculate_total_net cs "hull_premium");
  rec_set "cameras_hull" t;;
  net_sum ← (fun d => (d, Ok (numeric_values d)));
  t ← st_lift (calculate_premium_total net_sum);
  rec_set "total" t.

Definition gross_totals (ds cs : list item) (b : pyval) : stE item unit :=
  t ← st_lift (calculate_total_gross ds b "hull_premium");
  rec_set "drones_hull" t;;
  t ← st_lift (calculate_total_gross ds b "tpl_layer_premium");
  rec_set "drones_tpl" t;;
  t ← st_lift (calculate_total_gross cs b "hull_premium");
  rec_set "cameras_hull" t;;
  gross_sum ← (fun d => (d, Ok (numeric_values d)));
  t ← st_lift (calculate_premium_total gross_sum);
  rec_set "total" t.

(** A summary dict is written back only where the document holds one. *)
Definition attach (old : option item) (new : item) : option item :=
  match old with
  | Some _ => Some new
  | None => None
  end.

Definition compute_model (md : model_data) : model_data * res unit :=
  let '(ds, r) := for_each rate_drone (drones md) in
  let md1 := ModelData ds (detachable_cameras md) (brokerage md)
               (net_prem md) (gross_prem md) in
  match r with
  | Raise e => (md1, Raise e)
  | Ok _ =>
  match rate P ds true with
  | Raise e => (md1, Raise e)
  | Ok highest_drone_rate =>
  let '(cs, r) := for_each (rate_camera highest_drone_rate)
                    (detachable_cameras md) in
  let md2 := ModelData ds cs (brokerage md) (net_prem md) (gross_prem md) in
  match r with
  | Raise e => (md2, Raise e)
  | Ok _ =>
  let '(np, r) := net_totals ds cs (default ∅ (net_prem md)) in
  let md3 := ModelData ds cs (brokerage md) (attach (net_prem md) np)
               (gross_prem md) in
  match r with
  | Raise e => (md3, Raise e)
  | Ok _ =>
  match brokerage md with
  | None => (md3, Raise KeyError)
  | Some b =>
  let '(gp, r) := gross_totals ds cs b (default ∅ (gross_prem md)) in
  (ModelData ds cs (brokerage md) (attach (net_prem md) np)
     (attach (gross_prem md) gp), r)
  end end end end end.

End Orchestrator.

(** ** Concrete parameters *)

(** The rate table of the reference tests. *)
Definition fixture_params : params :=
  Params
    (<["hull" := PFloat (3 # 5)]> (<["liability" := PFloat (1 # 5)]> ∅))
    (<["0 - 5kg" := PInt 1]>
       (<["5 - 10kg" := PFloat (6 # 5)]>
          (<["10 - 20kg" := PFloat (8 # 5)]>
             (<[">20kg" := PFloat (5 # 2)]> ∅))))
    (<["base_limit" := PInt 1000000]> (<["z" := PFloat (1 # 5)]> ∅)).

(** A library for running the model on concrete inputs: the binary
    logarithm rounded away from zero to an integer (exact on the powers of
    two) and powers with the exponent truncated to an integer (exact for
    integer exponents). *)
Definition dyadic_log2 (x : Q) : Q :=
  if Qle_bool 1 x then inject_Z (Z.log2_up (Qceiling x))
  else inject_Z (- Z.log2_up (Qceiling (/ x))).

Definition dyadic_pow (x y : Q) : Q := Qred (Qpower x (Qfloor y)).

Definition dyadic_cpow (c : Q * Q) (y : Q) : Q * Q :=
  let n := Qfloor y in
  let p := Nat.iter (Z.to_nat (Z.abs n)) (cmul c) (1%Q, 0%Q) in
  let r := if 0 <=? n then p else cdiv (1%Q, 0%Q) p in
  (Qred (fst r), Qred (snd r)).

Definition dyadic_lib : mathlib := MathLib dyadic_log2 dyadic_pow dyadic_cpow.

(** ** Reference definitions for the statements *)

(** A real number: bool, int or float. *)
Definition is_real (v : pyval) : bool :=
  match as_real v with Some _ => true | None => false end.

Definition real_of (v : pyval) : Q := default 0%Q (as_real v).

(** The record carries [field] and it is a real number. *)
Definition field_real (field : string) (d : item) : bool :=
  match d !! field with Some v => is_real v | None => false end.

(** The record carries a real number under [field], or no [field] at all. *)
Definition field_real_or_missing (field : string) (d : item) : bool :=
  match d !! field with Some v => is_real v | None => true end.

(** A priced fleet: every record carries a real [hull_premium]. *)
Definition priced (ds : list item) : bool :=
  forallb (field_real "hull_premium") ds.

(** The net total in the words of the specification: the sum of
    [item[field]], a missing field counting as 0, rounded to 0 decimals. *)
Definition Qsum (qs : list Q) : Q := foldr Qplus 0%Q qs.

Definition spec_total_net (items : list item) (field : string) : Q :=
  round_half_even
    (Qsum (map (fun it => real_of (default (PInt 0) (it !! field))) items)) 0.

(** The gross total in the words of the specification. *)
Definition spec_total_gross (items : list item) (brokerage : Q)
    (field : string) : Q :=
  round_half_even (spec_total_net items field / (1 - brokerage))%Q 0.


(** The curve in the words of the specification:
    [curve(base_limit, z, x) = (x / base_limit) ^ log2(1 + z)]. *)
Definition curve (lib : mathlib) (base_limit z x : pyval) : res pyval :=
  ratio ← py_truediv x base_limit;
  exponent ← (s ← py_add (PInt 1) z; math_log2 lib s);
  py_pow lib ratio exponent.

(** The exponent [log2(1 + z)] of the curve is a positive float. *)
Definition exponent_positive (lib : mathlib) (z : pyval) : Prop :=
  exists s e, py_add (PInt 1) z = Ok s /\ math_log2 lib s = Ok (PFloat e)
              /\ (0 < e)%Q.

(** Eligibility for the camera rate in the words of the specification:
    [has_detachable_camera] is true and [value > 0]. *)
Definition eligible (d : item) : bool :=
  match d !! "has_detachable_camera", d !! "value" with
  | Some c, Some v =>
      py_truthy c && match as_real v with Some q => Qltb 0 q | None => false end
  | _, _ => false
  end.

(** The hull rate of a drone record, as the generator of [rate] yields it. *)
Definition drone_rate (P : params) (d : item) : res pyval :=
  v ← getitem d "value";
  w ← getitem d "weight";
  hull_final_rate P v w false.

(** A drone record the camera rate can read: the three fields are there,
    the value is a real number and the band has a real multiplier. *)
Definition drone_ok (P : params) (d : item) : bool :=
  match d !! "has_detachable_camera", d !! "value", d !! "weight" with
  | Some _, Some v, Some (PStr s) =>
      is_real v && field_real s (max_takeoff_weight_adj P)
  | _, _, _ => false
  end.

(** The sort key of the record at position [i]. *)
Definition key_at (field : string) (ds : list item) (i : nat) : Q :=
  real_of (default (PInt 0) (ds !! i ≫= (fun d : item => d !! field))).

(** [a] is ranked before [b]: a greater key, or an equal key and an
    earlier position. *)
Definition ranked_before (key : nat -> Q) (a b : nat) : Prop :=
  (key b < key a)%Q \/ ((key b == key a)%Q /\ (a < b)%nat).

(** The same order on references, and a reference whose key is the real
    number that [key] gives for its position. *)
Definition keyed_before (key : nat -> Q) (a b : keyed) : Prop :=
  ranked_before key a.1 b.1.

Definition keyed_ok (key : nat -> Q) (x : keyed) : Prop :=
  is_real x.2 = true /\ real_of x.2 = key x.1.

(** [ranking] ranks the positions [0..n-1] by descending key, equal keys
    in their original order. *)
Definition ranks_desc_stable (key : nat -> Q) (n : nat) (ranking : list nat)
    : Prop :=
  Permutation ranking (seq 0 n) /\
  forall p1 p2 i j, (p1 < p2)%nat ->
    ranking !! p1 = Some i -> ranking !! p2 = Some j ->
    ranked_before key i j.

(** The number of records whose [hull_premium] equals [q]. *)
Definition count_premium (q : Q) (ds : list item) : nat :=
  length (List.filter
            (fun d : item =>
               match d !! "hull_premium" with
               | Some v => match as_real v with
                           | Some p => Qeq_bool p q
                           | None => false
                           end
               | None => false
               end) ds).

(** ** Concrete fleets *)

(** A drone record as the fleet input document gives it. *)
Definition drone_record (value : pyval) (weight : string) (camera : bool)
    (tpl_limit tpl_excess : pyval) : item :=
  <["value" := value]>
    (<["weight" := PStr weight]>
       (<["has_detachable_camera" := PBool camera]>
          (<["tpl_limit" := tpl_limit]> (<["tpl_excess" := tpl_excess]> ∅)))).

(** A record that carries only a [hull_premium]. *)
Definition premium_record (p : Z) : item := <["hull_premium" := PInt p]> ∅.

(** The three drones of the reference tests, already priced. *)
Definition priced_drone (value : Z) (weight : string) (camera : bool)
    (tpl_limit tpl_excess premium : Z) : item :=
  <["hull_premium" := PInt premium]>
    (drone_record (PInt value) weight camera (PInt tpl_limit) (PInt tpl_excess)).

Definition reference_drones : list item :=
  [ priced_drone 10000 "0 - 5kg" true 1000000 0 600;
    priced_drone 12000 "10 - 20kg" false 4000000 1000000 1152;
    priced_drone 15000 "5 - 10kg" true 5000000 5000000 1080 ].

Definition fleet_of (ds : list item) : model_data :=
  ModelData ds [] (Some (PFloat (3 # 10))) None None.

(** A fleet whose only drone has value 0. *)
Definition zero_value_drone : item :=
  drone_record (PInt 0) "0 - 5kg" true (PInt 1000000) (PInt 0).

(** A fleet whose only drone has a weight band that is not in the table. *)
Definition unknown_band_drone : item :=
  drone_record (PInt 10000) "50kg+" true (PInt 1000000) (PInt 0).

(** A fleet whose only drone has no detachable camera. *)
Definition no_camera_drone : item :=
  drone_record (PInt 10000) "0 - 5kg" false (PInt 1000000) (PInt 0).

(** Curve parameters with [z = 1], where [log2(1 + z) = 1] exactly. *)
Definition doubling_params : params :=
  Params (gross_base_rates fixture_params)
    (max_takeoff_weight_adj fixture_params)
    (<["base_limit" := PInt 1000000]> (<["z" := PInt 1]> ∅)).

(** A drone of negative value, and a regular drone with a camera. *)
Definition negative_value_drone : item :=
  drone_record (PInt (-10000)) "0 - 5kg" true (PInt 1000000) (PInt 0).

Definition regular_drone : item :=
  drone_record (PInt 10000) "0 - 5kg" true (PInt 1000000) (PInt 0).


(** Two priced records: the first at the flat rate already. *)
Definition flat_rate_fleet : list item := [premium_record 150; premium_record 100].

(** A rate table whose curve section is empty. *)
Definition no_curve_params : params :=
  Params (gross_base_rates fixture_params)
    (max_takeoff_weight_adj fixture_params) ∅.

(** Curve parameters with a base limit of 0, and with [z = -1]. *)
Definition zero_base_limit_params : params :=
  Params (gross_base_rates fixture_params)
    (max_takeoff_weight_adj fixture_params)
    (<["base_limit" := PInt 0]> (<["z" := PFloat (1 # 5)]> ∅)).

Definition minus_one_z_params : params :=
  Params (gross_base_rates fixture_params)
    (max_takeoff_weight_adj fixture_params)
    (<["base_limit" := PInt 1000000]> (<["z" := PInt (-1)]> ∅)).

(** The four cameras of the reference tests, priced. *)
Definition camera_record (value premium : Z) : item :=
  <["value" := PInt value]> (<["hull_premium" := PInt premium]> ∅).

Definition reference_cameras : list item :=
  [ camera_record 5000 360; camera_record 2500 180;
    camera_record 1500 108; camera_record 2000 144 ].

(** The fields the rating pass writes on a drone and on a camera. *)
Definition drone_computed_fields : list string :=
  [ "hull_base_rate"; "hull_weight_adjustment"; "hull_final_rate";
    "hull_premium"; "tpl_base_rate"; "tpl_base_layer_premium"; "tpl_ilf";
    "tpl_layer_premium" ].

Definition camera_computed_fields : list string := [ "hull_rate"; "hull_premium" ].

(** The entry [k] of every record of a list, in order. *)
Definition column (k : string) (xs : list item) : list (option pyval) :=
  (fun d : item => d !! k) <$> xs.

(** A document without drones, and a document without a brokerage. *)
Definition droneless_fleet : model_data :=
  ModelData [] [camera_record 5000 0] (Some (PFloat (3 # 10))) (Some ∅) (Some ∅).

Definition fleet_without_brokerage : model_data :=
  ModelData [regular_drone] [] None None None.

(** The entries a summary dict holds besides the three subtotals. *)
Definition other_entries (d : item) : item :=
  delete "drones_hull" (delete "drones_tpl" (delete "cameras_hull" d)).

(** The summary dict of a document that was rated before. *)
Definition rated_summary : item :=
  <["drones_hull" := PInt 600]>
    (<["drones_tpl" := PInt 0]>
       (<["cameras_hull" := PInt 0]> (<["total" := PInt 600]> ∅))).


(** A drone record the loop body can rate to the end: the camera rate can
    read it, its value is not 0, and its limit and excess are there, with a
    real layer factor. *)
Definition drone_rateable (lib : mathlib) (P : params) (d : item) : bool :=
  drone_ok P d &&
  match d !! "value", d !! "tpl_limit", d !! "tpl_excess" with
  | Some v, Some l, Some x =>
      py_ne_zero v &&
      match tpl_ilf lib P v l x with
      | Ok ilf => is_real ilf
      | Raise _ => false
      end
  | _, _, _ => false
  end.

(** A camera record the camera loop can rate: a real value other than 0. *)
Definition camera_rateable (c : item) : bool :=
  match c !! "value" with
  | Some v => is_real v && py_ne_zero v
  | None => false
  end.

(** Every field of the list is a real number on the record. *)
Definition fields_real (fields : list string) (d : item) : bool :=
  forallb (fun k => field_real k d) fields.

(** A document of two drones and one camera, with its summaries. *)
Definition reference_document : model_data :=
  ModelData
    [ regular_drone;
      drone_record (PInt 12000) "10 - 20kg" false (PInt 4000000) (PInt 1000000) ]
    [ camera_record 5000 0 ]
    (Some (PFloat (3 # 10))) (Some ∅) (Some ∅).



(** * Properties *)

(** ** The zero guard *)

Lemma guard_zero (value : pyval) (callback : unit -> res pyval) :
  py_ne_zero value = false -> _execute_if_not_zero value callback = Ok NotApplicable.
Proof. unfold _execute_if_not_zero. intros ->. reflexivity. Qed.

Lemma guard_nonzero (value : pyval) (callback : unit -> res pyval) :
  py_ne_zero value = true -> _execute_if_not_zero value callback = callback tt.
Proof. unfold _execute_if_not_zero. intros ->. reflexivity. Qed.

Lemma sentinel_times_100 : py_mul NotApplicable (PInt 100) = Ok NotApplicable.
Proof. reflexivity. Qed.

Lemma sentinel_not_a_number : as_num NotApplicable = None.
Proof. reflexivity. Qed.

Section ZeroValue.
Context (lib : mathlib) (P : params) (value : pyval).
Hypothesis Hzero : py_ne_zero value = false.

Lemma hull_base_rate_zero in_percentage :
  hull_base_rate P value in_percentage = Ok NotApplicable.
Proof.
  unfold hull_base_rate. rewrite guard_zero by assumption.
  destruct in_percentage; reflexivity.
Qed.

Lemma tpl_base_rate_zero in_percentage :
  tpl_base_rate P value in_percentage = Ok NotApplicable.
Proof.
  unfold tpl_base_rate. rewrite guard_zero by assumption.
  destruct in_percentage; reflexivity.
Qed.

Lemma hull_weight_adj_zero w : hull_weight_adj P value w = Ok NotApplicable.
Proof. unfold hull_weight_adj. apply guard_zero, Hzero. Qed.

Lemma hull_final_rate_zero w in_percentage :
  hull_final_rate P value w in_percentage = Ok NotApplicable.
Proof.
  unfold hull_final_rate. rewrite guard_zero by assumption.
  destruct in_percentage; reflexivity.
Qed.

Lemma tpl_base_layer_premium_zero :
  tpl_base_layer_premium P value = Ok NotApplicable.
Proof. unfold tpl_base_layer_premium. apply guard_zero, Hzero. Qed.

Lemma tpl_layer_premium_zero l x :
  tpl_layer_premium lib P value l x = Ok NotApplicable.
Proof. unfold tpl_layer_premium. apply guard_zero, Hzero. Qed.

Lemma calculate_premium_zero final_rate :
  calculate_premium final_rate value = Raise TypeError.
Proof.
  unfold calculate_premium. rewrite guard_zero by assumption. reflexivity.
Qed.
End ZeroValue.

Lemma bind_Ok {A B} (a : A) (f : A -> res B) : (Ok a ≫= f) = f a.
Proof. reflexivity. Qed.

Lemma res_bind_ok {A} (r : res A) : (r ≫= fun a => Ok a) = r.
Proof. destruct r; reflexivity. Qed.

(** ** Real numbers of the embedding *)

Lemma Qltb_lt (a b : Q) : Qltb a b = true <-> (a < b)%Q.
Proof.
  unfold Qltb. rewrite negb_true_iff. split.
  - intros H. apply Qnot_le_lt. intros Hle.
    apply Qle_bool_iff in Hle. congruence.
  - intros H. destruct (Qle_bool b a) eqn:E; [|reflexivity].
    apply Qle_bool_iff in E. exfalso. exact (Qlt_not_le _ _ H E).
Qed.

Lemma Qltb_ge (a b : Q) : Qltb a b = false <-> (b <= a)%Q.
Proof.
  unfold Qltb. rewrite negb_false_iff. apply Qle_bool_iff.
Qed.

Lemma Qltb_comp (a a' b b' : Q) :
  (a == a')%Q -> (b == b')%Q -> Qltb a b = Qltb a' b'.
Proof.
  intros Ha Hb. destruct (Qltb a' b') eqn:E.
  - apply Qltb_lt. apply Qltb_lt in E. rewrite Ha, Hb. exact E.
  - apply Qltb_ge. apply Qltb_ge in E. rewrite Ha, Hb. exact E.
Qed.

Lemma Qeq_bool_comp (a a' b b' : Q) :
  (a == a')%Q -> (b == b')%Q -> Qeq_bool a b = Qeq_bool a' b'.
Proof.
  intros Ha Hb. destruct (Qeq_bool a' b') eqn:E.
  - apply Qeq_bool_iff. apply Qeq_bool_iff in E. rewrite Ha, Hb. exact E.
  - destruct (Qeq_bool a b) eqn:E'; [|reflexivity].
    apply Qeq_bool_iff in E'. rewrite Ha, Hb in E'.
    apply Qeq_bool_iff in E'. congruence.
Qed.

Lemma as_real_num (v : pyval) (q : Q) :
  as_real v = Some q ->
  exists n, as_num v = Some n /\ num_real n = Some q /\
            (forall z, n = NInt z -> q = inject_Z z) /\
            (n = NInt (Qnum q) /\ q = inject_Z (Qnum q) \/ n = NFloat q).
Proof.
  unfold as_real. destruct (as_num v) as [n|]; [|discriminate].
  intros Hn. exists n. split; [reflexivity|]. split; [exact Hn|].
  destruct n; simpl in Hn; try discriminate; injection Hn as <-.
  - split; [intros ? [= <-]; reflexivity|]. left. split; reflexivity.
  - split; [discriminate|]. right. reflexivity.
Qed.

Lemma num_is_zero_real (n : num) (q : Q) :
  num_real n = Some q -> num_is_zero n = Qeq_bool q 0.
Proof.
  destruct n; simpl; intros [= <-]; [|reflexivity].
  unfold Qeq_bool. simpl. rewrite Z.mul_1_r. reflexivity.
Qed.

Lemma py_ne_zero_real (v : pyval) (q : Q) :
  as_real v = Some q -> py_ne_zero v = negb (Qeq_bool q 0).
Proof.
  intros H. destruct (as_real_num _ _ H) as (n & Hn & Hr & _).
  unfold py_ne_zero. rewrite Hn. f_equal. apply num_is_zero_real, Hr.
Qed.

(** The arithmetic of two real numbers is the arithmetic of their values. *)
Lemma num_binop_real fi ff fc (x y : num) (p q : Q) :
  (forall a b, (inject_Z (fi a b) == ff (inject_Z a) (inject_Z b))%Q) ->
  num_real x = Some p -> num_real y = Some q ->
  exists r, as_real (num_binop fi ff fc x y) = Some r /\ (r == ff p q)%Q.
Proof.
  intros Hfi Hx Hy.
  destruct x, y; simpl in Hx, Hy; try discriminate;
    injection Hx as <-; injection Hy as <-; simpl;
    eexists; (split; [reflexivity|]); try apply Qred_correct.
  apply Hfi.
Qed.

Lemma py_add_real (a b : pyval) (p q : Q) :
  as_real a = Some p -> as_real b = Some q ->
  exists c r, py_add a b = Ok c /\ as_real c = Some r /\ (r == p + q)%Q.
Proof.
  intros Ha Hb.
  destruct (as_real_num _ _ Ha) as (x & Hx & Hxr & _).
  destruct (as_real_num _ _ Hb) as (y & Hy & Hyr & _).
  unfold py_add. rewrite Hx, Hy.
  destruct (num_binop_real Z.add Qplus cadd x y p q) as (r & Hr & Hrq);
    [intros; rewrite inject_Z_plus; reflexivity | assumption | assumption |].
  eauto.
Qed.

Lemma py_sub_real (a b : pyval) (p q : Q) :
  as_real a = Some p -> as_real b = Some q ->
  exists c r, py_sub a b = Ok c /\ as_real c = Some r /\ (r == p - q)%Q.
Proof.
  intros Ha Hb.
  destruct (as_real_num _ _ Ha) as (x & Hx & Hxr & _).
  destruct (as_real_num _ _ Hb) as (y & Hy & Hyr & _).
  unfold py_sub. rewrite Hx, Hy.
  destruct (num_binop_real Z.sub Qminus csub x y p q) as (r & Hr & Hrq);
    [ | assumption | assumption | eauto].
  intros u w. unfold Z.sub, Qminus. rewrite inject_Z_plus, inject_Z_opp.
  reflexivity.
Qed.

Lemma py_mul_real (a b : pyval) (p q : Q) :
  as_real a = Some p -> as_real b = Some q ->
  exists c r, py_mul a b = Ok c /\ as_real c = Some r /\ (r == p * q)%Q.
Proof.
  intros Ha Hb.
  destruct (as_real_num _ _ Ha) as (x & Hx & Hxr & _).
  destruct (as_real_num _ _ Hb) as (y & Hy & Hyr & _).
  unfold py_mul. rewrite Hx, Hy.
  destruct (num_binop_real Z.mul Qmult cmul x y p q) as (r & Hr & Hrq);
    [intros; rewrite inject_Z_mult; reflexivity | assumption | assumption |].
  exists (num_binop Z.mul Qmult cmul x y), r. destruct x; auto.
Qed.

Lemma py_truediv_real (a b : pyval) (p q : Q) :
  as_real a = Some p -> as_real b = Some q ->
  py_truediv a b =
    if Qeq_bool q 0 then Raise ZeroDivisionError else Ok (PFloat (Qred (p / q))).
Proof.
  intros Ha Hb.
  destruct (as_real_num _ _ Ha) as (x & Hx & Hxr & _).
  destruct (as_real_num _ _ Hb) as (y & Hy & Hyr & _).
  unfold py_truediv. rewrite Hx, Hy, (num_is_zero_real y q Hyr), Hxr, Hyr.
  reflexivity.
Qed.

Lemma py_lt_real (a b : pyval) (p q : Q) :
  as_real a = Some p -> as_real b = Some q -> py_lt a b = Ok (Qltb p q).
Proof. unfold py_lt. intros -> ->. reflexivity. Qed.

(** ** Rounding *)

Lemma round_half_even_Z_comp (x y : Q) :
  (x == y)%Q -> round_half_even_Z x = round_half_even_Z y.
Proof.
  intros H. unfold round_half_even_Z.
  rewrite (Qfloor_comp _ _ H).
  assert (Hr : (x - inject_Z (Qfloor y) == y - inject_Z (Qfloor y))%Q)
    by (rewrite H; reflexivity).
  rewrite (Qltb_comp _ _ (1 # 2) (1 # 2) Hr (Qeq_refl _)).
  rewrite (Qltb_comp (1 # 2) (1 # 2) _ _ (Qeq_refl _) Hr).
  reflexivity.
Qed.

Lemma round_half_even_comp (x y : Q) (n : nat) :
  (x == y)%Q -> round_half_even x n = round_half_even y n.
Proof.
  intros H. unfold round_half_even. apply Qred_complete.
  set (s := inject_Z (10 ^ Z.of_nat n)).
  rewrite (round_half_even_Z_comp (x * s) (y * s)); [reflexivity|].
  rewrite H. reflexivity.
Qed.

Lemma round_half_even_Z_int (k : Z) : round_half_even_Z (inject_Z k) = k.
Proof.
  unfold round_half_even_Z. rewrite Qfloor_Z.
  replace (Qltb (inject_Z k - inject_Z k) (1 # 2)) with true; [reflexivity|].
  symmetry. apply Qltb_lt.
  assert (E : (inject_Z k - inject_Z k == 0)%Q) by ring.
  rewrite E. reflexivity.
Qed.

Lemma round_half_even_int (z : Z) (n : nat) :
  (round_half_even (inject_Z z) n == inject_Z z)%Q.
Proof.
  unfold round_half_even. rewrite Qred_correct.
  set (s := 10 ^ Z.of_nat n).
  assert (Hs : ~ (inject_Z s == 0)%Q).
  { unfold Qeq. simpl. rewrite Z.mul_1_r. subst s.
    apply Z.pow_nonzero; lia. }
  rewrite (round_half_even_Z_comp _ (inject_Z (z * s)))
    by (rewrite inject_Z_mult; reflexivity).
  rewrite round_half_even_Z_int, inject_Z_mult.
  field. exact Hs.
Qed.

Lemma py_round_real (v : pyval) (q : Q) (n : nat) :
  as_real v = Some q ->
  exists r q', py_round v n = Ok r /\ as_real r = Some q' /\
               (q' == round_half_even q n)%Q.
Proof.
  destruct v; simpl; try discriminate; intros [= <-].
  - eexists _, _. split; [reflexivity|]. split; [reflexivity|].
    symmetry. apply round_half_even_int.
  - eexists _, _. split; [reflexivity|]. split; [reflexivity|].
    symmetry. apply round_half_even_int.
  - eexists _, _. split; [reflexivity|]. split; reflexivity.
Qed.

(** ** Aggregation (C4, C5) *)

Lemma py_sum_from (vs : list pyval) (acc : pyval) (qa : Q) :
  forallb is_real vs = true -> as_real acc = Some qa ->
  exists c r,
    foldl (fun acc v => a ← acc; py_add a v) (Ok acc) vs = Ok c /\
    as_real c = Some r /\ (r == qa + Qsum (map real_of vs))%Q.
Proof.
  revert acc qa. induction vs as [|v vs IH]; intros acc qa Hvs Hacc.
  - exists acc, qa. split; [reflexivity|]. split; [assumption|].
    simpl. ring.
  - simpl in Hvs. apply andb_true_iff in Hvs as [Hv Hvs].
    unfold is_real in Hv. destruct (as_real v) as [qv|] eqn:Ev; [|discriminate].
    destruct (py_add_real acc v qa qv Hacc Ev) as (c & r & Hc & Hcr & Hr).
    destruct (IH c r Hvs Hcr) as (c' & r' & Hc' & Hcr' & Hr').
    exists c', r'. cbn [foldl]. change (Ok acc ≫= _) with (py_add acc v).
    rewrite Hc.
    split; [exact Hc'|]. split; [exact Hcr'|].
    assert (Hv' : real_of v = qv) by (unfold real_of; rewrite Ev; reflexivity).
    rewrite Hr', Hr. unfold Qsum. cbn [map foldr]. rewrite Hv'. ring.
Qed.

Lemma values_real (items : list item) (field : string) :
  forallb (field_real_or_missing field) items = true ->
  forallb is_real
    (map (fun product => dict_get product field (PInt 0)) items) = true.
Proof.
  induction items as [|it items IH]; [reflexivity|]. simpl.
  intros H. apply andb_true_iff in H as [Hit H].
  rewrite (IH H), andb_true_r.
  unfold field_real_or_missing in Hit. unfold dict_get.
  destruct (it !! field); [exact Hit | reflexivity].
Qed.

Lemma calculate_total_net_real (items : list item) (field : string) :
  forallb (field_real_or_missing field) items = true ->
  exists net q, calculate_total_net items field = Ok net /\
                as_real net = Some q /\ (q == spec_total_net items field)%Q.
Proof.
  intros H. unfold calculate_total_net, py_sum.
  destruct (py_sum_from _ (PInt 0) 0%Q (values_real _ _ H) eq_refl)
    as (c & r & Hc & Hcr & Hr).
  rewrite Hc. simpl.
  destruct (py_round_real c r 0 Hcr) as (net & q & Hn & Hnq & Hq).
  exists net, q. split; [exact Hn|]. split; [exact Hnq|].
  rewrite Hq. unfold spec_total_net.
  erewrite round_half_even_comp; [reflexivity|].
  rewrite Hr. unfold dict_get. rewrite map_map. ring.
Qed.

Lemma Qeq_bool_one_minus (r qb : Q) :
  (r == 1 - qb)%Q -> Qeq_bool r 0 = Qeq_bool qb 1.
Proof.
  intros Hr. destruct (Qeq_bool qb 1) eqn:E.
  - apply Qeq_bool_iff. apply Qeq_bool_iff in E. rewrite Hr, E. ring.
  - destruct (Qeq_bool r 0) eqn:E'; [|reflexivity].
    apply Qeq_bool_iff in E'. rewrite Hr in E'.
    assert (H1 : (qb == 1)%Q).
    { setoid_replace qb with (1 - (1 - qb))%Q using relation Qeq by ring.
      rewrite E'. ring. }
    apply Qeq_bool_iff in H1. congruence.
Qed.

(** What [calculate_total_gross] does for any real brokerage: no check of
    the range, only the division. *)
Lemma calculate_total_gross_real (items : list item) (b : pyval)
    (field : string) (qb : Q) :
  forallb (field_real_or_missing field) items = true ->
  as_real b = Some qb ->
  calculate_total_gross items b field =
    if Qeq_bool qb 1 then Raise ZeroDivisionError
    else Ok (PFloat (spec_total_gross items qb field)).
Proof.
  intros Hitems Hb. unfold calculate_total_gross.
  destruct (calculate_total_net_real items field Hitems)
    as (net & q & Hnet & Hq & Hspec).
  rewrite Hnet. change (Ok net ≫= ?f) with (f net). cbv beta.
  destruct (py_sub_real (PInt 1) b 1%Q qb eq_refl Hb) as (d & r & Hd & Hdr & Hr).
  rewrite Hd. change (Ok d ≫= ?f) with (f d). cbv beta.
  rewrite (py_truediv_real net d q r Hq Hdr).
  rewrite (Qeq_bool_one_minus r qb Hr).
  destruct (Qeq_bool qb 1); [reflexivity|].
  change (Ok ?x ≫= ?f) with (f x). cbv beta. simpl. do 2 f_equal.
  unfold spec_total_gross. apply round_half_even_comp.
  rewrite Qred_correct, Hspec, Hr. reflexivity.
Qed.

(** C4, counterexample.  With brokerage 2 the gross total of one record of
    premium 100 is the number -100.0, and with brokerage 1 it is the
    [ZeroDivisionError] of the division: no validation error in either
    case. *)
Lemma C4_no_brokerage_validation :
  calculate_total_gross [premium_record 100] (PInt 2) "hull_premium"
    = Ok (PFloat (-100 # 1)) /\
  calculate_total_gross [premium_record 100] (PInt 1) "hull_premium"
    = Raise ZeroDivisionError.
Proof. split; vm_compute; reflexivity. Qed.

(** ** Rounding to a whole number *)



(** C4, amended.  [calculate_total_gross] does not validate the brokerage.
    Over records whose field is a real number or missing, the net total is
    computed first; a brokerage equal to 1 then fails with the
    [ZeroDivisionError] of the division, and every other real brokerage,
    inside [0, 1) or not, gives a number, the rounded quotient of the net
    total by [1 - brokerage]. *)
Theorem C4_gross_without_validation (items : list item) (b : pyval)
    (field : string) (qb : Q) :
  forallb (field_real_or_missing field) items = true ->
  as_real b = Some qb ->
  exists net,
    calculate_total_net items field = Ok net /\ is_real net = true /\
    ((qb == 1)%Q ->
       calculate_total_gross items b field = Raise ZeroDivisionError) /\
    (~ (qb == 1)%Q ->
       exists d q gross,
         py_sub (PInt 1) b = Ok d /\ py_truediv net d = Ok q /\
         py_round q 0 = Ok gross /\
         calculate_total_gross items b field = Ok gross /\
         is_real gross = true).
Proof.
  intros Hitems Hb.
  destruct (calculate_total_net_real items field Hitems)
    as (net & qn & Hnet & Hqn & _).
  exists net. split; [exact Hnet|].
  split; [unfold is_real; rewrite Hqn; reflexivity|].
  destruct (py_sub_real (PInt 1) b 1%Q qb eq_refl Hb) as (d & qd & Hd & Hqd & Vd).
  pose proof (py_truediv_real net d qn qd Hqn Hqd) as Hdiv.
  rewrite (Qeq_bool_one_minus qd qb Vd) in Hdiv.
  split; intros H.
  - apply Qeq_bool_iff in H. rewrite H in Hdiv.
    unfold calculate_total_gross. rewrite Hnet, bind_Ok, Hd, bind_Ok, Hdiv.
    reflexivity.
  - assert (E : Qeq_bool qb 1 = false).
    { destruct (Qeq_bool qb 1) eqn:E; [|reflexivity].
      apply Qeq_bool_iff in E. contradiction. }
    rewrite E in Hdiv.
    exists d, (PFloat (Qred (qn / qd))), (PFloat (round_half_even (Qred (qn / qd)) 0)).
    split; [exact Hd|]. split; [exact Hdiv|]. split; [reflexivity|].
    split; [|reflexivity].
    unfold calculate_total_gross. rewrite Hnet, bind_Ok, Hd, bind_Ok, Hdiv.
    reflexivity.
Qed.

(** The theorem at the reference drones with a brokerage of 2. *)
Lemma witness_C4_brokerage_two :
  exists net,
    calculate_total_net reference_drones "hull_premium" = Ok net /\
    is_real net = true /\
    exists d q gross,
      py_sub (PInt 1) (PInt 2) = Ok d /\ py_truediv net d = Ok q /\
      py_round q 0 = Ok gross /\
      calculate_total_gross reference_drones (PInt 2) "hull_premium" = Ok gross /\
      is_real gross = true.
Proof.
  destruct (C4_gross_without_validation reference_drones (PInt 2)
              "hull_premium" 2 eq_refl eq_refl)
    as (net & Hnet & Hreal & _ & Hother).
  exists net. split; [exact Hnet|]. split; [exact Hreal|].
  apply Hother. discriminate.
Defined.



(** The totals of the reference tests: 2832 net, 4046 gross at 0.3. *)
Example reference_totals :
  calculate_total_net reference_drones "hull_premium" = Ok (PInt 2832) /\
  calculate_total_gross reference_drones (PFloat (3 # 10)) "hull_premium"
    = Ok (PFloat 4046).
Proof. split; vm_compute; reflexivity. Qed.

(** ** Hull rating (C7) *)

(** C7, counterexample.  At value 0 the final rate is the sentinel, while
    the product of the base rate and the weight adjustment, both the
    sentinel, is a [TypeError]: the equation of the claim fails. *)
Lemma C7_product_of_sentinels_raises :
  hull_final_rate fixture_params (PInt 0) (PStr "0 - 5kg") false
    = Ok NotApplicable /\
  (a ← hull_base_rate fixture_params (PInt 0) false;
   b ← hull_weight_adj fixture_params (PInt 0) (PStr "0 - 5kg");
   py_mul a b) = Raise TypeError.
Proof. split; vm_compute; reflexivity. Qed.

Lemma hull_final_rate_nonzero (P : params) (value band h m : pyval) :
  py_ne_zero value = true ->
  gross_base_rates P !! "hull" = Some h ->
  getitem_val (max_takeoff_weight_adj P) band = Ok m ->
  hull_base_rate P value false = Ok h /\
  hull_weight_adj P value band = Ok m /\
  hull_final_rate P value band false = py_mul h m /\
  hull_final_rate P value band false =
    (a ← hull_base_rate P value false;
     b ← hull_weight_adj P value band;
     py_mul a b).
Proof.
  intros Hv Hh Hm.
  assert (Hb : hull_base_rate P value false = Ok h).
  { unfold hull_base_rate. rewrite guard_nonzero by assumption.
    unfold getitem. rewrite Hh. reflexivity. }
  assert (Hw : hull_weight_adj P value band = Ok m).
  { unfold hull_weight_adj. rewrite guard_nonzero by assumption. exact Hm. }
  assert (Hf : hull_final_rate P value band false =
               (a ← hull_base_rate P value false;
                b ← hull_weight_adj P value band;
                py_mul a b)).
  { unfold hull_final_rate. rewrite guard_nonzero by assumption.
    cbv beta. apply res_bind_ok. }
  split; [exact Hb|]. split; [exact Hw|]. split; [|exact Hf].
  rewrite Hf, Hb, Hw. reflexivity.
Qed.

(** C7, amended.  For every nonzero drone value and every weight band of
    the table, with the percentage option off, [hull_base_rate] is the
    configured hull rate, [hull_weight_adj] the multiplier of the band, and
    [hull_final_rate] is exactly their product, unrounded. *)
Theorem C7_final_rate_is_product (P : params) (value band h m : pyval) :
  py_ne_zero value = true ->
  gross_base_rates P !! "hull" = Some h ->
  getitem_val (max_takeoff_weight_adj P) band = Ok m ->
  hull_base_rate P value false = Ok h /\
  hull_weight_adj P value band = Ok m /\
  hull_final_rate P value band false = py_mul h m /\
  hull_final_rate P value band false =
    (a ← hull_base_rate P value false;
     b ← hull_weight_adj P value band;
     py_mul a b).
Proof. exact (hull_final_rate_nonzero P value band h m). Qed.

(** The theorem at a drone of value 10000 in the band 5 - 10kg. *)
Lemma witness_C7_reference_drone :
  hull_base_rate fixture_params (PInt 10000) false = Ok (PFloat (3 # 5)) /\
  hull_weight_adj fixture_params (PInt 10000) (PStr "5 - 10kg")
    = Ok (PFloat (6 # 5)) /\
  hull_final_rate fixture_params (PInt 10000) (PStr "5 - 10kg") false
    = py_mul (PFloat (3 # 5)) (PFloat (6 # 5)) /\
  hull_final_rate fixture_params (PInt 10000) (PStr "5 - 10kg") false =
    (a ← hull_base_rate fixture_params (PInt 10000) false;
     b ← hull_weight_adj fixture_params (PInt 10000) (PStr "5 - 10kg");
     py_mul a b).
Proof.
  apply (C7_final_rate_is_product fixture_params (PInt 10000)
           (PStr "5 - 10kg") (PFloat (3 # 5)) (PFloat (6 # 5)));
    reflexivity.
Defined.

(** The hull fixtures of the reference tests. *)
Example reference_hull_rates :
  hull_base_rate fixture_params (PInt 10000) false = Ok (PFloat (3 # 5)) /\
  hull_weight_adj fixture_params (PInt 10000) (PStr "0 - 5kg") = Ok (PInt 1) /\
  hull_final_rate fixture_params (PInt 10000) (PStr "0 - 5kg") false
    = Ok (PFloat (3 # 5)).
Proof. repeat split; vm_compute; reflexivity. Qed.

(** ** The increased-limit factor (C6) *)

Lemma riesebell_is_curve (lib : mathlib) (base_limit z x : pyval) :
  __calculate_riesebell lib base_limit z x = curve lib base_limit z x.
Proof.
  unfold __calculate_riesebell, curve.
  destruct (py_truediv x base_limit) as [q|e]; [|reflexivity].
  change (Ok q ≫= ?f) with (f q). cbv beta.
  destruct (py_add (PInt 1) z) as [s|e]; [|reflexivity].
  reflexivity.
Qed.

(** The curve at a point equal to the base limit is 1, and at 0 it is 0,
    when the exponent is positive. *)
Lemma curve_at_base_limit (lib : mathlib) (bl z x : pyval) (qbl qx : Q) :
  as_real bl = Some qbl -> (0 < qbl)%Q -> as_real x = Some qx ->
  (qx == qbl)%Q -> exponent_positive lib z ->
  curve lib bl z x = Ok (PFloat 1).
Proof.
  intros Hbl Hpos Hx Heq (s & e & Hs & He & Hepos).
  unfold curve. rewrite (py_truediv_real x bl qx qbl Hx Hbl).
  replace (Qeq_bool qbl 0) with false.
  2:{ symmetry. apply not_true_iff_false. intros H. apply Qeq_bool_iff in H.
      rewrite H in Hpos. discriminate Hpos. }
  change (Ok ?a ≫= ?f) with (f a). cbv beta.
  rewrite Hs. change (Ok s ≫= ?f) with (f s). cbv beta. rewrite He.
  change (Ok ?a ≫= ?f) with (f a). cbv beta.
  unfold py_pow, float_pow. simpl.
  replace (Qeq_bool e 0) with false.
  2:{ symmetry. apply not_true_iff_false. intros H. apply Qeq_bool_iff in H.
      rewrite H in Hepos. discriminate Hepos. }
  replace (Qeq_bool (Qred (qx / qbl)) 1) with true; [reflexivity|].
  symmetry. apply Qeq_bool_iff. rewrite Qred_correct, Heq.
  field. intros H. rewrite H in Hpos. discriminate Hpos.
Qed.

Lemma curve_at_zero (lib : mathlib) (bl z x : pyval) (qbl qx : Q) :
  as_real bl = Some qbl -> (0 < qbl)%Q -> as_real x = Some qx ->
  (qx == 0)%Q -> exponent_positive lib z ->
  curve lib bl z x = Ok (PFloat 0).
Proof.
  intros Hbl Hpos Hx Heq (s & e & Hs & He & Hepos).
  unfold curve. rewrite (py_truediv_real x bl qx qbl Hx Hbl).
  replace (Qeq_bool qbl 0) with false.
  2:{ symmetry. apply not_true_iff_false. intros H. apply Qeq_bool_iff in H.
      rewrite H in Hpos. discriminate Hpos. }
  change (Ok ?a ≫= ?f) with (f a). cbv beta.
  rewrite Hs. change (Ok s ≫= ?f) with (f s). cbv beta. rewrite He.
  change (Ok ?a ≫= ?f) with (f a). cbv beta.
  unfold py_pow, float_pow. simpl.
  replace (Qeq_bool e 0) with false.
  2:{ symmetry. apply not_true_iff_false. intros H. apply Qeq_bool_iff in H.
      rewrite H in Hepos. discriminate Hepos. }
  assert (Hr : (Qred (qx / qbl) == 0)%Q).
  { rewrite Qred_correct, Heq. field. intros H. rewrite H in Hpos.
    discriminate Hpos. }
  rewrite (Qeq_bool_comp _ 0 1 1 Hr (Qeq_refl 1)).
  rewrite (Qeq_bool_comp _ 0 0 0 Hr (Qeq_refl 0)).
  replace (Qltb e 0) with false; [reflexivity|].
  symmetry. apply Qltb_ge. apply Qlt_le_weak, Hepos.
Qed.

Lemma tpl_ilf_nonzero (lib : mathlib) (P : params)
    (value tpl_limit tpl_excess base_limit z tpl_sum : pyval) :
  py_ne_zero value = true ->
  ilf_riebesell_curve P !! "base_limit" = Some base_limit ->
  ilf_riebesell_curve P !! "z" = Some z ->
  py_add tpl_limit tpl_excess = Ok tpl_sum ->
  tpl_ilf lib P value tpl_limit tpl_excess =
    (a ← curve lib base_limit z tpl_sum;
     b ← curve lib base_limit z tpl_excess;
     py_sub a b).
Proof.
  intros Hv Hbl Hz Hs. unfold tpl_ilf, getitem. rewrite Hbl, Hz, Hs.
  rewrite !bind_Ok, guard_nonzero by assumption.
  rewrite !riesebell_is_curve. reflexivity.
Qed.








(** At the base limit with no excess the factor is 1.0 for the reference
    rate table, whatever positive value the library gives [log2(1.2)]. *)
Lemma reference_ilf_at_base_limit (lib : mathlib) :
  (0 < lib_log2 lib (6 # 5))%Q ->
  tpl_ilf lib fixture_params (PInt 10000) (PInt 1000000) (PInt 0)
    = Ok (PFloat 1).
Proof.
  intros Hlog.
  assert (Hexp : exponent_positive lib (PFloat (1 # 5))).
  { exists (PFloat (6 # 5)), (lib_log2 lib (6 # 5)).
    split; [reflexivity|]. split; [reflexivity | exact Hlog]. }
  rewrite (tpl_ilf_nonzero lib fixture_params (PInt 10000) (PInt 1000000)
             (PInt 0) (PInt 1000000) (PFloat (1 # 5)) (PInt 1000000));
    try reflexivity.
  rewrite (curve_at_base_limit lib (PInt 1000000) (PFloat (1 # 5))
             (PInt 1000000) 1000000 1000000 eq_refl eq_refl eq_refl
             (Qeq_refl _) Hexp).
  rewrite (curve_at_zero lib (PInt 1000000) (PFloat (1 # 5)) (PInt 0)
             1000000 0 eq_refl eq_refl eq_refl (Qeq_refl _) Hexp).
  reflexivity.
Qed.

(** ** The camera-limiting adjustment ignores the drones (C9) *)

(** C9.  [limited_cameras_in_use] gives the same cameras and the same
    return value whatever drone list it is passed. *)
Theorem C9_cameras_independent_of_drones (cameras : list item)
    (max_drones_in_air : Z) (d1 d2 : list item) :
  limited_cameras_in_use cameras max_drones_in_air d1
    = limited_cameras_in_use cameras max_drones_in_air d2.
Proof. reflexivity. Qed.

(** ** The camera rate (C2) *)

Lemma camera_eligible_ok (P : params) (d : item) :
  drone_ok P d = true -> camera_eligible d = Ok (eligible d).
Proof.
  unfold drone_ok, camera_eligible, eligible, getitem.
  destruct (d !! "has_detachable_camera") as [c|]; [|discriminate].
  destruct (d !! "value") as [v|]; [|discriminate].
  destruct (d !! "weight") as [[]|]; try discriminate.
  intros H. apply andb_true_iff in H as [Hv _]. unfold is_real in Hv.
  rewrite bind_Ok. destruct (py_truthy c); [|reflexivity].
  rewrite bind_Ok. destruct (as_real v) as [q|] eqn:Ev; [|discriminate].
  unfold py_gt. rewrite (py_lt_real (PInt 0) v 0 q eq_refl Ev). reflexivity.
Qed.

(** The rate of an eligible drone is the product of two real numbers. *)
Lemma drone_rate_real (P : params) (d : item) :
  field_real "hull" (gross_base_rates P) = true ->
  drone_ok P d = true -> eligible d = true ->
  exists r qr, drone_rate P d = Ok r /\ as_real r = Some qr.
Proof.
  unfold field_real, drone_ok, eligible, drone_rate, getitem.
  destruct (gross_base_rates P !! "hull") as [h|] eqn:Eh; [|discriminate].
  destruct (d !! "has_detachable_camera") as [c|]; [|discriminate].
  destruct (d !! "value") as [v|]; [|discriminate].
  destruct (d !! "weight") as [[| | | |s]|]; try discriminate.
  intros Hh Hok Hel. rewrite !bind_Ok.
  apply andb_true_iff in Hok as [Hv Hm]. apply andb_true_iff in Hel as [_ Hpos].
  unfold is_real in Hv, Hh, Hm.
  destruct (as_real v) as [q|] eqn:Ev; [|discriminate].
  unfold field_real, is_real in Hm.
  destruct (max_takeoff_weight_adj P !! s) as [m|] eqn:Em; [|discriminate].
  destruct (as_real h) as [qh|] eqn:Eqh; [|discriminate].
  destruct (as_real m) as [qm|] eqn:Eqm; [|discriminate].
  assert (Hnz : py_ne_zero v = true).
  { rewrite (py_ne_zero_real v q Ev). apply negb_true_iff.
    apply not_true_iff_false. intros H0. apply Qeq_bool_iff in H0.
    apply Qltb_lt in Hpos. rewrite H0 in Hpos. discriminate Hpos. }
  destruct (hull_final_rate_nonzero P v (PStr s) h m Hnz Eh) as (_ & _ & Hf & _).
  { simpl. unfold getitem. rewrite Em. reflexivity. }
  rewrite Hf.
  destruct (py_mul_real h m qh qm Eqh Eqm) as (r & qr & Hr & Hqr & _).
  exists r, qr. split; assumption.
Qed.

Section CameraRate.
Context (P : params).
Hypothesis Hhull : field_real "hull" (gross_base_rates P) = true.

Lemma max_rate_step (d : item) (rest : list item) (cur : option pyval) :
  drone_ok P d = true ->
  max_rate P (d :: rest) cur =
    if eligible d then
      r ← drone_rate P d;
      match cur with
      | None => max_rate P rest (Some r)
      | Some m =>
          b ← py_gt r m; max_rate P rest (Some (if b : bool then r else m))
      end
    else max_rate P rest cur.
Proof.
  intros Hok. cbn [max_rate]. rewrite (camera_eligible_ok P d Hok).
  destruct (eligible d); [|reflexivity].
  fold (drone_rate P d). destruct (drone_rate P d) as [r|e]; [|reflexivity].
  rewrite bind_Ok. destruct cur as [m|]; [|reflexivity].
  destruct (py_gt r m) as [b|e]; reflexivity.
Qed.

(** With a current maximum, the result is the largest of it and of the
    rates of the eligible drones that follow. *)
Lemma max_rate_from (ds : list item) :
  forallb (drone_ok P) ds = true ->
  forall m0 q0, as_real m0 = Some q0 ->
  exists m qm,
    max_rate P ds (Some m0) = Ok m /\ as_real m = Some qm /\ (q0 <= qm)%Q /\
    (m = m0 \/ exists d, d ∈ ds /\ eligible d = true /\ drone_rate P d = Ok m) /\
    (forall d, d ∈ ds -> eligible d = true ->
       exists r qr, drone_rate P d = Ok r /\ as_real r = Some qr /\ (qr <= qm)%Q).
Proof.
  induction ds as [|d ds IH]; intros Hds m0 q0 Hm0.
  - exists m0, q0. split; [reflexivity|]. split; [exact Hm0|].
    split; [apply Qle_refl|]. split; [left; reflexivity|].
    intros d Hd. apply elem_of_nil in Hd. contradiction.
  - simpl in Hds. apply andb_true_iff in Hds as [Hd Hds].
    rewrite (max_rate_step d ds (Some m0) Hd).
    destruct (eligible d) eqn:El.
    + destruct (drone_rate_real P d Hhull Hd El) as (r & qr & Hr & Hqr).
      rewrite Hr, bind_Ok. unfold py_gt.
      rewrite (py_lt_real m0 r q0 qr Hm0 Hqr), bind_Ok.
      destruct (Qltb q0 qr) eqn:Elt.
      * apply Qltb_lt in Elt.
        destruct (IH Hds r qr Hqr) as (m & qm & Hm & Hqm & Hle & Hor & Hub).
        exists m, qm. split; [exact Hm|]. split; [exact Hqm|].
        split; [apply Qlt_le_weak; eapply Qlt_le_trans; eassumption|].
        split.
        { right. destruct Hor as [->|(d' & Hin & He & Hr')].
          - exists d. split; [apply elem_of_cons; left; reflexivity|].
            split; assumption.
          - exists d'. split; [apply elem_of_cons; right; exact Hin|].
            split; assumption. }
        intros d' Hin He. apply elem_of_cons in Hin as [->|Hin].
        { exists r, qr. split; [exact Hr|]. split; [exact Hqr | exact Hle]. }
        apply Hub; assumption.
      * apply Qltb_ge in Elt.
        destruct (IH Hds m0 q0 Hm0) as (m & qm & Hm & Hqm & Hle & Hor & Hub).
        exists m, qm. split; [exact Hm|]. split; [exact Hqm|].
        split; [exact Hle|]. split.
        { destruct Hor as [->|(d' & Hin & He & Hr')]; [left; reflexivity|].
          right. exists d'. split; [apply elem_of_cons; right; exact Hin|].
          split; assumption. }
        intros d' Hin He. apply elem_of_cons in Hin as [->|Hin].
        { exists r, qr. split; [exact Hr|]. split; [exact Hqr|].
          eapply Qle_trans; eassumption. }
        apply Hub; assumption.
    + destruct (IH Hds m0 q0 Hm0) as (m & qm & Hm & Hqm & Hle & Hor & Hub).
      exists m, qm. split; [exact Hm|]. split; [exact Hqm|].
      split; [exact Hle|]. split.
      { destruct Hor as [->|(d' & Hin & He & Hr')]; [left; reflexivity|].
        right. exists d'. split; [apply elem_of_cons; right; exact Hin|].
        split; assumption. }
      intros d' Hin He. apply elem_of_cons in Hin as [->|Hin].
      { congruence. }
      apply Hub; assumption.
Qed.

(** Without a current maximum: a [ValueError] when no drone is eligible,
    the largest rate of the eligible drones otherwise. *)
Lemma max_rate_start (ds : list item) :
  forallb (drone_ok P) ds = true ->
  (existsb eligible ds = false -> max_rate P ds None = Raise ValueError) /\
  (existsb eligible ds = true ->
     exists m qm,
       max_rate P ds None = Ok m /\ as_real m = Some qm /\
       (exists d, d ∈ ds /\ eligible d = true /\ drone_rate P d = Ok m) /\
       (forall d, d ∈ ds -> eligible d = true ->
          exists r qr, drone_rate P d = Ok r /\ as_real r = Some qr /\
                       (qr <= qm)%Q)).
Proof.
  induction ds as [|d ds IH]; intros Hds.
  - split; [reflexivity | discriminate].
  - simpl in Hds. apply andb_true_iff in Hds as [Hd Hds].
    rewrite (max_rate_step d ds None Hd). cbn [existsb].
    destruct (IH Hds) as [IHnone IHsome].
    destruct (eligible d) eqn:El; cbn [orb].
    + split; [discriminate|]. intros _.
      destruct (drone_rate_real P d Hhull Hd El) as (r & qr & Hr & Hqr).
      rewrite Hr, bind_Ok.
      destruct (max_rate_from ds Hds r qr Hqr)
        as (m & qm & Hm & Hqm & Hle & Hor & Hub).
      exists m, qm. split; [exact Hm|]. split; [exact Hqm|]. split.
      { destruct Hor as [->|(d' & Hin & He & Hr')].
        - exists d. split; [apply elem_of_cons; left; reflexivity|].
          split; assumption.
        - exists d'. split; [apply elem_of_cons; right; exact Hin|].
          split; assumption. }
      intros d' Hin He. apply elem_of_cons in Hin as [->|Hin].
      { exists r, qr. split; [exact Hr|]. split; [exact Hqr | exact Hle]. }
      apply Hub; assumption.
    + split; [exact IHnone|]. intros Hex.
      destruct (IHsome Hex) as (m & qm & Hm & Hqm & (d' & Hin & He & Hr') & Hub).
      exists m, qm. split; [exact Hm|]. split; [exact Hqm|]. split.
      { exists d'. split; [apply elem_of_cons; right; exact Hin|].
        split; assumption. }
      intros d'' Hin' He'. apply elem_of_cons in Hin' as [->|Hin'].
      { congruence. }
      apply Hub; assumption.
Qed.
End CameraRate.

(** C2, counterexample.  For a fleet whose only drone has no detachable
    camera, [rate] raises the [ValueError] of [max] on an empty sequence,
    which is not an error named NoEligibleDrone. *)
Lemma C2_no_eligible_drone_is_value_error :
  existsb eligible [no_camera_drone] = false /\
  rate fixture_params [no_camera_drone] false = Raise ValueError /\
  rate fixture_params [no_camera_drone] false
    <> Raise (UserError "NoEligibleDrone").
Proof.
  split; [reflexivity|]. split; [reflexivity|]. discriminate.
Qed.

(** C2, amended.  Over drone records that carry the three fields read by
    [rate], with a real value and a band of the table, and with a real hull
    rate configured: when no drone has both a true [has_detachable_camera]
    and a value above 0, [rate] raises the built-in [ValueError] of [max] on
    an empty sequence; otherwise it returns the hull final rate of an
    eligible drone that is at least the hull final rate of every eligible
    drone. *)
Theorem C2_camera_rate_is_max_or_value_error (P : params) (ds : list item) :
  field_real "hull" (gross_base_rates P) = true ->
  forallb (drone_ok P) ds = true ->
  (existsb eligible ds = false -> rate P ds false = Raise ValueError) /\
  (existsb eligible ds = true ->
     exists m qm,
       rate P ds false = Ok m /\ as_real m = Some qm /\
       (exists d, d ∈ ds /\ eligible d = true /\ drone_rate P d = Ok m) /\
       (forall d, d ∈ ds -> eligible d = true ->
          exists r qr, drone_rate P d = Ok r /\ as_real r = Some qr /\
                       (qr <= qm)%Q)).
Proof.
  intros Hhull Hds. unfold rate.
  replace (max_rate P ds None ≫= _) with (max_rate P ds None)
    by (symmetry; apply res_bind_ok).
  exact (max_rate_start P Hhull ds Hds).
Qed.

(** The theorem at the reference drones, two of which are eligible. *)
Lemma witness_C2_reference_drones :
  exists m qm,
    rate fixture_params reference_drones false = Ok m /\
    as_real m = Some qm /\
    (exists d, d ∈ reference_drones /\ eligible d = true /\
               drone_rate fixture_params d = Ok m) /\
    (forall d, d ∈ reference_drones -> eligible d = true ->
       exists r qr, drone_rate fixture_params d = Ok r /\
                    as_real r = Some qr /\ (qr <= qm)%Q).
Proof.
  destruct (C2_camera_rate_is_max_or_value_error fixture_params
              reference_drones eq_refl eq_refl) as [_ Hsome].
  exact (Hsome eq_refl).
Defined.

(** The camera rate of the reference drones: 0.6 * 1.2, from the third. *)
Example reference_camera_rate :
  rate fixture_params reference_drones false = Ok (PFloat (18 # 25)).
Proof. vm_compute. reflexivity. Qed.

(** ** The rating pass: state and first writes *)

Lemma st_bind_get {A} (k : string) (f : pyval -> stE item A) (d : item)
    (v : pyval) :
  d !! k = Some v -> (rec_get k ≫= f) d = f v d.
Proof.
  intros H. unfold mbind, stE_mbind, st_bind, rec_get, getitem.
  rewrite H. reflexivity.
Qed.

Lemma st_bind_lift_Ok {A B} (a : A) (f : A -> stE item B) (d : item) :
  (st_lift (Ok a) ≫= f) d = f a d.
Proof. reflexivity. Qed.

Lemma st_bind_lift_Raise {A B} (e : pyexn) (f : A -> stE item B) (d : item) :
  (st_lift (Raise e) ≫= f) d = (d, Raise e).
Proof. reflexivity. Qed.

Lemma st_bind_set {A} (k : string) (v : pyval) (f : unit -> stE item A)
    (d : item) :
  (rec_set k v ≫= f) d = f tt (<[k:=v]> d).
Proof. reflexivity. Qed.

Lemma frames_bind {A B} (k : string) (m : stE item A) (f : A -> stE item B) :
  frames k m -> (forall a, frames k (f a)) -> frames k (m ≫= f).
Proof.
  intros Hm Hf d. unfold mbind, stE_mbind, st_bind.
  specialize (Hm d). destruct (m d) as [d' [a|e]]; simpl in *.
  - rewrite Hf. exact Hm.
  - exact Hm.
Qed.

Lemma frames_get (k k' : string) : frames k (rec_get k').
Proof. intros d. reflexivity. Qed.

Lemma frames_lift {A} (k : string) (r : res A) : frames k (st_lift r).
Proof. intros d. reflexivity. Qed.

Lemma frames_set (k k' : string) (v : pyval) :
  k' <> k -> frames k (rec_set k' v).
Proof. intros Hne d. simpl. apply lookup_insert_ne, Hne. Qed.

Ltac frames_tac :=
  repeat first
    [ apply frames_get
    | apply frames_lift
    | apply frames_set; discriminate
    | apply frames_bind; [ | intros ? ] ].

Lemma for_each_head (body : stE item unit) (d : item) (rest : list item) :
  (for_each body (d :: rest)).1 !! 0%nat = Some (body d).1 /\
  (forall e, (body d).2 = Raise e -> (for_each body (d :: rest)).2 = Raise e).
Proof.
  cbn [for_each]. destruct (body d) as [d' [[]|e]]; simpl.
  - destruct (for_each body rest) as [rest' r]. split; [reflexivity|].
    discriminate.
  - split; [reflexivity|]. intros ? [= <-]. reflexivity.
Qed.

Lemma compute_model_drones (lib : mathlib) (P : params) (md : model_data) :
  drones (compute_model lib P md).1 = (for_each (rate_drone lib P) (drones md)).1 /\
  (forall e, (for_each (rate_drone lib P) (drones md)).2 = Raise e ->
             (compute_model lib P md).2 = Raise e).
Proof.
  unfold compute_model.
  destruct (for_each (rate_drone lib P) (drones md)) as [ds [[]|e]]; simpl.
  - split; [|discriminate].
    destruct (rate P ds true); [|reflexivity].
    destruct (for_each _ (detachable_cameras md)) as [cs [[]|e]];
      [|reflexivity].
    destruct (net_totals ds cs _) as [np [[]|e]]; [|reflexivity].
    destruct (brokerage md); [|reflexivity].
    destruct (gross_totals ds cs _ _) as [gp r]. reflexivity.
  - split; [reflexivity|]. intros ? [= <-]. reflexivity.
Qed.

(** The first assignment of the loop body: for a nonzero value the hull
    base rate, in percent, is written and stays; an unknown band then stops
    the body with the [KeyError] of the table. *)
Lemma rate_drone_first_write (lib : mathlib) (P : params) (d : item)
    (v h : pyval) :
  d !! "value" = Some v -> py_ne_zero v = true ->
  gross_base_rates P !! "hull" = Some h ->
  exists hb,
    py_mul h (PInt 100) = Ok hb /\
    (rate_drone lib P d).1 !! "hull_base_rate" = Some hb /\
    (forall w, d !! "weight" = Some w ->
       getitem_val (max_takeoff_weight_adj P) w = Raise KeyError ->
       (rate_drone lib P d).2 = Raise KeyError).
Proof.
  intros Hv Hnz Hh.
  assert (Hmul : exists hb, py_mul h (PInt 100) = Ok hb).
  { unfold py_mul. destruct h; simpl; eauto. }
  destruct Hmul as [hb Hhb]. exists hb. split; [exact Hhb|].
  assert (Hbase : hull_base_rate P v true = Ok hb).
  { unfold hull_base_rate. rewrite guard_nonzero by assumption.
    unfold getitem. rewrite Hh, bind_Ok. exact Hhb. }
  unfold rate_drone.
  rewrite (st_bind_get "value" _ d v Hv), Hbase, st_bind_lift_Ok, st_bind_set.
  set (d1 := <["hull_base_rate":=hb]> d).
  assert (Hv1 : d1 !! "value" = Some v)
    by (unfold d1; rewrite lookup_insert_ne by discriminate; exact Hv).
  split.
  - transitivity (d1 !! "hull_base_rate");
      [|unfold d1; apply lookup_insert_eq].
    match goal with
    | |- (?m d1).1 !! ?k = _ => generalize d1; change (frames k m)
    end.
    frames_tac.
  - intros w Hw Hband.
    assert (Hw1 : d1 !! "weight" = Some w)
      by (unfold d1; rewrite lookup_insert_ne by discriminate; exact Hw).
    rewrite (st_bind_get "value" _ d1 v Hv1), (st_bind_get "weight" _ d1 w Hw1).
    unfold hull_weight_adj at 1. rewrite guard_nonzero by assumption.
    rewrite Hband, st_bind_lift_Raise. reflexivity.
Qed.

(** ** Zero-value items (C1) *)

(** The loop body on a drone of value 0: the first two fields are written as
    the sentinel, then the rounding of the sentinel final rate raises. *)
Lemma rate_drone_zero_value (lib : mathlib) (P : params) (d : item)
    (v w : pyval) :
  d !! "value" = Some v -> py_ne_zero v = false -> d !! "weight" = Some w ->
  rate_drone lib P d =
    (<["hull_weight_adjustment" := NotApplicable]>
       (<["hull_base_rate" := NotApplicable]> d), Raise TypeError).
Proof.
  intros Hv Hz Hw. unfold rate_drone.
  rewrite (st_bind_get "value" _ d v Hv), (hull_base_rate_zero P v Hz true).
  rewrite st_bind_lift_Ok, st_bind_set.
  set (d1 := <["hull_base_rate":=NotApplicable]> d).
  assert (Hv1 : d1 !! "value" = Some v)
    by (unfold d1; rewrite lookup_insert_ne by discriminate; exact Hv).
  assert (Hw1 : d1 !! "weight" = Some w)
    by (unfold d1; rewrite lookup_insert_ne by discriminate; exact Hw).
  rewrite (st_bind_get "value" _ d1 v Hv1), (st_bind_get "weight" _ d1 w Hw1).
  rewrite (hull_weight_adj_zero P v Hz w), st_bind_lift_Ok, st_bind_set.
  set (d2 := <["hull_weight_adjustment":=NotApplicable]> d1).
  assert (Hv2 : d2 !! "value" = Some v)
    by (unfold d2; rewrite lookup_insert_ne by discriminate; exact Hv1).
  assert (Hw2 : d2 !! "weight" = Some w)
    by (unfold d2; rewrite lookup_insert_ne by discriminate; exact Hw1).
  rewrite (st_bind_get "value" _ d2 v Hv2), (st_bind_get "weight" _ d2 w Hw2).
  rewrite (hull_final_rate_zero P v Hz w true), st_bind_lift_Ok.
  reflexivity.
Qed.

(** C1 (the code departs from the claim).  A zero-value item does not get
    the NotApplicable sentinel from [calculate_premium]: the guard returns
    the sentinel, which is then divided by 100, a [TypeError]; and the
    rating pass over a fleet that starts with a zero-value drone stops with
    a [TypeError] at the rounding of the sentinel, after writing the first
    two fields of that drone as the sentinel. *)
Theorem C1_zero_value_premium_raises :
  (forall final_rate, calculate_premium final_rate (PInt 0) = Raise TypeError) /\
  (forall lib P md d rest v w,
     drones md = d :: rest ->
     d !! "value" = Some v -> py_ne_zero v = false -> d !! "weight" = Some w ->
     (compute_model lib P md).2 = Raise TypeError) /\
  (forall lib,
     let out := compute_model lib fixture_params (fleet_of [zero_value_drone]) in
     out.2 = Raise TypeError /\
     drones out.1 =
       [ <["hull_weight_adjustment" := NotApplicable]>
           (<["hull_base_rate" := NotApplicable]> zero_value_drone) ]).
Proof.
  split; [|split].
  - intros final_rate. apply calculate_premium_zero. reflexivity.
  - intros lib P md d rest v w Hds Hv Hz Hw.
    destruct (compute_model_drones lib P md) as [_ Hraise].
    destruct (for_each_head (rate_drone lib P) d rest) as [_ Hstop].
    rewrite Hds in Hraise. apply Hraise, Hstop.
    rewrite (rate_drone_zero_value lib P d v w Hv Hz Hw). reflexivity.
  - intros lib. vm_compute. split; reflexivity.
Qed.

(** ** Fleets that should have been rejected (C8) *)

(** C8, counterexample.  A fleet whose drone has an unknown weight band is
    not rejected before rating: the drone's hull base rate is written, then
    the table lookup raises [KeyError].  A fleet with a drone of negative
    value is rated to the end, the drone getting a negative premium. *)
Lemma C8_invalid_fleets_are_rated :
  (let out := compute_model dyadic_lib fixture_params
                (fleet_of [unknown_band_drone]) in
   out.2 = Raise KeyError /\
   drones out.1 = [ <["hull_base_rate" := PFloat 60]> unknown_band_drone ]) /\
  (let out := compute_model dyadic_lib fixture_params
                (fleet_of [negative_value_drone; regular_drone]) in
   out.2 = Ok tt /\
   (drones out.1 !! 0%nat) ≫= (fun d : item => d !! "hull_premium")
     = Some (PFloat (-6000 # 1))).
Proof. split; vm_compute; split; reflexivity. Qed.

(** C8, amended.  The rating pass validates nothing at ingestion.  For a
    fleet whose first drone has a nonzero value, negative or not, with a
    hull rate configured, the drone's [hull_base_rate] is written whatever
    its band, limit and excess are; and when its band is not in the table,
    the pass stops with the [KeyError] of the table lookup, after that
    write. *)
Theorem C8_rating_starts_without_validation (lib : mathlib) (P : params)
    (md : model_data) (d : item) (rest : list item) (v h : pyval) :
  drones md = d :: rest ->
  d !! "value" = Some v -> py_ne_zero v = true ->
  gross_base_rates P !! "hull" = Some h ->
  exists hb d',
    py_mul h (PInt 100) = Ok hb /\
    drones (compute_model lib P md).1 !! 0%nat = Some d' /\
    d' !! "hull_base_rate" = Some hb /\
    (forall w, d !! "weight" = Some w ->
       getitem_val (max_takeoff_weight_adj P) w = Raise KeyError ->
       (compute_model lib P md).2 = Raise KeyError).
Proof.
  intros Hds Hv Hnz Hh.
  destruct (rate_drone_first_write lib P d v h Hv Hnz Hh)
    as (hb & Hhb & Hwritten & Hband).
  destruct (compute_model_drones lib P md) as [Hdrones Hraise].
  destruct (for_each_head (rate_drone lib P) d rest) as [Hhead Hstop].
  rewrite Hds in Hdrones, Hraise.
  exists hb, (rate_drone lib P d).1.
  split; [exact Hhb|]. split; [rewrite Hdrones; exact Hhead|].
  split; [exact Hwritten|].
  intros w Hw Hkey. apply Hraise, Hstop, (Hband w Hw Hkey).
Qed.

(** The theorem at a fleet whose drone has an unknown band. *)
Lemma witness_C8_unknown_band :
  exists hb d',
    py_mul (PFloat (3 # 5)) (PInt 100) = Ok hb /\
    drones (compute_model dyadic_lib fixture_params
              (fleet_of [unknown_band_drone])).1 !! 0%nat = Some d' /\
    d' !! "hull_base_rate" = Some hb /\
    (compute_model dyadic_lib fixture_params
       (fleet_of [unknown_band_drone])).2 = Raise KeyError.
Proof.
  destruct (C8_rating_starts_without_validation dyadic_lib fixture_params
              (fleet_of [unknown_band_drone]) unknown_band_drone []
              (PInt 10000) (PFloat (3 # 5)) eq_refl eq_refl eq_refl eq_refl)
    as (hb & d' & Hhb & Hd' & Hwritten & Hband).
  exists hb, d'. repeat (split; [assumption|]).
  apply (Hband (PStr "50kg+")); reflexivity.
Defined.

(** ** Capacity limiting of the drones (C3, C10) *)

Lemma is_real_as_real (v : pyval) :
  is_real v = true -> as_real v = Some (real_of v).
Proof.
  unfold is_real, real_of. destruct (as_real v); [reflexivity | discriminate].
Qed.

Lemma StronglySorted_lookup {A} (R : A -> A -> Prop) (l : list A) :
  StronglySorted R l ->
  forall p1 p2 a b, (p1 < p2)%nat -> l !! p1 = Some a -> l !! p2 = Some b ->
  R a b.
Proof.
  induction 1 as [|x l Hs IH Hall]; intros p1 p2 a b Hlt H1 H2.
  - discriminate.
  - destruct p2 as [|p2]; [lia|]. destruct p1 as [|p1].
    + injection H1 as <-. simpl in H2.
      exact (Forall_lookup_1 _ _ _ _ Hall H2).
    + simpl in H1, H2. apply (IH p1 p2); [lia | assumption | assumption].
Qed.

Section Ranking.
Context (key : nat -> Q).

Lemma insert_desc_sorted (x : keyed) (s : list keyed) :
  keyed_ok key x -> Forall (keyed_ok key) s ->
  StronglySorted (keyed_before key) s ->
  Forall (fun y : keyed => (x.1 < y.1)%nat) s ->
  exists s', insert_desc x s = Ok s' /\ Permutation s' (x :: s) /\
             StronglySorted (keyed_before key) s' /\ Forall (keyed_ok key) s'.
Proof.
  induction s as [|y ys IH]; intros Hx Hs Hsorted Hidx.
  - exists [x]. split; [reflexivity|]. split; [reflexivity|].
    split; [apply SSorted_cons; constructor|].
    constructor; [exact Hx | constructor].
  - apply Forall_cons in Hs as [Hy Hys].
    apply Forall_cons in Hidx as [Hxy Hidx].
    apply StronglySorted_inv in Hsorted as [Hsorted Hall].
    cbn [insert_desc].
    rewrite (py_lt_real x.2 y.2 _ _ (is_real_as_real _ (proj1 Hx))
               (is_real_as_real _ (proj1 Hy))).
    rewrite (proj2 Hx), (proj2 Hy).
    destruct (Qltb (key x.1) (key y.1)) eqn:E.
    + apply Qltb_lt in E.
      destruct (IH Hx Hys Hsorted Hidx) as (s' & Hins & Hperm & Hs' & Hok).
      exists (y :: s'). rewrite Hins, bind_Ok.
      split; [reflexivity|]. split.
      { rewrite Hperm. apply perm_swap. }
      split; [|constructor; assumption].
      constructor; [exact Hs'|].
      apply Forall_forall. intros z Hz. rewrite Hperm in Hz.
      apply elem_of_cons in Hz as [->|Hz].
      * left. exact E.
      * exact (proj1 (Forall_forall _ _) Hall z Hz).
    + apply Qltb_ge in E.
      exists (x :: y :: ys). split; [reflexivity|]. split; [reflexivity|].
      split; [|constructor; [exact Hx|]; constructor; assumption].
      constructor; [constructor; assumption|].
      assert (Hle : forall z, z ∈ y :: ys -> (key z.1 <= key x.1)%Q /\ (x.1 < z.1)%nat).
      { intros z Hz. apply elem_of_cons in Hz as [->|Hz].
        - split; assumption.
        - split; [|exact (proj1 (Forall_forall _ _) Hidx z Hz)].
          apply Qle_trans with (key y.1); [|exact E].
          destruct (proj1 (Forall_forall _ _) Hall z Hz) as [Hlt|[Heq _]].
          + apply Qlt_le_weak, Hlt.
          + rewrite Heq. apply Qle_refl. }
      apply Forall_forall. intros z Hz. destruct (Hle z Hz) as [Hk Hi].
      apply Qle_lt_or_eq in Hk as [Hk|Hk]; [left; exact Hk|].
      right. split; assumption.
Qed.

Lemma sort_desc_sorted (l : list keyed) :
  Forall (keyed_ok key) l ->
  StronglySorted (fun a b : keyed => (a.1 < b.1)%nat) l ->
  exists s, sort_desc l = Ok s /\ Permutation s l /\
            StronglySorted (keyed_before key) s /\ Forall (keyed_ok key) s.
Proof.
  induction l as [|x xs IH]; intros Hl Hinc.
  - exists []. split; [reflexivity|]. split; [reflexivity|].
    split; constructor.
  - apply Forall_cons in Hl as [Hx Hxs].
    apply StronglySorted_inv in Hinc as [Hinc Hlt].
    destruct (IH Hxs Hinc) as (s & Hsort & Hperm & Hs & Hok).
    cbn [sort_desc]. rewrite Hsort, bind_Ok.
    destruct (insert_desc_sorted x s Hx Hok Hs) as (s' & Hins & Hperm' & Hs' & Hok').
    { apply Forall_forall. intros y Hy. rewrite Hperm in Hy.
      exact (proj1 (Forall_forall _ _) Hlt y Hy). }
    exists s'. split; [exact Hins|]. split; [|split; assumption].
    rewrite Hperm'. constructor. exact Hperm.
Qed.

Lemma sort_keys_real (field : string) (xs : list item) (i : nat) :
  forallb (field_real field) xs = true ->
  (forall p d v, xs !! p = Some d -> d !! field = Some v ->
                 real_of v = key (i + p)%nat) ->
  exists ks, sort_keys field i xs = Ok ks /\ ks.*1 = seq i (length xs) /\
             Forall (keyed_ok key) ks /\
             StronglySorted (fun a b : keyed => (a.1 < b.1)%nat) ks /\
             Forall (fun a : keyed => (i <= a.1)%nat) ks.
Proof.
  revert i. induction xs as [|x xs IH]; intros i Hreal Hkey.
  - exists []. split; [reflexivity|]. split; [reflexivity|].
    split; [constructor|]. split; constructor.
  - simpl in Hreal. apply andb_true_iff in Hreal as [Hx Hxs].
    unfold field_real in Hx.
    destruct (x !! field) as [k|] eqn:Ek; [|discriminate].
    destruct (IH (S i) Hxs) as (ks & Hks & Hidx & Hok & Hinc & Hge).
    { intros p d v Hp Hv. replace (S i + p)%nat with (i + S p)%nat by lia.
      exact (Hkey (S p) d v Hp Hv). }
    exists ((i, k) :: ks). cbn [sort_keys]. unfold getitem. rewrite Ek, bind_Ok.
    rewrite Hks, bind_Ok. split; [reflexivity|].
    split; [cbn; rewrite Hidx; reflexivity|].
    split.
    { constructor; [|exact Hok]. split; [exact Hx|]. simpl.
      rewrite (Hkey 0%nat x k eq_refl Ek). f_equal. lia. }
    split.
    { constructor; [exact Hinc|]. eapply Forall_impl; [exact Hge|].
      simpl. intros a Ha. lia. }
    constructor; [simpl; lia|]. eapply Forall_impl; [exact Hge|].
    simpl. intros a Ha. lia.
Qed.
End Ranking.

(** The view [sorted] builds over a list of records with real keys ranks
    the positions by descending key, ties in their original order. *)
Lemma sorted_by_desc_ranks (field : string) (xs : list item) :
  forallb (field_real field) xs = true ->
  exists ranking,
    sorted_by_desc field xs = Ok ranking /\
    ranks_desc_stable (key_at field xs) (length xs) ranking.
Proof.
  intros Hreal.
  destruct (sort_keys_real (key_at field xs) field xs 0 Hreal)
    as (ks & Hks & Hidx & Hok & Hinc & _).
  { intros p d v Hp Hv. unfold key_at. simpl. rewrite Hp. simpl.
    rewrite Hv. reflexivity. }
  destruct (sort_desc_sorted (key_at field xs) ks Hok Hinc)
    as (s & Hs & Hperm & Hsorted & _).
  exists (s.*1). unfold sorted_by_desc. rewrite Hks, bind_Ok, Hs, bind_Ok.
  split; [reflexivity|]. split.
  - rewrite <- Hidx. apply fmap_Permutation, Hperm.
  - intros p1 p2 i j Hlt H1 H2.
    rewrite list_lookup_fmap in H1, H2.
    apply fmap_Some in H1 as (a & Ea & ->).
    apply fmap_Some in H2 as (b & Eb & ->).
    exact (StronglySorted_lookup _ s Hsorted p1 p2 a b Hlt Ea Eb).
Qed.

(** The loop over the view: the record at rank [idx + p] is overwritten
    exactly when that rank is not below the limit; the others and all other
    fields are left alone. *)
Lemma overwrite_beyond_lookup (field : string) (v : pyval) (limit : Z)
    (view : list nat) :
  NoDup view ->
  forall idx store,
    let out := overwrite_beyond field v limit idx view store in
    length out = length store /\
    (forall p i, view !! p = Some i ->
       out !! i =
         (if Z.of_nat (idx + p) <? limit then store !! i
          else insert field v <$> store !! i)) /\
    (forall i, i ∉ view -> out !! i = store !! i).
Proof.
  induction 1 as [|i rest Hnotin Hnodup IH]; intros idx store; cbn zeta.
  - split; [reflexivity|]. split; [intros p i H; discriminate|].
    intros i _. reflexivity.
  - cbn [overwrite_beyond].
    set (store' := if Z.of_nat idx <? limit then store
                   else alter (insert field v) i store).
    destruct (IH (S idx) store') as (Hlen & Hin & Hout).
    assert (Hlen' : length store' = length store).
    { unfold store'. destruct (_ <? _); [reflexivity | apply length_alter]. }
    split; [rewrite Hlen; exact Hlen'|]. split.
    + intros p j Hp. destruct p as [|p].
      * injection Hp as <-. rewrite (Hout i Hnotin).
        replace (idx + 0)%nat with idx by lia. unfold store'.
        destruct (_ <? _); [reflexivity | apply list_lookup_alter_eq].
      * simpl in Hp. rewrite (Hin p j Hp).
        replace (S idx + p)%nat with (idx + S p)%nat by lia.
        assert (Hne : i <> j).
        { intros ->. apply Hnotin. eapply list_elem_of_lookup_2, Hp. }
        assert (Hj : store' !! j = store !! j).
        { unfold store'. destruct (Z.of_nat idx <? limit); [reflexivity|].
          apply list_lookup_alter_ne, Hne. }
        rewrite Hj. reflexivity.
    + intros j Hj. rewrite not_elem_of_cons in Hj. destruct Hj as [Hne Hj].
      rewrite (Hout j Hj). unfold store'.
      destruct (_ <? _); [reflexivity|]. apply list_lookup_alter_ne. congruence.
Qed.

Lemma overwrite_beyond_frame (field : string) (v : pyval) (limit : Z)
    (view : list nat) :
  forall idx store,
    delete field <$> overwrite_beyond field v limit idx view store
      = delete field <$> store.
Proof.
  induction view as [|i rest IH]; intros idx store; [reflexivity|].
  cbn [overwrite_beyond]. rewrite IH.
  destruct (_ <? _); [reflexivity|].
  rewrite (list_fmap_alter (delete field) (insert field v) id).
  - apply list_eq. intros j. rewrite list_lookup_alter.
    destruct (decide (i = j)) as [->|]; [|reflexivity].
    destruct (_ !! j); reflexivity.
  - apply Forall_forall. intros d _. apply delete_insert_eq.
Qed.

(** Counting the records that satisfy a test, along a ranking. *)
Lemma filter_length_Permutation {A} (f : A -> bool) (l l' : list A) :
  Permutation l l' -> length (List.filter f l) = length (List.filter f l').
Proof.
  induction 1 as [|x l l' _ IH|x y l|l l' l'' _ IH1 _ IH2]; simpl.
  - reflexivity.
  - destruct (f x); simpl; congruence.
  - destruct (f x), (f y); reflexivity.
  - congruence.
Qed.

Lemma filter_length_all {A} (f : A -> bool) (l : list A) :
  Forall (fun x => f x = true) l -> length (List.filter f l) = length l.
Proof.
  induction 1 as [|x l Hx _ IH]; [reflexivity|]. simpl. rewrite Hx. simpl.
  congruence.
Qed.

Lemma fmap_lookup_total_seq (l : list item) :
  (fun i => l !!! i) <$> seq 0 (length l) = l.
Proof.
  apply list_eq. intros i. rewrite list_lookup_fmap.
  destruct (decide (i < length l)%nat) as [Hlt|Hge].
  - rewrite lookup_seq_lt by exact Hlt. simpl.
    destruct (lookup_lt_is_Some_2 l i Hlt) as [x Hx].
    rewrite Hx. f_equal. apply list_lookup_total_correct, Hx.
  - rewrite lookup_seq_ge by lia. rewrite lookup_ge_None_2 by lia.
    reflexivity.
Qed.

Lemma count_from_rank (f : item -> bool) (out : list item)
    (ranking : list nat) (k : nat) :
  Permutation ranking (seq 0 (length out)) ->
  (forall p i, ranking !! p = Some i -> (k <= p)%nat ->
     exists d, out !! i = Some d /\ f d = true) ->
  (length out - k <= length (List.filter f out))%nat.
Proof.
  intros Hperm Hbeyond.
  set (L := (fun i => out !!! i) <$> ranking).
  assert (HL : Permutation L out).
  { unfold L. rewrite Hperm. rewrite fmap_lookup_total_seq. reflexivity. }
  rewrite <- (filter_length_Permutation f L out HL).
  rewrite <- (Permutation_length HL).
  rewrite <- (take_drop k L) at 2. rewrite List.filter_app, length_app.
  rewrite (filter_length_all f (drop k L)); [rewrite length_drop; lia|].
  apply Forall_lookup. intros j x Hx. rewrite lookup_drop in Hx.
  unfold L in Hx. rewrite list_lookup_fmap in Hx.
  apply fmap_Some in Hx as (i & Hi & ->).
  destruct (Hbeyond (k + j)%nat i Hi) as (d & Hd & Hf); [lia|].
  rewrite (list_lookup_total_correct out i d Hd). exact Hf.
Qed.

(** What [limited_drones_in_use] does on a priced fleet. *)
Lemma limited_drones_in_use_priced (ds : list item) (k : Z) :
  priced ds = true ->
  exists ranking out,
    sorted_by_desc "hull_premium" ds = Ok ranking /\
    ranks_desc_stable (key_at "hull_premium" ds) (length ds) ranking /\
    limited_drones_in_use ds k = Ok out /\
    length out = length ds /\
    (forall p i d, ranking !! p = Some i -> ds !! i = Some d ->
       out !! i = Some (if Z.of_nat p <? k then d
                        else <["hull_premium" := PInt 150]> d)).
Proof.
  intros Hpriced.
  destruct (sorted_by_desc_ranks "hull_premium" ds Hpriced)
    as (ranking & Hsorted & Hranks).
  exists ranking,
    (overwrite_beyond "hull_premium" (PInt 150) k 0 ranking ds).
  split; [exact Hsorted|]. split; [exact Hranks|].
  unfold limited_drones_in_use. rewrite Hsorted, bind_Ok.
  split; [reflexivity|].
  assert (Hnodup : NoDup ranking).
  { rewrite (proj1 Hranks). apply NoDup_seq. }
  destruct (overwrite_beyond_lookup "hull_premium" (PInt 150) k ranking
              Hnodup 0%nat ds) as (Hlen & Hin & _).
  split; [exact Hlen|].
  intros p i d Hp Hd. rewrite (Hin p i Hp), Hd. simpl.
  destruct (Z.of_nat p <? k); reflexivity.
Qed.

(** C3, counterexample.  With two drones priced 150 and 100 and a capacity
    of 1, both drones end with a premium of 150: two records, not
    N - k = 1, and the drone ranked first is among them. *)
Lemma C3_flat_rate_count_exceeds :
  limited_drones_in_use flat_rate_fleet 1
    = Ok [premium_record 150; premium_record 150] /\
  count_premium 150 [premium_record 150; premium_record 150] = 2%nat /\
  (length flat_rate_fleet - 1 = 1)%nat.
Proof. split; [vm_compute; reflexivity|]. split; reflexivity. Qed.

(** C3, amended.  For a priced fleet of N drones and a capacity k, the
    call returns; with the drones ranked by descending original
    [hull_premium], ties in their original order, every drone ranked
    beyond k has its [hull_premium] overwritten with 150 and every drone
    ranked within k keeps its record; so at least N - k drones end with a
    premium of 150 (more when a drone ranked within k was priced 150). *)
Theorem C3_flat_rate_beyond_capacity (ds : list item) (k : Z) :
  priced ds = true ->
  exists ranking out,
    sorted_by_desc "hull_premium" ds = Ok ranking /\
    ranks_desc_stable (key_at "hull_premium" ds) (length ds) ranking /\
    limited_drones_in_use ds k = Ok out /\
    length out = length ds /\
    (forall p i d, ranking !! p = Some i -> ds !! i = Some d ->
       out !! i = Some (if Z.of_nat p <? k then d
                        else <["hull_premium" := PInt 150]> d)) /\
    (length ds - Z.to_nat k <= count_premium 150 out)%nat.
Proof.
  intros Hpriced.
  destruct (limited_drones_in_use_priced ds k Hpriced)
    as (ranking & out & Hsorted & Hranks & Hout & Hlen & Hrank).
  exists ranking, out. repeat (split; [assumption|]).
  rewrite <- Hlen. unfold count_premium.
  apply (count_from_rank _ out ranking (Z.to_nat k)).
  - rewrite Hlen. exact (proj1 Hranks).
  - intros p i Hp Hk.
    assert (Hi : (i < length ds)%nat).
    { assert (Hin : i ∈ seq 0 (length ds)).
      { rewrite <- (proj1 Hranks). eapply list_elem_of_lookup_2, Hp. }
      apply elem_of_seq in Hin. lia. }
    destruct (lookup_lt_is_Some_2 ds i Hi) as [d Hd].
    rewrite (Hrank p i d Hp Hd).
    replace (Z.of_nat p <? k) with false by (symmetry; apply Z.ltb_ge; lia).
    eexists. split; [reflexivity|]. rewrite lookup_insert_eq. reflexivity.
Qed.

(** The theorem at the reference drones with a capacity of 2. *)
Lemma witness_C3_reference_drones :
  exists ranking out,
    sorted_by_desc "hull_premium" reference_drones = Ok ranking /\
    ranks_desc_stable (key_at "hull_premium" reference_drones)
      (length reference_drones) ranking /\
    limited_drones_in_use reference_drones 2 = Ok out /\
    length out = length reference_drones /\
    (forall p i d, ranking !! p = Some i -> reference_drones !! i = Some d ->
       out !! i = Some (if Z.of_nat p <? 2 then d
                        else <["hull_premium" := PInt 150]> d)) /\
    (length reference_drones - Z.to_nat 2 <= count_premium 150 out)%nat.
Proof.
  apply (C3_flat_rate_beyond_capacity reference_drones 2). reflexivity.
Defined.

(** The reference test: with a capacity of 2 the first drone, of the lowest
    premium, gets the flat rate and the two others keep theirs. *)
Example reference_limited_drones :
  sorted_by_desc "hull_premium" reference_drones = Ok [1; 2; 0]%nat /\
  (fun d : item => d !! "hull_premium")
    <$> default [] (match limited_drones_in_use reference_drones 2 with
                    | Ok out => Some out
                    | Raise _ => None
                    end)
    = [Some (PInt 150); Some (PInt 1152); Some (PInt 1080)].
Proof. split; vm_compute; reflexivity. Qed.

(** C10.  On a priced fleet [limited_drones_in_use] returns, and whenever
    it returns, the list has the drones of the input in their input order,
    every field other than [hull_premium] being as it was. *)
Theorem C10_only_hull_premium_changes (ds : list item) (k : Z) :
  (priced ds = true -> exists out, limited_drones_in_use ds k = Ok out) /\
  (forall out, limited_drones_in_use ds k = Ok out ->
     length out = length ds /\
     delete "hull_premium" <$> out = delete "hull_premium" <$> ds /\
     (forall i d' f, out !! i = Some d' -> f <> "hull_premium" ->
        exists d, ds !! i = Some d /\ d' !! f = d !! f)).
Proof.
  split.
  - intros Hpriced.
    destruct (limited_drones_in_use_priced ds k Hpriced)
      as (ranking & out & _ & _ & Hout & _).
    exists out. exact Hout.
  - intros out. unfold limited_drones_in_use.
    destruct (sorted_by_desc "hull_premium" ds) as [view|e]; [|discriminate].
    rewrite bind_Ok. intros [= <-].
    pose proof (overwrite_beyond_frame "hull_premium" (PInt 150) k view 0 ds)
      as Hframe.
    set (out := overwrite_beyond "hull_premium" (PInt 150) k 0 view ds) in *.
    assert (Hlen : length out = length ds).
    { rewrite <- (length_fmap (delete "hull_premium") out), Hframe.
      apply length_fmap. }
    split; [exact Hlen|]. split; [exact Hframe|].
    intros i d' f Hd' Hf.
    assert (Hi : (i < length ds)%nat)
      by (rewrite <- Hlen; eapply lookup_lt_Some, Hd').
    destruct (lookup_lt_is_Some_2 ds i Hi) as [d Hd].
    exists d. split; [exact Hd|].
    assert (Heq : delete "hull_premium" d' = delete "hull_premium" d).
    { assert (H1 : (delete "hull_premium" <$> out) !! i
                   = Some (delete "hull_premium" d'))
        by (rewrite list_lookup_fmap, Hd'; reflexivity).
      rewrite Hframe, list_lookup_fmap, Hd in H1. simpl in H1. congruence. }
    rewrite <- (lookup_delete_ne d' "hull_premium" f) by congruence.
    rewrite Heq. apply lookup_delete_ne. congruence.
Qed.

(** The theorem at the reference drones with a capacity of 2. *)
Lemma witness_C10_reference_drones :
  exists out,
    limited_drones_in_use reference_drones 2 = Ok out /\
    length out = length reference_drones /\
    delete "hull_premium" <$> out = delete "hull_premium" <$> reference_drones /\
    (forall i d' f, out !! i = Some d' -> f <> "hull_premium" ->
       exists d, reference_drones !! i = Some d /\ d' !! f = d !! f).
Proof.
  destruct (C10_only_hull_premium_changes reference_drones 2)
    as [Hreturns Hframe].
  destruct (Hreturns eq_refl) as [out Hout].
  exists out. split; [exact Hout|]. exact (Hframe out Hout).
Defined.

(** * Further properties of the rating engine *)

(** ** Rate lookups *)

(** X1.  A weight band that is not in the table is never given a default
    multiplier: for a nonzero value [hull_weight_adj] and [hull_final_rate]
    raise the [KeyError] of the lookup, with or without the percentage
    option; for a value of 0 the guard returns the sentinel before the
    lookup is made. *)
Theorem X1_unknown_band_raises_key_error (P : params) (value band : pyval) :
  getitem_val (max_takeoff_weight_adj P) band = Raise KeyError ->
  hull_weight_adj P value band =
    (if py_ne_zero value then Raise KeyError else Ok NotApplicable) /\
  (forall in_percentage,
     hull_final_rate P value band in_percentage =
       (if py_ne_zero value then Raise KeyError else Ok NotApplicable)).
Proof.
  intros Hband. destruct (py_ne_zero value) eqn:Hv.
  - assert (Hw : hull_weight_adj P value band = Raise KeyError).
    { unfold hull_weight_adj. rewrite guard_nonzero by assumption.
      exact Hband. }
    split; [exact Hw|]. intros in_percentage.
    unfold hull_final_rate. rewrite guard_nonzero by assumption. rewrite Hw.
    unfold hull_base_rate. rewrite guard_nonzero by assumption.
    unfold getitem. destruct (gross_base_rates P !! "hull"); reflexivity.
  - split; [apply hull_weight_adj_zero, Hv|].
    intros in_percentage. apply hull_final_rate_zero, Hv.
Qed.

(** The theorem at a drone of value 10000 in the band 50kg+. *)
Lemma witness_X1_band_50kg :
  hull_weight_adj fixture_params (PInt 10000) (PStr "50kg+") = Raise KeyError /\
  (forall in_percentage,
     hull_final_rate fixture_params (PInt 10000) (PStr "50kg+") in_percentage
       = Raise KeyError).
Proof.
  exact (X1_unknown_band_raises_key_error fixture_params (PInt 10000)
           (PStr "50kg+") eq_refl).
Defined.

Lemma py_mul_100_real (h : pyval) (qh : Q) :
  as_real h = Some qh ->
  exists r q, py_mul h (PInt 100) = Ok r /\ as_real r = Some q /\
              (q == qh * 100)%Q.
Proof.
  intros Hh. exact (py_mul_real h (PInt 100) qh 100 Hh eq_refl).
Qed.



(** ** Premiums *)

Lemma calculate_premium_real (final_rate value : pyval) (qr qv : Q) :
  as_real value = Some qv -> ~ (qv == 0)%Q -> as_real final_rate = Some qr ->
  exists p, calculate_premium final_rate value = Ok (PFloat p) /\
            (p == qv * qr / 100)%Q.
Proof.
  intros Hv Hnz Hr.
  assert (Hne : py_ne_zero value = true).
  { rewrite (py_ne_zero_real value qv Hv). apply negb_true_iff.
    apply not_true_iff_false. intros H. apply Qeq_bool_iff in H.
    contradiction. }
  unfold calculate_premium. rewrite guard_nonzero by assumption.
  destruct (py_mul_real value final_rate qv qr Hv Hr) as (c & q & Hc & Hq & Hval).
  rewrite Hc, bind_Ok.
  rewrite (py_truediv_real c (PInt 100) q 100 Hq eq_refl).
  change (Qeq_bool 100 0) with false. cbv iota.
  eexists. split; [reflexivity|]. rewrite Qred_correct, Hval. reflexivity.
Qed.

(** X3.  For a nonzero value [calculate_premium] is the product of the
    value and the rate, taken first, divided by 100; and whatever its
    arguments are, when it returns, the value is not 0 and the result is a
    float or a complex number, never an int and never the sentinel. *)
Theorem X3_premium_is_value_times_rate_percent (final_rate value : pyval) :
  (py_ne_zero value = true ->
   calculate_premium final_rate value
     = (p ← py_mul value final_rate; py_truediv p (PInt 100))) /\
  (forall r, calculate_premium final_rate value = Ok r ->
     py_ne_zero value = true /\
     ((exists q, r = PFloat q) \/ (exists re im, r = PComplex re im))).
Proof.
  split.
  - intros Hv. unfold calculate_premium. rewrite guard_nonzero by assumption.
    reflexivity.
  - intros r Hr. destruct (py_ne_zero value) eqn:Hv.
    + split; [reflexivity|]. unfold calculate_premium in Hr.
      rewrite guard_nonzero in Hr by assumption.
      destruct (py_mul value final_rate) as [p|e]; [|discriminate Hr].
      rewrite bind_Ok in Hr. unfold py_truediv in Hr.
      destruct (as_num p) as [x|]; [|discriminate Hr].
      cbn [as_num num_is_zero Z.eqb] in Hr.
      destruct (num_real x) as [qx|]; cbn [num_real] in Hr;
        injection Hr as <-; eauto.
    + rewrite (calculate_premium_zero value Hv final_rate) in Hr.
      discriminate Hr.
Qed.

(** ** Totals *)

Lemma foldl_add_Raise (e : pyexn) (vs : list pyval) :
  foldl (fun acc v => a ← acc; py_add a v) (Raise e) vs = Raise e.
Proof. induction vs as [|v vs IH]; [reflexivity | exact IH]. Qed.

Lemma py_add_num_str (a : pyval) (s : string) :
  is_Some (as_num a) -> py_add a (PStr s) = Raise TypeError.
Proof. intros [n Hn]. unfold py_add. rewrite Hn. reflexivity. Qed.

Lemma py_add_num_num (a v : pyval) :
  is_Some (as_num a) -> is_Some (as_num v) ->
  exists c, py_add a v = Ok c /\ is_Some (as_num c).
Proof.
  intros [x Hx] [y Hy]. unfold py_add. rewrite Hx, Hy.
  eexists. split; [reflexivity|]. destruct x, y; simpl; eauto.
Qed.

(** A sum that meets a string after a number raises [TypeError]. *)
Lemma py_sum_with_string (vs : list pyval) (s : string) :
  PStr s ∈ vs ->
  forall acc, is_Some (as_num acc) ->
  foldl (fun acc v => a ← acc; py_add a v) (Ok acc) vs = Raise TypeError.
Proof.
  induction vs as [|v vs IH]; intros Hin acc Hacc.
  - apply elem_of_nil in Hin. contradiction.
  - cbn [foldl]. rewrite bind_Ok.
    destruct (as_num v) as [n|] eqn:Ev.
    + destruct (py_add_num_num acc v Hacc) as (c & Hc & Hnum); [eauto|].
      rewrite Hc. apply IH; [|exact Hnum].
      apply elem_of_cons in Hin as [<-|Hin]; [discriminate Ev | exact Hin].
    + destruct v; try discriminate.
      rewrite (py_add_num_str acc _ Hacc). apply foldl_add_Raise.
Qed.

(** X4.  A record whose field holds a string, such as the sentinel of a
    zero-value item, is never skipped by the totals: [calculate_total_net]
    raises [TypeError], and so does [calculate_total_gross] for every
    brokerage. *)
Theorem X4_totals_reject_strings (items : list item) (field : string)
    (it : item) (s : string) :
  it ∈ items -> it !! field = Some (PStr s) ->
  calculate_total_net items field = Raise TypeError /\
  (forall brokerage,
     calculate_total_gross items brokerage field = Raise TypeError).
Proof.
  intros Hin Hs.
  assert (Hnet : calculate_total_net items field = Raise TypeError).
  { unfold calculate_total_net, py_sum.
    rewrite (py_sum_with_string _ s); [reflexivity | | eexists; reflexivity].
    apply list_elem_of_fmap. exists it. split; [|exact Hin].
    unfold dict_get. rewrite Hs. reflexivity. }
  split; [exact Hnet|]. intros brokerage.
  unfold calculate_total_gross. rewrite Hnet. reflexivity.
Qed.

(** The theorem at a fleet whose second record holds the sentinel. *)
Lemma witness_X4_sentinel_premium :
  calculate_total_net
    [premium_record 600; <["hull_premium" := NotApplicable]> ∅] "hull_premium"
    = Raise TypeError /\
  (forall brokerage,
     calculate_total_gross
       [premium_record 600; <["hull_premium" := NotApplicable]> ∅]
       brokerage "hull_premium" = Raise TypeError).
Proof.
  apply (X4_totals_reject_strings
           [premium_record 600; <["hull_premium" := NotApplicable]> ∅]
           "hull_premium" (<["hull_premium" := NotApplicable]> ∅) "").
  - apply elem_of_cons. right. apply elem_of_cons. left. reflexivity.
  - reflexivity.
Defined.

Lemma py_sum_zeros (items : list item) (field : string) :
  Forall (fun it : item => it !! field = None) items ->
  py_sum (map (fun product => dict_get product field (PInt 0)) items)
    = Ok (PInt 0).
Proof.
  unfold py_sum. induction 1 as [|it items Hit _ IH]; [reflexivity|].
  cbn [map foldl]. unfold dict_get at 1. rewrite Hit. exact IH.
Qed.

(** X5.  A field name that no record carries is not an error: the net
    total is the int 0, and for a real brokerage other than 1 the gross
    total is the float 0.0. *)
Theorem X5_unknown_field_totals_zero (items : list item) (field : string)
    (brokerage : pyval) (qb : Q) :
  Forall (fun it : item => it !! field = None) items ->
  as_real brokerage = Some qb -> ~ (qb == 1)%Q ->
  calculate_total_net items field = Ok (PInt 0) /\
  calculate_total_gross items brokerage field = Ok (PFloat 0).
Proof.
  intros Hmissing Hb Hne.
  assert (Hnet : calculate_total_net items field = Ok (PInt 0)).
  { unfold calculate_total_net. rewrite (py_sum_zeros items field Hmissing).
    reflexivity. }
  split; [exact Hnet|].
  unfold calculate_total_gross. rewrite Hnet, bind_Ok.
  destruct (py_sub_real (PInt 1) brokerage 1 qb eq_refl Hb)
    as (d & r & Hd & Hdr & Hr).
  rewrite Hd, bind_Ok, (py_truediv_real (PInt 0) d 0 r eq_refl Hdr).
  rewrite (Qeq_bool_one_minus r qb Hr).
  destruct (Qeq_bool qb 1) eqn:E; [apply Qeq_bool_iff in E; contradiction|].
  rewrite bind_Ok. cbn [py_round].
  change (PFloat 0) with (PFloat (round_half_even 0 0)).
  rewrite (round_half_even_comp (Qred (0 / r)) 0 0); [reflexivity|].
  rewrite Qred_correct. unfold Qdiv. ring.
Qed.

(** The theorem at the reference drones and the field name of the tests,
    ["hull"], which no record carries. *)
Lemma witness_X5_field_hull :
  calculate_total_net reference_drones "hull" = Ok (PInt 0) /\
  calculate_total_gross reference_drones (PFloat (3 # 10)) "hull"
    = Ok (PFloat 0).
Proof.
  apply (X5_unknown_field_totals_zero reference_drones "hull"
           (PFloat (3 # 10)) (3 # 10));
    [repeat constructor | reflexivity | discriminate].
Defined.

(** ** Third-party liability *)

Lemma py_ne_zero_of_real (v : pyval) (qv : Q) :
  as_real v = Some qv -> py_ne_zero v = true -> ~ (qv == 0)%Q.
Proof.
  intros Hv Hne H. rewrite (py_ne_zero_real v qv Hv) in Hne.
  apply Qeq_bool_iff in H. rewrite H in Hne. discriminate.
Qed.

Lemma tpl_base_layer_premium_nonzero (P : params) (value lr : pyval) :
  py_ne_zero value = true ->
  gross_base_rates P !! "liability" = Some lr ->
  tpl_base_layer_premium P value = py_mul lr value.
Proof.
  intros Hv Hlr. unfold tpl_base_layer_premium, tpl_base_rate.
  rewrite !guard_nonzero by assumption. unfold getitem.
  rewrite Hlr, !bind_Ok. reflexivity.
Qed.



(** X7.  [tpl_ilf] reads the curve parameters and adds the limit and the
    excess before the zero guard: for a value of 0 it returns the sentinel
    when both parameters are configured and the sum is defined, and for
    every value, 0 included, a missing parameter is a [KeyError]. *)
Theorem X7_ilf_reads_curve_before_guard (lib : mathlib) (P : params)
    (value tpl_limit tpl_excess : pyval) :
  py_ne_zero value = false ->
  (is_Some (ilf_riebesell_curve P !! "base_limit") ->
   is_Some (ilf_riebesell_curve P !! "z") ->
   is_Some (as_num tpl_limit) -> is_Some (as_num tpl_excess) ->
   tpl_ilf lib P value tpl_limit tpl_excess = Ok NotApplicable) /\
  (ilf_riebesell_curve P !! "base_limit" = None \/
   ilf_riebesell_curve P !! "z" = None ->
   tpl_ilf lib P value tpl_limit tpl_excess = Raise KeyError).
Proof.
  intros Hz. unfold tpl_ilf, getitem. split.
  - intros [bl ->] [z ->] Hl Hx. rewrite !bind_Ok.
    destruct (py_add_num_num tpl_limit tpl_excess Hl Hx) as (s & -> & _).
    rewrite bind_Ok. apply guard_zero, Hz.
  - intros [Hbl|Hzm].
    + rewrite Hbl. reflexivity.
    + rewrite Hzm. destruct (_ !! "base_limit"); reflexivity.
Qed.

(** The theorem at a drone of value 0: the sentinel with the reference
    table, a [KeyError] with a table that has no curve parameters. *)
Lemma witness_X7_zero_value :
  tpl_ilf dyadic_lib fixture_params (PInt 0) (PInt 1000000) (PInt 0)
    = Ok NotApplicable /\
  tpl_ilf dyadic_lib no_curve_params (PInt 0) (PInt 1000000) (PInt 0)
    = Raise KeyError.
Proof.
  split.
  - apply (X7_ilf_reads_curve_before_guard dyadic_lib fixture_params
             (PInt 0) (PInt 1000000) (PInt 0) eq_refl); eexists; reflexivity.
  - apply (X7_ilf_reads_curve_before_guard dyadic_lib no_curve_params
             (PInt 0) (PInt 1000000) (PInt 0) eq_refl).
    left. reflexivity.
Defined.

(** X8.  For a nonzero value and real limit, excess and curve parameters,
    a base limit of 0 makes [tpl_ilf] raise [ZeroDivisionError], and with a
    nonzero base limit a [z] of -1 or less makes it raise the [ValueError]
    of the logarithm. *)
Theorem X8_ilf_degenerate_curve_raises (lib : mathlib) (P : params)
    (value tpl_limit tpl_excess base_limit z : pyval) (ql qx qbl qz : Q) :
  py_ne_zero value = true ->
  ilf_riebesell_curve P !! "base_limit" = Some base_limit ->
  ilf_riebesell_curve P !! "z" = Some z ->
  as_real tpl_limit = Some ql -> as_real tpl_excess = Some qx ->
  as_real base_limit = Some qbl -> as_real z = Some qz ->
  ((qbl == 0)%Q ->
     tpl_ilf lib P value tpl_limit tpl_excess = Raise ZeroDivisionError) /\
  (~ (qbl == 0)%Q -> (1 + qz <= 0)%Q ->
     tpl_ilf lib P value tpl_limit tpl_excess = Raise ValueError).
Proof.
  intros Hne Hbl Hz Hl Hx Hqbl Hqz.
  destruct (py_add_real tpl_limit tpl_excess ql qx Hl Hx)
    as (s & qs & Hs & Hqs & _).
  rewrite (tpl_ilf_nonzero lib P value tpl_limit tpl_excess base_limit z s
             Hne Hbl Hz Hs).
  assert (Hc : curve lib base_limit z s =
               if Qeq_bool qbl 0 then Raise ZeroDivisionError
               else exponent ← (t ← py_add (PInt 1) z; math_log2 lib t);
                    py_pow lib (PFloat (Qred (qs / qbl))) exponent).
  { unfold curve. rewrite (py_truediv_real s base_limit qs qbl Hqs Hqbl).
    destruct (Qeq_bool qbl 0); reflexivity. }
  rewrite Hc. split.
  - intros H0. apply Qeq_bool_iff in H0. rewrite H0. reflexivity.
  - intros Hn0 Hle.
    destruct (Qeq_bool qbl 0) eqn:E; [apply Qeq_bool_iff in E; contradiction|].
    destruct (py_add_real (PInt 1) z 1 qz eq_refl Hqz) as (t & qt & Ht & Hqt & Hval).
    rewrite Ht, bind_Ok. unfold math_log2. rewrite Hqt.
    replace (Qle_bool qt 0) with true; [reflexivity|].
    symmetry. apply Qle_bool_iff. rewrite Hval. exact Hle.
Qed.

(** The theorem at a base limit of 0, and at z = -1. *)
Lemma witness_X8_degenerate_curves :
  tpl_ilf dyadic_lib zero_base_limit_params (PInt 10000) (PInt 1000000) (PInt 0)
    = Raise ZeroDivisionError /\
  tpl_ilf dyadic_lib minus_one_z_params (PInt 10000) (PInt 1000000) (PInt 0)
    = Raise ValueError.
Proof.
  split.
  - apply (X8_ilf_degenerate_curve_raises dyadic_lib zero_base_limit_params
             (PInt 10000) (PInt 1000000) (PInt 0) (PInt 0) (PFloat (1 # 5))
             1000000 0 0 (1 # 5)); reflexivity.
  - apply (X8_ilf_degenerate_curve_raises dyadic_lib minus_one_z_params
             (PInt 10000) (PInt 1000000) (PInt 0) (PInt 1000000) (PInt (-1))
             1000000 0 1000000 (-1));
      [reflexivity .. | discriminate | discriminate].
Defined.

Lemma curve_same_point (lib : mathlib) (bl z x1 x2 : pyval) (qbl q1 q2 : Q) :
  as_real bl = Some qbl -> as_real x1 = Some q1 -> as_real x2 = Some q2 ->
  (q1 == q2)%Q -> curve lib bl z x1 = curve lib bl z x2.
Proof.
  intros Hbl H1 H2 Heq. unfold curve.
  rewrite (py_truediv_real x1 bl q1 qbl H1 Hbl).
  rewrite (py_truediv_real x2 bl q2 qbl H2 Hbl).
  rewrite (Qred_complete (q1 / qbl) (q2 / qbl)); [reflexivity|].
  rewrite Heq. reflexivity.
Qed.

(** X9.  A layer of limit 0 has a factor of exactly 0.0: for a nonzero
    value, a real base limit and a real excess at which the curve is a
    float, [tpl_ilf(value, 0, excess)] is 0.0. *)
Theorem X9_empty_layer_has_factor_zero (lib : mathlib) (P : params)
    (value tpl_limit tpl_excess base_limit z : pyval) (ql qx qbl a : Q) :
  py_ne_zero value = true ->
  ilf_riebesell_curve P !! "base_limit" = Some base_limit ->
  ilf_riebesell_curve P !! "z" = Some z ->
  as_real base_limit = Some qbl ->
  as_real tpl_limit = Some ql -> (ql == 0)%Q ->
  as_real tpl_excess = Some qx ->
  curve lib base_limit z tpl_excess = Ok (PFloat a) ->
  tpl_ilf lib P value tpl_limit tpl_excess = Ok (PFloat 0).
Proof.
  intros Hne Hbl Hz Hqbl Hl Hl0 Hx Hcurve.
  destruct (py_add_real tpl_limit tpl_excess ql qx Hl Hx)
    as (s & qs & Hs & Hqs & Hval).
  rewrite (tpl_ilf_nonzero lib P value tpl_limit tpl_excess base_limit z s
             Hne Hbl Hz Hs).
  rewrite (curve_same_point lib base_limit z s tpl_excess qbl qs qx Hqbl Hqs Hx).
  2:{ rewrite Hval, Hl0. ring. }
  rewrite Hcurve, !bind_Ok. unfold py_sub. simpl. do 2 f_equal.
  apply (Qred_complete (a - a) 0). ring.
Qed.

(** The theorem at an excess of 2000000 with z = 1, where the curve is
    2.0. *)
Lemma witness_X9_empty_layer :
  tpl_ilf dyadic_lib doubling_params (PInt 10000) (PInt 0) (PInt 2000000)
    = Ok (PFloat 0).
Proof.
  apply (X9_empty_layer_has_factor_zero dyadic_lib doubling_params
           (PInt 10000) (PInt 0) (PInt 2000000) (PInt 1000000) (PInt 1)
           0 2000000 1000000 2); reflexivity.
Defined.

(** ** The camera rate *)

Lemma max_rate_filter (P : params) (ds : list item) :
  forallb (drone_ok P) ds = true ->
  forall cur, max_rate P ds cur = max_rate P (List.filter eligible ds) cur.
Proof.
  induction ds as [|d ds IH]; intros Hds cur; [reflexivity|].
  simpl in Hds. apply andb_true_iff in Hds as [Hd Hds].
  rewrite (max_rate_step P d ds cur Hd). cbn [List.filter].
  destruct (eligible d) eqn:El; [|apply IH, Hds].
  rewrite (max_rate_step P d _ cur Hd), El.
  destruct (drone_rate P d) as [r|e]; [|reflexivity]. rewrite !bind_Ok.
  destruct cur as [m|]; [|apply IH, Hds].
  destruct (py_gt r m) as [b|e]; [|reflexivity]. rewrite !bind_Ok.
  apply IH, Hds.
Qed.

(** X10.  The camera rate does not depend on the drones that have no
    detachable camera or a value of 0 or less: over well-formed drone
    records, [rate] of a fleet is [rate] of its eligible drones alone. *)
Theorem X10_rate_ignores_ineligible_drones (P : params) (ds : list item)
    (in_percentage : bool) :
  forallb (drone_ok P) ds = true ->
  rate P ds in_percentage = rate P (List.filter eligible ds) in_percentage.
Proof.
  intros Hds. unfold rate. rewrite (max_rate_filter P ds Hds None).
  reflexivity.
Qed.

(** The theorem at the reference drones, the second of which has no
    camera. *)
Lemma witness_X10_reference_drones :
  rate fixture_params reference_drones false
    = rate fixture_params (List.filter eligible reference_drones) false.
Proof.
  apply (X10_rate_ignores_ineligible_drones fixture_params reference_drones
           false). reflexivity.
Defined.

(** ** Capacity limiting *)

Lemma sort_keys_missing (field : string) (xs : list item) (x : item) :
  x ∈ xs -> x !! field = None ->
  forall i, sort_keys field i xs = Raise KeyError.
Proof.
  induction xs as [|y ys IH]; intros Hin Hx i.
  - apply elem_of_nil in Hin. contradiction.
  - cbn [sort_keys]. unfold getitem.
    destruct (y !! field) as [k|] eqn:Ey; [|reflexivity].
    rewrite bind_Ok. apply elem_of_cons in Hin as [->|Hin]; [congruence|].
    rewrite (IH Hin Hx). reflexivity.
Qed.

Lemma sorted_by_desc_missing (field : string) (xs : list item) (x : item) :
  x ∈ xs -> x !! field = None -> sorted_by_desc field xs = Raise KeyError.
Proof.
  intros Hin Hx. unfold sorted_by_desc.
  rewrite (sort_keys_missing field xs x Hin Hx). reflexivity.
Qed.

(** X11.  [limited_cameras_in_use] sorts only when there are more cameras
    than the capacity: with at most that many cameras it returns them
    unchanged, even when a camera has no [value]; with more, a camera
    without a [value] makes it raise [KeyError]. *)
Theorem X11_cameras_within_capacity_untouched (cameras drones : list item)
    (max_drones_in_air : Z) :
  (Z.of_nat (length cameras) <= max_drones_in_air ->
   limited_cameras_in_use cameras max_drones_in_air drones = Ok cameras) /\
  (max_drones_in_air < Z.of_nat (length cameras) ->
   forall camera, camera ∈ cameras -> camera !! "value" = None ->
   limited_cameras_in_use cameras max_drones_in_air drones = Raise KeyError).
Proof.
  unfold limited_cameras_in_use. split.
  - intros Hle. replace (_ <? _) with false; [reflexivity|].
    symmetry. apply Z.ltb_ge. exact Hle.
  - intros Hlt camera Hin Hmissing.
    replace (_ <? _) with true by (symmetry; apply Z.ltb_lt; exact Hlt).
    rewrite (sorted_by_desc_missing "value" cameras camera Hin Hmissing).
    reflexivity.
Qed.

(** The theorem at two records without a value: untouched with a capacity
    of 2, a [KeyError] with a capacity of 1. *)
Lemma witness_X11_cameras_without_value :
  limited_cameras_in_use [premium_record 360; premium_record 180] 2 []
    = Ok [premium_record 360; premium_record 180] /\
  limited_cameras_in_use [premium_record 360; premium_record 180] 1 []
    = Raise KeyError.
Proof.
  split.
  - apply (X11_cameras_within_capacity_untouched
             [premium_record 360; premium_record 180] [] 2). discriminate.
  - apply (X11_cameras_within_capacity_untouched
             [premium_record 360; premium_record 180] [] 1)
      with (camera := premium_record 360);
      [reflexivity | apply elem_of_cons; left; reflexivity | reflexivity].
Defined.

(** What the loop over a ranking does to a store. *)
Lemma overwrite_beyond_ranked (field : string) (v : pyval) (k : Z)
    (xs : list item) (ranking : list nat) (key : nat -> Q) :
  ranks_desc_stable key (length xs) ranking ->
  let out := overwrite_beyond field v k 0 ranking xs in
  length out = length xs /\
  (forall p i d, ranking !! p = Some i -> xs !! i = Some d ->
     out !! i = Some (if Z.of_nat p <? k then d else <[field := v]> d)).
Proof.
  intros Hranks out.
  assert (Hnodup : NoDup ranking).
  { rewrite (proj1 Hranks). apply NoDup_seq. }
  destruct (overwrite_beyond_lookup field v k ranking Hnodup 0%nat xs)
    as (Hlen & Hin & _).
  split; [exact Hlen|].
  intros p i d Hp Hd. unfold out. rewrite (Hin p i Hp), Hd. simpl.
  destruct (Z.of_nat p <? k); reflexivity.
Qed.

(** X12.  With more cameras than the capacity k and a real [value] on
    every camera, the cameras are ranked by descending value, ties in
    their original order; every camera ranked beyond k gets a
    [hull_premium] of 50, every camera ranked within k keeps its record,
    and no other field of any camera changes. *)
Theorem X12_cameras_beyond_capacity_get_flat_rate (cameras drones : list item)
    (k : Z) :
  forallb (field_real "value") cameras = true ->
  k < Z.of_nat (length cameras) ->
  exists ranking out,
    sorted_by_desc "value" cameras = Ok ranking /\
    ranks_desc_stable (key_at "value" cameras) (length cameras) ranking /\
    limited_cameras_in_use cameras k drones = Ok out /\
    length out = length cameras /\
    (forall p i c, ranking !! p = Some i -> cameras !! i = Some c ->
       out !! i = Some (if Z.of_nat p <? k then c
                        else <["hull_premium" := PInt 50]> c)) /\
    delete "hull_premium" <$> out = delete "hull_premium" <$> cameras.
Proof.
  intros Hreal Hlt.
  destruct (sorted_by_desc_ranks "value" cameras Hreal)
    as (ranking & Hsorted & Hranks).
  exists ranking, (overwrite_beyond "hull_premium" (PInt 50) k 0 ranking cameras).
  split; [exact Hsorted|]. split; [exact Hranks|].
  unfold limited_cameras_in_use.
  replace (_ <? _) with true by (symmetry; apply Z.ltb_lt; exact Hlt).
  rewrite Hsorted, bind_Ok. split; [reflexivity|].
  destruct (overwrite_beyond_ranked "hull_premium" (PInt 50) k cameras ranking
              _ Hranks) as [Hlen Hrank].
  split; [exact Hlen|]. split; [exact Hrank|].
  apply overwrite_beyond_frame.
Qed.

(** The theorem at the reference cameras with a capacity of 2. *)
Lemma witness_X12_reference_cameras :
  exists ranking out,
    sorted_by_desc "value" reference_cameras = Ok ranking /\
    ranks_desc_stable (key_at "value" reference_cameras)
      (length reference_cameras) ranking /\
    limited_cameras_in_use reference_cameras 2 reference_drones = Ok out /\
    length out = length reference_cameras /\
    (forall p i c, ranking !! p = Some i -> reference_cameras !! i = Some c ->
       out !! i = Some (if Z.of_nat p <? 2 then c
                        else <["hull_premium" := PInt 50]> c)) /\
    delete "hull_premium" <$> out = delete "hull_premium" <$> reference_cameras.
Proof.
  apply (X12_cameras_beyond_capacity_get_flat_rate reference_cameras
           reference_drones 2); reflexivity.
Defined.

(** The reference test: with a capacity of 2 the third and fourth cameras,
    of the lowest values, get the flat rate. *)
Example reference_limited_cameras :
  limited_cameras_in_use reference_cameras 2 reference_drones
    = Ok [ camera_record 5000 360; camera_record 2500 180;
           camera_record 1500 50; camera_record 2000 50 ].
Proof. vm_compute. reflexivity. Qed.

Lemma ranking_covers (key : nat -> Q) (n : nat) (ranking : list nat) (i : nat) :
  ranks_desc_stable key n ranking -> (i < n)%nat ->
  exists p, ranking !! p = Some i.
Proof.
  intros [Hperm _] Hi. apply list_elem_of_lookup_1. rewrite Hperm.
  apply elem_of_seq. lia.
Qed.

(** X13.  The two ends of the capacity on a priced fleet: with a capacity
    of at least the number of drones [limited_drones_in_use] returns the
    fleet unchanged, and with a capacity of 0 or less every drone gets a
    [hull_premium] of 150. *)
Theorem X13_capacity_all_or_none (ds : list item) (k : Z) :
  priced ds = true ->
  (Z.of_nat (length ds) <= k -> limited_drones_in_use ds k = Ok ds) /\
  (k <= 0 ->
   limited_drones_in_use ds k = Ok (insert "hull_premium" (PInt 150) <$> ds)).
Proof.
  intros Hpriced.
  destruct (limited_drones_in_use_priced ds k Hpriced)
    as (ranking & out & _ & Hranks & Hout & Hlen & Hrank).
  rewrite Hout. split; intros Hk; f_equal; apply list_eq; intros i.
  - destruct (ds !! i) as [d|] eqn:Hd.
    + destruct (ranking_covers _ _ ranking i Hranks (lookup_lt_Some _ _ _ Hd))
        as [p Hp].
      rewrite (Hrank p i d Hp Hd).
      assert (Hpn : (p < length ds)%nat).
      { pose proof (lookup_lt_Some _ _ _ Hp) as Hp'.
        rewrite (Permutation_length (proj1 Hranks)), length_seq in Hp'.
        exact Hp'. }
      replace (Z.of_nat p <? k) with true; [reflexivity|].
      symmetry. apply Z.ltb_lt. lia.
    + apply lookup_ge_None. rewrite Hlen. apply lookup_ge_None, Hd.
  - rewrite list_lookup_fmap. destruct (ds !! i) as [d|] eqn:Hd.
    + destruct (ranking_covers _ _ ranking i Hranks (lookup_lt_Some _ _ _ Hd))
        as [p Hp].
      rewrite (Hrank p i d Hp Hd).
      replace (Z.of_nat p <? k) with false; [reflexivity|].
      symmetry. apply Z.ltb_ge. lia.
    + apply lookup_ge_None. rewrite Hlen. apply lookup_ge_None, Hd.
Qed.

(** The theorem at the reference drones, with capacities of 3 and of 0. *)
Lemma witness_X13_reference_drones :
  limited_drones_in_use reference_drones 3 = Ok reference_drones /\
  limited_drones_in_use reference_drones 0
    = Ok (insert "hull_premium" (PInt 150) <$> reference_drones).
Proof.
  split.
  - apply (X13_capacity_all_or_none reference_drones 3 eq_refl). discriminate.
  - apply (X13_capacity_all_or_none reference_drones 0 eq_refl). discriminate.
Defined.

(** X14.  [limited_drones_in_use] sorts whatever the capacity is: a drone
    without a [hull_premium] makes it raise [KeyError], before any premium
    is overwritten, even when the capacity covers the whole fleet. *)
Theorem X14_unpriced_drone_raises_key_error (ds : list item) (k : Z)
    (d : item) :
  d ∈ ds -> d !! "hull_premium" = None ->
  limited_drones_in_use ds k = Raise KeyError.
Proof.
  intros Hin Hmissing. unfold limited_drones_in_use.
  rewrite (sorted_by_desc_missing "hull_premium" ds d Hin Hmissing).
  reflexivity.
Qed.

(** The theorem at a fleet of one priced and one unpriced drone, with a
    capacity of 5. *)
Lemma witness_X14_unpriced_drone :
  limited_drones_in_use [premium_record 600; regular_drone] 5 = Raise KeyError.
Proof.
  apply (X14_unpriced_drone_raises_key_error
           [premium_record 600; regular_drone] 5 regular_drone);
    [apply elem_of_cons; right; apply elem_of_cons; left; reflexivity
    | reflexivity].
Defined.

(** ** The rating pass *)

Lemma for_each_column (k : string) (body : stE item unit) (xs : list item) :
  frames k body -> column k (for_each body xs).1 = column k xs.
Proof.
  intros Hbody. unfold column. induction xs as [|x xs IH]; [reflexivity|].
  cbn [for_each]. specialize (Hbody x).
  destruct (body x) as [x' [[]|e]]; simpl in Hbody.
  - destruct (for_each body xs) as [rest r]. cbn [fst] in *.
    rewrite !fmap_cons. f_equal; [exact Hbody | exact IH].
  - cbn [fst]. rewrite !fmap_cons. f_equal. exact Hbody.
Qed.

Lemma rate_drone_frames (lib : mathlib) (P : params) (k : string) :
  k ∉ drone_computed_fields -> frames k (rate_drone lib P).
Proof.
  unfold drone_computed_fields. rewrite !not_elem_of_cons.
  intros (H1 & H2 & H3 & H4 & H5 & H6 & H7 & H8 & _).
  unfold rate_drone.
  repeat first
    [ apply frames_get
    | apply frames_lift
    | apply frames_set; congruence
    | apply frames_bind; [ | intros ? ] ].
Qed.

Lemma rate_camera_frames (highest : pyval) (k : string) :
  k ∉ camera_computed_fields -> frames k (rate_camera highest).
Proof.
  unfold camera_computed_fields. rewrite !not_elem_of_cons.
  intros (H1 & H2 & _). unfold rate_camera.
  repeat first
    [ apply frames_get
    | apply frames_lift
    | apply frames_set; congruence
    | apply frames_bind; [ | intros ? ] ].
Qed.

(** The cameras of the document after the pass are the input cameras, or
    the input cameras after the camera loop. *)
Lemma compute_model_cameras (lib : mathlib) (P : params) (md : model_data) :
  detachable_cameras (compute_model lib P md).1 = detachable_cameras md \/
  exists highest,
    detachable_cameras (compute_model lib P md).1
      = (for_each (rate_camera highest) (detachable_cameras md)).1.
Proof.
  unfold compute_model.
  destruct (for_each (rate_drone lib P) (drones md)) as [ds [[]|e]];
    [|left; reflexivity].
  destruct (rate P ds true) as [highest|e]; [|left; reflexivity].
  right. exists highest.
  destruct (for_each _ (detachable_cameras md)) as [cs [[]|e]];
    [|reflexivity].
  destruct (net_totals ds cs _) as [np [[]|e]]; [|reflexivity].
  destruct (brokerage md); [|reflexivity].
  destruct (gross_totals ds cs _ _) as [gp r]. reflexivity.
Qed.

Lemma compute_model_scalars (lib : mathlib) (P : params) (md : model_data) :
  brokerage (compute_model lib P md).1 = brokerage md /\
  (is_Some (net_prem (compute_model lib P md).1) <-> is_Some (net_prem md)) /\
  (is_Some (gross_prem (compute_model lib P md).1) <-> is_Some (gross_prem md)).
Proof.
  assert (Hattach : forall o n, is_Some (attach o n) <-> is_Some o).
  { intros [x|] n; simpl; [split; eauto | reflexivity]. }
  unfold compute_model.
  destruct (for_each (rate_drone lib P) (drones md)) as [ds [[]|e]];
    [|simpl; tauto].
  destruct (rate P ds true) as [highest|e]; [|simpl; tauto].
  destruct (for_each _ (detachable_cameras md)) as [cs [[]|e]];
    [|simpl; tauto].
  destruct (net_totals ds cs _) as [np [[]|e]];
    [|simpl; split; [reflexivity|]; split; [apply Hattach | reflexivity]].
  destruct (brokerage md) as [b|];
    [|simpl; split; [reflexivity|]; split; [apply Hattach | reflexivity]].
  destruct (gross_totals ds cs _ _) as [gp r]. simpl.
  split; [reflexivity|]. split; apply Hattach.
Qed.

(** X15.  Whatever its outcome, the rating pass keeps the drones and the
    cameras of the document in number and order and changes none of their
    input fields: on a drone only the eight computed fields can differ, on
    a camera only [hull_rate] and [hull_premium]; and it leaves the
    brokerage as it is. *)
Theorem X15_rating_keeps_input_fields (lib : mathlib) (P : params)
    (md : model_data) (k : string) :
  (k ∉ drone_computed_fields ->
   column k (drones (compute_model lib P md).1) = column k (drones md)) /\
  (k ∉ camera_computed_fields ->
   column k (detachable_cameras (compute_model lib P md).1)
     = column k (detachable_cameras md)) /\
  brokerage (compute_model lib P md).1 = brokerage md.
Proof.
  split; [|split].
  - intros Hk. rewrite (proj1 (compute_model_drones lib P md)).
    apply for_each_column, rate_drone_frames, Hk.
  - intros Hk. destruct (compute_model_cameras lib P md) as [->|[h ->]];
      [reflexivity|].
    apply for_each_column, rate_camera_frames, Hk.
  - apply compute_model_scalars.
Qed.

(** X16.  The summaries are written back only into a document that holds
    them: the pass never adds a [net_prem] or a [gross_prem] entry to a
    document without one, whose totals are then lost, and never removes
    one. *)
Theorem X16_summaries_never_attached (lib : mathlib) (P : params)
    (md : model_data) :
  (is_Some (net_prem (compute_model lib P md).1) <-> is_Some (net_prem md)) /\
  (is_Some (gross_prem (compute_model lib P md).1) <-> is_Some (gross_prem md)).
Proof. apply compute_model_scalars. Qed.

(** X17.  A document without a [brokerage] entry is never rated to the
    end: the pass always finishes by raising an exception. *)
Theorem X17_missing_brokerage_always_raises (lib : mathlib) (P : params)
    (md : model_data) :
  brokerage md = None ->
  exists e, (compute_model lib P md).2 = Raise e.
Proof.
  intros Hb. unfold compute_model.
  destruct (for_each (rate_drone lib P) (drones md)) as [ds [[]|e]];
    [|eexists; reflexivity].
  destruct (rate P ds true) as [highest|e]; [|eexists; reflexivity].
  destruct (for_each _ (detachable_cameras md)) as [cs [[]|e]];
    [|eexists; reflexivity].
  destruct (net_totals ds cs _) as [np [[]|e]]; [|eexists; reflexivity].
  rewrite Hb. eexists. reflexivity.
Qed.

(** The theorem at a regular drone in a document without a brokerage. *)
Lemma witness_X17_fleet_without_brokerage :
  exists e, (compute_model dyadic_lib fixture_params fleet_without_brokerage).2
            = Raise e.
Proof.
  apply (X17_missing_brokerage_always_raises dyadic_lib fixture_params
           fleet_without_brokerage). reflexivity.
Defined.

(** The exception of that document is the [KeyError] of the lookup. *)
Example fleet_without_brokerage_key_error :
  (compute_model dyadic_lib fixture_params fleet_without_brokerage).2
    = Raise KeyError.
Proof. vm_compute. reflexivity. Qed.

(** X18.  A document without drones cannot be rated, whatever else it
    holds: the camera rate has no drone to take a maximum over, and the
    pass raises [ValueError] leaving the document as it was. *)
Theorem X18_no_drones_is_value_error (lib : mathlib) (P : params)
    (md : model_data) :
  drones md = [] ->
  compute_model lib P md = (md, Raise ValueError).
Proof.
  destruct md as [ds cs b np gp]. simpl. intros ->. reflexivity.
Qed.

(** The theorem at a document with one camera and no drone. *)
Lemma witness_X18_droneless_fleet :
  compute_model dyadic_lib fixture_params droneless_fleet
    = (droneless_fleet, Raise ValueError).
Proof.
  apply (X18_no_drones_is_value_error dyadic_lib fixture_params droneless_fleet).
  reflexivity.
Defined.

(** ** The camera loop *)

Lemma rate_camera_real (highest value : pyval) (camera : item) (qh qv : Q) :
  camera !! "value" = Some value -> as_real value = Some qv -> ~ (qv == 0)%Q ->
  as_real highest = Some qh ->
  exists r qr p,
    rate_camera highest camera
      = (<["hull_premium" := PFloat p]> (<["hull_rate" := r]> camera), Ok tt) /\
    as_real r = Some qr /\ (qr == round_half_even qh 1)%Q /\
    (p == qv * qh / 100)%Q.
Proof.
  intros Hv Hqv Hnz Hh.
  destruct (py_round_real highest qh 1 Hh) as (r & qr & Hr & Hqr & Hval).
  destruct (calculate_premium_real highest value qh qv Hqv Hnz Hh)
    as (p & Hp & Hpval).
  exists r, qr, p. split; [|split; [exact Hqr | split; assumption]].
  unfold rate_camera. rewrite Hr, st_bind_lift_Ok, st_bind_set.
  rewrite (st_bind_get "value" _ _ value)
    by (rewrite lookup_insert_ne by discriminate; exact Hv).
  rewrite Hp, st_bind_lift_Ok. reflexivity.
Qed.



(** X20.  The camera loop has no guard of its own: a camera without a
    [value] stops the pass with a [KeyError] and a camera of value 0 with a
    [TypeError], in both cases after its [hull_rate] has been written and
    before any [hull_premium] is. *)
Theorem X20_camera_without_value_stops_rating (highest : pyval)
    (camera : item) (qh : Q) :
  as_real highest = Some qh ->
  exists r,
    py_round highest 1 = Ok r /\
    (camera !! "value" = None ->
     rate_camera highest camera
       = (<["hull_rate" := r]> camera, Raise KeyError)) /\
    (forall v, camera !! "value" = Some v -> py_ne_zero v = false ->
     rate_camera highest camera
       = (<["hull_rate" := r]> camera, Raise TypeError)).
Proof.
  intros Hh.
  destruct (py_round_real highest qh 1 Hh) as (r & qr & Hr & _).
  exists r. split; [exact Hr|]. split.
  - intros Hv. unfold rate_camera. rewrite Hr, st_bind_lift_Ok, st_bind_set.
    unfold mbind, stE_mbind, st_bind, rec_get, getitem.
    rewrite lookup_insert_ne by discriminate. rewrite Hv. reflexivity.
  - intros v Hv Hz. unfold rate_camera.
    rewrite Hr, st_bind_lift_Ok, st_bind_set.
    rewrite (st_bind_get "value" _ _ v)
      by (rewrite lookup_insert_ne by discriminate; exact Hv).
    rewrite (calculate_premium_zero v Hz highest), st_bind_lift_Raise.
    reflexivity.
Qed.

(** The theorem at a rate of 72 percent, on a record without a value and
    on a camera of value 0. *)
Lemma witness_X20_camera_of_value_zero :
  exists r,
    py_round (PFloat 72) 1 = Ok r /\
    rate_camera (PFloat 72) (premium_record 0)
      = (<["hull_rate" := r]> (premium_record 0), Raise KeyError) /\
    rate_camera (PFloat 72) (camera_record 0 0)
      = (<["hull_rate" := r]> (camera_record 0 0), Raise TypeError).
Proof.
  destruct (X20_camera_without_value_stops_rating (PFloat 72)
              (premium_record 0) 72 eq_refl) as (r & Hr & Hmissing & _).
  destruct (X20_camera_without_value_stops_rating (PFloat 72)
              (camera_record 0 0) 72 eq_refl) as (r' & Hr' & _ & Hzero).
  exists r. split; [exact Hr|]. split; [apply Hmissing; reflexivity|].
  assert (E : r = r') by congruence. rewrite E.
  apply (Hzero (PInt 0)); reflexivity.
Defined.

(** ** The summaries *)

Lemma is_int_or_float_real (v : pyval) : is_int_or_float v = is_real v.
Proof. destruct v; reflexivity. Qed.

Lemma List_filter_Permutation {A} (f : A -> bool) (l l' : list A) :
  Permutation l l' -> Permutation (List.filter f l) (List.filter f l').
Proof.
  induction 1 as [|x l l' _ IH|x y l|l l' l'' _ IH1 _ IH2]; cbn [List.filter].
  - constructor.
  - destruct (f x); [constructor|]; exact IH.
  - destruct (f x), (f y); try reflexivity. constructor.
  - etransitivity; eassumption.
Qed.

(** A new numeric entry adds its value to the numeric values of the dict. *)
Lemma numeric_values_insert_fresh (k : string) (v : pyval) (m : item) :
  m !! k = None -> is_real v = true ->
  Permutation (numeric_values (<[k := v]> m)) (v :: numeric_values m).
Proof.
  intros Hk Hv. unfold numeric_values. etransitivity.
  - apply List_filter_Permutation, fmap_Permutation.
    apply map_to_list_insert, Hk.
  - cbn [fmap list_fmap snd List.filter].
    rewrite is_int_or_float_real, Hv. reflexivity.
Qed.

(** An assigned numeric entry replaces what the dict held under its key. *)
Lemma numeric_values_insert (k : string) (v : pyval) (m : item) :
  is_real v = true ->
  Permutation (numeric_values (<[k := v]> m))
    (v :: numeric_values (delete k m)).
Proof.
  intros Hv. rewrite <- (insert_delete_eq m k v).
  apply numeric_values_insert_fresh; [apply lookup_delete_eq | exact Hv].
Qed.

(** The numeric values of a summary dict after the three subtotals are
    assigned. *)
Lemma numeric_values_subtotals (a b c : pyval) (np : item) :
  is_real a = true -> is_real b = true -> is_real c = true ->
  Permutation
    (numeric_values
       (<["cameras_hull" := c]> (<["drones_tpl" := b]> (<["drones_hull" := a]> np))))
    (c :: b :: a :: numeric_values (other_entries np)).
Proof.
  intros Ha Hb Hc. unfold other_entries.
  etransitivity; [apply numeric_values_insert, Hc|].
  rewrite !(delete_insert_ne _ "cameras_hull") by discriminate.
  apply perm_skip.
  etransitivity; [apply numeric_values_insert, Hb|].
  rewrite !(delete_insert_ne _ "drones_tpl") by discriminate.
  apply perm_skip.
  apply numeric_values_insert, Ha.
Qed.

Lemma numeric_values_real (d : item) :
  forallb is_real (numeric_values d) = true.
Proof.
  unfold numeric_values. apply forallb_forall. intros v Hv.
  apply filter_In in Hv as [_ Hv]. rewrite <- is_int_or_float_real. exact Hv.
Qed.

(** [calculate_premium_total] of the numeric values of a dict returns. *)
Lemma premium_total_numeric (d : item) :
  exists total,
    calculate_premium_total (numeric_values d) = Ok total /\
    is_real total = true.
Proof.
  unfold calculate_premium_total, py_sum.
  destruct (py_sum_from (numeric_values d) (PInt 0) 0%Q
              (numeric_values_real d) eq_refl) as (c & r & Hc & Hcr & _).
  exists c. split; [exact Hc|]. unfold is_real. rewrite Hcr. reflexivity.
Qed.

Lemma is_real_of (v : pyval) (q : Q) :
  as_real v = Some q -> is_real v = true /\ real_of v = q.
Proof. unfold is_real, real_of. intros ->. split; reflexivity. Qed.

Lemma st_bind_read {A B} (g : item -> A) (f : A -> stE item B) (d : item) :
  ((fun d => (d, Ok (g d))) ≫= f) d = f (g d) d.
Proof. reflexivity. Qed.

(** The net summary over records whose premiums are real numbers or
    missing. *)
Lemma net_totals_returns (ds cs : list item) (np : item) :
  forallb (field_real_or_missing "hull_premium") ds = true ->
  forallb (field_real_or_missing "tpl_layer_premium") ds = true ->
  forallb (field_real_or_missing "hull_premium") cs = true ->
  exists dh dt ch vs total,
    calculate_total_net ds "hull_premium" = Ok dh /\
    calculate_total_net ds "tpl_layer_premium" = Ok dt /\
    calculate_total_net cs "hull_premium" = Ok ch /\
    Permutation vs (ch :: dt :: dh :: numeric_values (other_entries np)) /\
    calculate_premium_total vs = Ok total /\
    net_totals ds cs np
      = (<["total" := total]>
           (<["cameras_hull" := ch]>
              (<["drones_tpl" := dt]> (<["drones_hull" := dh]> np))), Ok tt).
Proof.
  intros Hdh Hdt Hch.
  destruct (calculate_total_net_real ds "hull_premium" Hdh)
    as (dh & qdh & Edh & Hqdh & _).
  destruct (calculate_total_net_real ds "tpl_layer_premium" Hdt)
    as (dt & qdt & Edt & Hqdt & _).
  destruct (calculate_total_net_real cs "hull_premium" Hch)
    as (ch & qch & Ech & Hqch & _).
  destruct (is_real_of dh qdh Hqdh) as [Rdh _].
  destruct (is_real_of dt qdt Hqdt) as [Rdt _].
  destruct (is_real_of ch qch Hqch) as [Rch _].
  set (d3 := <["cameras_hull" := ch]>
               (<["drones_tpl" := dt]> (<["drones_hull" := dh]> np))).
  destruct (premium_total_numeric d3) as (total & Et & _).
  exists dh, dt, ch, (numeric_values d3), total.
  split; [exact Edh|]. split; [exact Edt|]. split; [exact Ech|].
  split; [exact (numeric_values_subtotals dh dt ch np Rdh Rdt Rch)|].
  split; [exact Et|].
  unfold net_totals.
  rewrite Edh, st_bind_lift_Ok, st_bind_set.
  rewrite Edt, st_bind_lift_Ok, st_bind_set.
  rewrite Ech, st_bind_lift_Ok, st_bind_set.
  fold d3. rewrite st_bind_read, Et, st_bind_lift_Ok. reflexivity.
Qed.

(** X21.  Over records whose premiums are real numbers or missing, the net
    summary gets the three subtotals and a total that is the sum of every
    int or float the summary dict then holds: the three subtotals and every
    other numeric entry the dict held before, a [total] of an earlier pass
    included. *)
Theorem X21_net_total_counts_stale_entries (ds cs : list item) (np : item) :
  forallb (field_real_or_missing "hull_premium") ds = true ->
  forallb (field_real_or_missing "tpl_layer_premium") ds = true ->
  forallb (field_real_or_missing "hull_premium") cs = true ->
  exists dh dt ch vs total,
    calculate_total_net ds "hull_premium" = Ok dh /\
    calculate_total_net ds "tpl_layer_premium" = Ok dt /\
    calculate_total_net cs "hull_premium" = Ok ch /\
    Permutation vs (ch :: dt :: dh :: numeric_values (other_entries np)) /\
    calculate_premium_total vs = Ok total /\
    net_totals ds cs np
      = (<["total" := total]>
           (<["cameras_hull" := ch]>
              (<["drones_tpl" := dt]> (<["drones_hull" := dh]> np))), Ok tt).
Proof. exact (net_totals_returns ds cs np). Qed.

(** The theorem at the reference drones and cameras, with the summary of an
    earlier pass, whose total of 600 is among the values summed. *)
Lemma witness_X21_rated_summary :
  numeric_values (other_entries rated_summary) = [PInt 600] /\
  exists dh dt ch vs total,
    calculate_total_net reference_drones "hull_premium" = Ok dh /\
    calculate_total_net reference_drones "tpl_layer_premium" = Ok dt /\
    calculate_total_net reference_cameras "hull_premium" = Ok ch /\
    Permutation vs
      (ch :: dt :: dh :: numeric_values (other_entries rated_summary)) /\
    calculate_premium_total vs = Ok total /\
    net_totals reference_drones reference_cameras rated_summary
      = (<["total" := total]>
           (<["cameras_hull" := ch]>
              (<["drones_tpl" := dt]>
                 (<["drones_hull" := dh]> rated_summary))), Ok tt).
Proof.
  split; [vm_compute; reflexivity|].
  apply (X21_net_total_counts_stale_entries reference_drones reference_cameras
           rated_summary); reflexivity.
Defined.

(** On the reference data the subtotals add up to 3624; with the summary of
    an earlier pass the total is 4224. *)
Example reference_net_total_twice :
  (net_totals reference_drones reference_cameras ∅).1 !! "total"
    = Some (PInt 3624) /\
  (net_totals reference_drones reference_cameras rated_summary).1 !! "total"
    = Some (PInt 4224).
Proof. split; vm_compute; reflexivity. Qed.

(** The gross summary over such records, for a real brokerage. *)
Lemma gross_totals_returns (ds cs : list item)
    (b : pyval) (qb : Q) (gp : item) :
  forallb (field_real_or_missing "hull_premium") ds = true ->
  forallb (field_real_or_missing "tpl_layer_premium") ds = true ->
  forallb (field_real_or_missing "hull_premium") cs = true ->
  as_real b = Some qb ->
  ((qb == 1)%Q -> gross_totals ds cs b gp = (gp, Raise ZeroDivisionError)) /\
  (~ (qb == 1)%Q ->
   exists dh dt ch vs total,
     calculate_total_gross ds b "hull_premium" = Ok dh /\
     calculate_total_gross ds b "tpl_layer_premium" = Ok dt /\
     calculate_total_gross cs b "hull_premium" = Ok ch /\
     Permutation vs (ch :: dt :: dh :: numeric_values (other_entries gp)) /\
     calculate_premium_total vs = Ok total /\
     gross_totals ds cs b gp
       = (<["total" := total]>
            (<["cameras_hull" := ch]>
               (<["drones_tpl" := dt]> (<["drones_hull" := dh]> gp))), Ok tt)).
Proof.
  intros Hdh Hdt Hch Hb.
  pose proof (calculate_total_gross_real ds b "hull_premium" qb Hdh Hb) as Edh.
  pose proof (calculate_total_gross_real ds b "tpl_layer_premium" qb Hdt Hb)
    as Edt.
  pose proof (calculate_total_gross_real cs b "hull_premium" qb Hch Hb) as Ech.
  split.
  - intros H1. apply Qeq_bool_iff in H1. rewrite H1 in Edh.
    unfold gross_totals. rewrite Edh, st_bind_lift_Raise. reflexivity.
  - intros Hne.
    assert (H1 : Qeq_bool qb 1 = false).
    { destruct (Qeq_bool qb 1) eqn:E; [|reflexivity].
      apply Qeq_bool_iff in E. contradiction. }
    rewrite H1 in Edh, Edt, Ech.
    set (d3 := <["cameras_hull" := PFloat (spec_total_gross cs qb "hull_premium")]>
                 (<["drones_tpl" :=
                      PFloat (spec_total_gross ds qb "tpl_layer_premium")]>
                    (<["drones_hull" :=
                         PFloat (spec_total_gross ds qb "hull_premium")]> gp))).
    destruct (premium_total_numeric d3) as (total & Et & _).
    eexists _, _, _, (numeric_values d3), total.
    split; [exact Edh|]. split; [exact Edt|]. split; [exact Ech|].
    split; [apply numeric_values_subtotals; reflexivity|].
    split; [exact Et|].
    unfold gross_totals.
    rewrite Edh, st_bind_lift_Ok, st_bind_set.
    rewrite Edt, st_bind_lift_Ok, st_bind_set.
    rewrite Ech, st_bind_lift_Ok, st_bind_set.
    fold d3. rewrite st_bind_read, Et, st_bind_lift_Ok. reflexivity.
Qed.

(** X22.  The gross summary for a real brokerage: with a brokerage of 1
    nothing is written and the division raises; with any other, the three
    gross subtotals are written, each the result of [calculate_total_gross]
    on its own records, and the total is the sum of every int or float the
    dict then holds: the three subtotals and every other numeric entry the
    dict held before. *)
Theorem X22_gross_total_sums_rounded_subtotals (ds cs : list item)
    (b : pyval) (qb : Q) (gp : item) :
  forallb (field_real_or_missing "hull_premium") ds = true ->
  forallb (field_real_or_missing "tpl_layer_premium") ds = true ->
  forallb (field_real_or_missing "hull_premium") cs = true ->
  as_real b = Some qb ->
  ((qb == 1)%Q -> gross_totals ds cs b gp = (gp, Raise ZeroDivisionError)) /\
  (~ (qb == 1)%Q ->
   exists dh dt ch vs total,
     calculate_total_gross ds b "hull_premium" = Ok dh /\
     calculate_total_gross ds b "tpl_layer_premium" = Ok dt /\
     calculate_total_gross cs b "hull_premium" = Ok ch /\
     Permutation vs (ch :: dt :: dh :: numeric_values (other_entries gp)) /\
     calculate_premium_total vs = Ok total /\
     gross_totals ds cs b gp
       = (<["total" := total]>
            (<["cameras_hull" := ch]>
               (<["drones_tpl" := dt]> (<["drones_hull" := dh]> gp))), Ok tt)).
Proof. exact (gross_totals_returns ds cs b qb gp). Qed.

(** The theorem at the reference drones and cameras, with a brokerage of 1
    and with a brokerage of 0.3. *)
Lemma witness_X22_reference_fleet :
  gross_totals reference_drones reference_cameras (PInt 1) ∅
    = (∅, Raise ZeroDivisionError) /\
  exists dh dt ch vs total,
    calculate_total_gross reference_drones (PFloat (3 # 10)) "hull_premium"
      = Ok dh /\
    calculate_total_gross reference_drones (PFloat (3 # 10)) "tpl_layer_premium"
      = Ok dt /\
    calculate_total_gross reference_cameras (PFloat (3 # 10)) "hull_premium"
      = Ok ch /\
    Permutation vs (ch :: dt :: dh :: numeric_values (other_entries ∅)) /\
    calculate_premium_total vs = Ok total /\
    gross_totals reference_drones reference_cameras (PFloat (3 # 10)) ∅
      = (<["total" := total]>
           (<["cameras_hull" := ch]>
              (<["drones_tpl" := dt]> (<["drones_hull" := dh]> ∅))), Ok tt).
Proof.
  split.
  - apply (X22_gross_total_sums_rounded_subtotals reference_drones
             reference_cameras (PInt 1) 1 ∅); reflexivity.
  - apply (X22_gross_total_sums_rounded_subtotals reference_drones
             reference_cameras (PFloat (3 # 10)) (3 # 10) ∅);
      try reflexivity. discriminate.
Defined.

(** ** The drone loop *)

Lemma hull_base_rate_percent (P : params) (v h : pyval) (qh : Q) :
  py_ne_zero v = true ->
  gross_base_rates P !! "hull" = Some h -> as_real h = Some qh ->
  exists r q, hull_base_rate P v true = Ok r /\ as_real r = Some q /\
              (q == qh * 100)%Q.
Proof.
  intros Hv Hh Hqh. unfold hull_base_rate. rewrite guard_nonzero by assumption.
  unfold getitem. rewrite Hh, bind_Ok. apply py_mul_100_real, Hqh.
Qed.

Lemma hull_final_rate_percent (P : params) (v w h m : pyval) (qh qm : Q) :
  py_ne_zero v = true ->
  gross_base_rates P !! "hull" = Some h -> as_real h = Some qh ->
  getitem_val (max_takeoff_weight_adj P) w = Ok m -> as_real m = Some qm ->
  exists r q, hull_final_rate P v w true = Ok r /\ as_real r = Some q /\
              (q == qh * qm * 100)%Q.
Proof.
  intros Hv Hh Hqh Hm Hqm.
  destruct (hull_final_rate_nonzero P v w h m Hv Hh Hm) as (Hb & Hw & _ & Hf).
  unfold hull_final_rate in *. rewrite guard_nonzero in * by assumption.
  rewrite Hb, Hw, !bind_Ok.
  destruct (py_mul_real h m qh qm Hqh Hqm) as (r & q & Hr & Hq & Hval).
  rewrite Hr, bind_Ok.
  destruct (py_mul_100_real r q Hq) as (r' & q' & Hr' & Hq' & Hval').
  exists r', q'. split; [exact Hr'|]. split; [exact Hq'|].
  rewrite Hval', Hval. reflexivity.
Qed.

Lemma real_ne_zero (v : pyval) (qv : Q) :
  as_real v = Some qv -> ~ (qv == 0)%Q -> py_ne_zero v = true.
Proof.
  intros Hv Hnz. rewrite (py_ne_zero_real v qv Hv). apply negb_true_iff.
  apply not_true_iff_false. intros H. apply Qeq_bool_iff in H. contradiction.
Qed.

Ltac read_field k v H :=
  rewrite (st_bind_get k _ _ v)
    by (rewrite ?lookup_insert_ne by discriminate; exact H).

(** The first half of the loop body, through the operations it calls: the
    four hull fields are written, the premium being computed from the rate
    that was stored, and the body goes on with the liability fields. *)
Lemma rate_drone_hull_ops (lib : mathlib) (P : params) (d : item)
    (v w hb m f r p : pyval) :
  d !! "value" = Some v -> d !! "weight" = Some w ->
  hull_base_rate P v true = Ok hb ->
  hull_weight_adj P v w = Ok m ->
  hull_final_rate P v w true = Ok f ->
  py_round f 1 = Ok r ->
  calculate_premium r v = Ok p ->
  rate_drone lib P d =
    rate_drone_liability lib P
      (<["hull_premium" := p]>
         (<["hull_final_rate" := r]>
            (<["hull_weight_adjustment" := m]>
               (<["hull_base_rate" := hb]> d)))).
Proof.
  intros Hv Hw Ehb Eadj Ef Er Ep. unfold rate_drone.
  read_field "value" v Hv. rewrite Ehb, st_bind_lift_Ok, st_bind_set.
  read_field "value" v Hv. read_field "weight" w Hw.
  rewrite Eadj, st_bind_lift_Ok, st_bind_set.
  read_field "value" v Hv. read_field "weight" w Hw.
  rewrite Ef, st_bind_lift_Ok, Er, st_bind_lift_Ok, st_bind_set.
  rewrite (st_bind_get "hull_final_rate" _ _ r) by apply lookup_insert_eq.
  read_field "value" v Hv.
  rewrite Ep, st_bind_lift_Ok, st_bind_set. reflexivity.
Qed.

(** The first half of the loop body on a drone whose hull rate is defined:
    the four hull fields are written, and the body goes on with the
    liability fields. *)
Lemma rate_drone_hull_part (lib : mathlib) (P : params) (d : item)
    (v w h m : pyval) (qv qh qm : Q) :
  d !! "value" = Some v -> as_real v = Some qv -> ~ (qv == 0)%Q ->
  d !! "weight" = Some w ->
  getitem_val (max_takeoff_weight_adj P) w = Ok m -> as_real m = Some qm ->
  gross_base_rates P !! "hull" = Some h -> as_real h = Some qh ->
  exists hb qhb fr qfr p,
    as_real hb = Some qhb /\ (qhb == qh * 100)%Q /\
    as_real fr = Some qfr /\ (qfr == round_half_even (qh * qm * 100) 1)%Q /\
    (p == qv * qfr / 100)%Q /\
    rate_drone lib P d =
      rate_drone_liability lib P
        (<["hull_premium" := PFloat p]>
           (<["hull_final_rate" := fr]>
              (<["hull_weight_adjustment" := m]>
                 (<["hull_base_rate" := hb]> d)))).
Proof.
  intros Hv Hqv Hnz Hw Hm Hqm Hh Hqh.
  pose proof (real_ne_zero v qv Hqv Hnz) as Hne.
  destruct (hull_base_rate_percent P v h qh Hne Hh Hqh)
    as (hb & qhb & Ehb & Hqhb & Vhb).
  destruct (hull_final_rate_nonzero P v w h m Hne Hh Hm) as (_ & Eadj & _).
  destruct (hull_final_rate_percent P v w h m qh qm Hne Hh Hqh Hm Hqm)
    as (f & qf & Ef & Hqf & Vf).
  destruct (py_round_real f qf 1 Hqf) as (fr & qfr & Efr & Hqfr & Vfr).
  destruct (calculate_premium_real fr v qfr qv Hqv Hnz Hqfr) as (p & Ep & Vp).
  exists hb, qhb, fr, qfr, p.
  split; [exact Hqhb|]. split; [exact Vhb|]. split; [exact Hqfr|].
  split.
  { rewrite Vfr, (round_half_even_comp qf (qh * qm * 100) 1 Vf). reflexivity. }
  split; [exact Vp|].
  exact (rate_drone_hull_ops lib P d v w hb m f fr (PFloat p)
           Hv Hw Ehb Eadj Ef Efr Ep).
Qed.




Lemma tpl_base_rate_percent (P : params) (v lr : pyval) (ql : Q) :
  py_ne_zero v = true ->
  gross_base_rates P !! "liability" = Some lr -> as_real lr = Some ql ->
  exists r q, tpl_base_rate P v true = Ok r /\ as_real r = Some q /\
              (q == ql * 100)%Q.
Proof.
  intros Hv Hlr Hql. unfold tpl_base_rate. rewrite guard_nonzero by assumption.
  unfold getitem. rewrite Hlr, bind_Ok. apply py_mul_100_real, Hql.
Qed.

Lemma tpl_premiums_real (lib : mathlib) (P : params)
    (v lr l x ilf : pyval) (qv ql qf : Q) :
  py_ne_zero v = true -> as_real v = Some qv ->
  gross_base_rates P !! "liability" = Some lr -> as_real lr = Some ql ->
  tpl_ilf lib P v l x = Ok ilf -> as_real ilf = Some qf ->
  (exists a qa, tpl_base_layer_premium P v = Ok a /\ as_real a = Some qa /\
                (qa == ql * qv)%Q) /\
  (exists p qp, tpl_layer_premium lib P v l x = Ok p /\
                as_real p = Some qp /\ (qp == ql * qv * qf)%Q).
Proof.
  intros Hne Hv Hlr Hql Hilf Hqf.
  pose proof (tpl_base_layer_premium_nonzero P v lr Hne Hlr) as Hbase.
  destruct (py_mul_real lr v ql qv Hql Hv) as (a & qa & Ha & Hqa & Hval).
  rewrite Ha in Hbase. split; [exists a, qa; auto|].
  unfold tpl_layer_premium. rewrite guard_nonzero by assumption.
  rewrite Hbase, bind_Ok, Hilf, bind_Ok.
  destruct (py_mul_real a ilf qa qf Hqa Hqf) as (p & qp & Hp & Hqp & Hval').
  exists p, qp. split; [exact Hp|]. split; [exact Hqp|].
  rewrite Hval', Hval. reflexivity.
Qed.

(** The second half of the loop body, through the operations it calls. *)
Lemma rate_drone_liability_ops (lib : mathlib) (P : params) (d : item)
    (v l x tb tl ilf ti layer tp : pyval) :
  d !! "value" = Some v ->
  d !! "tpl_limit" = Some l -> d !! "tpl_excess" = Some x ->
  tpl_base_rate P v true = Ok tb ->
  tpl_base_layer_premium P v = Ok tl ->
  tpl_ilf lib P v l x = Ok ilf -> py_round ilf 2 = Ok ti ->
  tpl_layer_premium lib P v l x = Ok layer -> py_round layer 0 = Ok tp ->
  rate_drone_liability lib P d =
    (<["tpl_layer_premium" := tp]>
       (<["tpl_ilf" := ti]>
          (<["tpl_base_layer_premium" := tl]>
             (<["tpl_base_rate" := tb]> d))), Ok tt).
Proof.
  intros Hv Hl Hx Etb Etl Eilf Eti Elayer Etp. unfold rate_drone_liability.
  read_field "value" v Hv. rewrite Etb, st_bind_lift_Ok, st_bind_set.
  read_field "value" v Hv. rewrite Etl, st_bind_lift_Ok, st_bind_set.
  read_field "value" v Hv. read_field "tpl_limit" l Hl.
  read_field "tpl_excess" x Hx.
  rewrite Eilf, st_bind_lift_Ok, Eti, st_bind_lift_Ok, st_bind_set.
  read_field "value" v Hv. read_field "tpl_limit" l Hl.
  read_field "tpl_excess" x Hx.
  rewrite Elayer, st_bind_lift_Ok, Etp, st_bind_lift_Ok. reflexivity.
Qed.

(** The second half of the loop body on a drone whose liability premium is
    defined: the four liability fields are written and the body returns. *)
Lemma rate_drone_liability_part (lib : mathlib) (P : params) (d : item)
    (v l x lr ilf : pyval) (qv ql qf : Q) :
  d !! "value" = Some v -> as_real v = Some qv -> ~ (qv == 0)%Q ->
  d !! "tpl_limit" = Some l -> d !! "tpl_excess" = Some x ->
  gross_base_rates P !! "liability" = Some lr -> as_real lr = Some ql ->
  tpl_ilf lib P v l x = Ok ilf -> as_real ilf = Some qf ->
  exists tb qtb tl qtl ti qti tp qtp,
    as_real tb = Some qtb /\ (qtb == ql * 100)%Q /\
    as_real tl = Some qtl /\ (qtl == ql * qv)%Q /\
    as_real ti = Some qti /\ (qti == round_half_even qf 2)%Q /\
    as_real tp = Some qtp /\ (qtp == round_half_even (ql * qv * qf) 0)%Q /\
    rate_drone_liability lib P d =
      (<["tpl_layer_premium" := tp]>
         (<["tpl_ilf" := ti]>
            (<["tpl_base_layer_premium" := tl]>
               (<["tpl_base_rate" := tb]> d))), Ok tt).
Proof.
  intros Hv Hqv Hnz Hl Hx Hlr Hql Eilf Hqf.
  pose proof (real_ne_zero v qv Hqv Hnz) as Hne.
  destruct (tpl_base_rate_percent P v lr ql Hne Hlr Hql)
    as (tb & qtb & Etb & Hqtb & Vtb).
  destruct (tpl_premiums_real lib P v lr l x ilf qv ql qf
              Hne Hqv Hlr Hql Eilf Hqf)
    as [(tl & qtl & Etl & Hqtl & Vtl) (layer & qlayer & Elayer & Hqlayer & Vlayer)].
  destruct (py_round_real ilf qf 2 Hqf) as (ti & qti & Eti & Hqti & Vti).
  destruct (py_round_real layer qlayer 0 Hqlayer)
    as (tp & qtp & Etp & Hqtp & Vtp).
  exists tb, qtb, tl, qtl, ti, qti, tp, qtp.
  split; [exact Hqtb|]. split; [exact Vtb|].
  split; [exact Hqtl|]. split; [exact Vtl|].
  split; [exact Hqti|]. split; [exact Vti|].
  split; [exact Hqtp|]. split.
  { rewrite Vtp, (round_half_even_comp qlayer (ql * qv * qf) 0 Vlayer).
    reflexivity. }
  exact (rate_drone_liability_ops lib P d v l x tb tl ilf ti layer tp
           Hv Hl Hx Etb Etl Eilf Eti Elayer Etp).
Qed.



(** ** The whole pass *)

Lemma for_each_ok (body : stE item unit) (xs : list item) :
  Forall (fun x => (body x).2 = Ok tt) xs ->
  for_each body xs = ((fun x => (body x).1) <$> xs, Ok tt).
Proof.
  induction 1 as [|x xs Hx _ IH]; [reflexivity|].
  cbn [for_each]. rewrite IH, fmap_cons.
  destruct (body x) as [x' [[]|e]]; simpl in *; [reflexivity | discriminate].
Qed.

Lemma forallb_fmap {A B} (f : A -> B) (p : B -> bool) (xs : list A) :
  forallb p (f <$> xs) = forallb (fun x => p (f x)) xs.
Proof.
  induction xs as [|x xs IH]; [reflexivity|].
  rewrite fmap_cons. cbn [forallb]. rewrite IH. reflexivity.
Qed.

Lemma existsb_fmap {A B} (f : A -> B) (p : B -> bool) (xs : list A) :
  existsb p (f <$> xs) = existsb (fun x => p (f x)) xs.
Proof.
  induction xs as [|x xs IH]; [reflexivity|].
  rewrite fmap_cons. cbn [existsb]. rewrite IH. reflexivity.
Qed.

Lemma forallb_impl {A} (p q : A -> bool) (xs : list A) :
  (forall x, p x = true -> q x = true) ->
  forallb p xs = true -> forallb q xs = true.
Proof.
  intros Hpq. rewrite !forallb_forall. intros H x Hx. apply Hpq, H, Hx.
Qed.

Lemma field_real_intro (k : string) (d : item) (v : pyval) (q : Q) :
  d !! k = Some v -> as_real v = Some q -> field_real k d = true.
Proof. unfold field_real, is_real. intros -> ->. reflexivity. Qed.

Lemma field_real_or_missing_of_real (k : string) (d : item) :
  field_real k d = true -> field_real_or_missing k d = true.
Proof.
  unfold field_real, field_real_or_missing. destruct (d !! k); [auto|discriminate].
Qed.

Lemma is_real_as_real_Some (v : pyval) :
  is_real v = true -> exists q, as_real v = Some q.
Proof. unfold is_real. destruct (as_real v) as [q|]; [eauto | discriminate]. Qed.

(** What a rateable drone record holds. *)
Lemma drone_rateable_inv (lib : mathlib) (P : params) (d : item) :
  drone_rateable lib P d = true ->
  exists v w l x m ilf qv qm qf,
    d !! "value" = Some v /\ as_real v = Some qv /\ ~ (qv == 0)%Q /\
    d !! "weight" = Some w /\
    getitem_val (max_takeoff_weight_adj P) w = Ok m /\ as_real m = Some qm /\
    d !! "tpl_limit" = Some l /\ d !! "tpl_excess" = Some x /\
    tpl_ilf lib P v l x = Ok ilf /\ as_real ilf = Some qf.
Proof.
  unfold drone_rateable, drone_ok. intros H.
  apply andb_true_iff in H as [Hok H].
  destruct (d !! "has_detachable_camera") as [c|]; [|discriminate].
  destruct (d !! "value") as [v|]; [|discriminate].
  destruct (d !! "weight") as [[| | | |s]|]; try discriminate.
  destruct (d !! "tpl_limit") as [l|]; [|discriminate].
  destruct (d !! "tpl_excess") as [x|]; [|discriminate].
  apply andb_true_iff in Hok as [Hv Hm]. apply andb_true_iff in H as [Hne H].
  destruct (tpl_ilf lib P v l x) as [ilf|] eqn:Eilf; [|discriminate].
  destruct (is_real_as_real_Some v Hv) as [qv Hqv].
  destruct (is_real_as_real_Some ilf H) as [qf Hqf].
  unfold field_real in Hm.
  destruct (max_takeoff_weight_adj P !! s) as [m|] eqn:Em; [|discriminate].
  destruct (is_real_as_real_Some m Hm) as [qm Hqm].
  exists v, (PStr s), l, x, m, ilf, qv, qm, qf.
  repeat (split; [first [reflexivity | assumption]|]).
  split; [exact (py_ne_zero_of_real v qv Hqv Hne)|].
  repeat (split; [first [reflexivity | assumption]|]).
  split.
  { simpl. unfold getitem. rewrite Em. reflexivity. }
  repeat (split; [first [reflexivity | assumption]|]).
  assumption.
Qed.

Lemma field_real_inv (k : string) (d : item) :
  field_real k d = true -> exists v q, d !! k = Some v /\ as_real v = Some q.
Proof.
  unfold field_real. destruct (d !! k) as [v|]; [|discriminate].
  intros H. destruct (is_real_as_real_Some v H) as [q Hq]. eauto.
Qed.

(** The loop body on a rateable drone: it returns, and the eight computed
    fields are real numbers. *)
Lemma rate_drone_rated (lib : mathlib) (P : params) (d : item) :
  field_real "hull" (gross_base_rates P) = true ->
  field_real "liability" (gross_base_rates P) = true ->
  drone_rateable lib P d = true ->
  (rate_drone lib P d).2 = Ok tt /\
  fields_real drone_computed_fields (rate_drone lib P d).1 = true.
Proof.
  intros Hhull Hliab Hd.
  destruct (field_real_inv _ _ Hhull) as (h & qh & Hh & Hqh).
  destruct (field_real_inv _ _ Hliab) as (lr & ql & Hlr & Hql).
  destruct (drone_rateable_inv lib P d Hd)
    as (v & w & l & x & m & ilf & qv & qm & qf &
        Hv & Hqv & Hnz & Hw & Hm & Hqm & Hl & Hx & Eilf & Hqf).
  destruct (rate_drone_hull_part lib P d v w h m qv qh qm
              Hv Hqv Hnz Hw Hm Hqm Hh Hqh)
    as (hb & qhb & fr & qfr & p & Hqhb & _ & Hqfr & _ & _ & ->).
  destruct (rate_drone_liability_part lib P
              (<["hull_premium" := PFloat p]>
                 (<["hull_final_rate" := fr]>
                    (<["hull_weight_adjustment" := m]>
                       (<["hull_base_rate" := hb]> d))))
              v l x lr ilf qv ql qf)
    as (tb & qtb & tl & qtl & ti & qti & tp & qtp &
        Hqtb & _ & Hqtl & _ & Hqti & _ & Hqtp & _ & ->);
    try assumption;
    try (rewrite !lookup_insert_ne by discriminate; assumption).
  split; [reflexivity|]. cbn [fst].
  unfold fields_real, drone_computed_fields. cbn [forallb].
  repeat (apply andb_true_iff; split); try reflexivity;
    (eapply field_real_intro;
     [rewrite ?lookup_insert_ne by discriminate; apply lookup_insert_eq
     | first [eassumption | reflexivity]]).
Qed.

Lemma not_computed_field (k : string) :
  forallb (fun f => negb (String.eqb k f)) drone_computed_fields = true ->
  k ∉ drone_computed_fields.
Proof.
  intros H Hin. rewrite forallb_forall in H.
  apply list_elem_of_In in Hin. specialize (H k Hin).
  rewrite String.eqb_refl in H. discriminate.
Qed.

Lemma rate_drone_keeps_ok (lib : mathlib) (P : params) (d : item) :
  drone_ok P (rate_drone lib P d).1 = drone_ok P d /\
  eligible (rate_drone lib P d).1 = eligible d.
Proof.
  assert (Hkeep : forall k, k ∉ drone_computed_fields ->
            (rate_drone lib P d).1 !! k = d !! k)
    by (intros k Hk; apply rate_drone_frames, Hk).
  assert (Hc : (rate_drone lib P d).1 !! "has_detachable_camera"
               = d !! "has_detachable_camera")
    by (apply Hkeep, not_computed_field; reflexivity).
  assert (Hv : (rate_drone lib P d).1 !! "value" = d !! "value")
    by (apply Hkeep, not_computed_field; reflexivity).
  assert (Hw : (rate_drone lib P d).1 !! "weight" = d !! "weight")
    by (apply Hkeep, not_computed_field; reflexivity).
  unfold drone_ok, eligible. rewrite Hc, Hv, Hw. split; reflexivity.
Qed.

(** The camera loop body on a rateable camera. *)
Lemma rate_camera_rated (highest : pyval) (qh : Q) (c : item) :
  as_real highest = Some qh -> camera_rateable c = true ->
  (rate_camera highest c).2 = Ok tt /\
  fields_real camera_computed_fields (rate_camera highest c).1 = true.
Proof.
  intros Hh Hc. unfold camera_rateable in Hc.
  destruct (c !! "value") as [v|] eqn:Hv; [|discriminate].
  apply andb_true_iff in Hc as [Hreal Hne].
  destruct (is_real_as_real_Some v Hreal) as [qv Hqv].
  destruct (rate_camera_real highest v c qh qv Hv Hqv
              (py_ne_zero_of_real v qv Hqv Hne) Hh)
    as (r & qr & p & -> & Hqr & _).
  split; [reflexivity|]. cbn [fst].
  unfold fields_real, camera_computed_fields. cbn [forallb].
  repeat (apply andb_true_iff; split); try reflexivity;
    (eapply field_real_intro;
     [rewrite ?lookup_insert_ne by discriminate; apply lookup_insert_eq
     | first [eassumption | reflexivity]]).
Qed.

(** The highest drone rate of a fleet the camera rate can read, with at
    least one eligible drone: a real number. *)
Lemma rate_percent_real (P : params) (ds : list item) :
  field_real "hull" (gross_base_rates P) = true ->
  forallb (drone_ok P) ds = true -> existsb eligible ds = true ->
  exists highest qh, rate P ds true = Ok highest /\ as_real highest = Some qh.
Proof.
  intros Hhull Hok Hel.
  destruct (max_rate_start P Hhull ds Hok) as [_ Hsome].
  destruct (Hsome Hel) as (m & qm & Hm & Hqm & _).
  destruct (py_mul_100_real m qm Hqm) as (r & q & Hr & Hq & _).
  exists r, q. split; [|exact Hq].
  unfold rate. rewrite Hm, bind_Ok. exact Hr.
Qed.

(** The pass on a well-formed document, step by step. *)
Lemma compute_model_rated (lib : mathlib) (P : params) (md : model_data)
    (b : pyval) (qb : Q) :
  field_real "hull" (gross_base_rates P) = true ->
  field_real "liability" (gross_base_rates P) = true ->
  forallb (drone_rateable lib P) (drones md) = true ->
  existsb eligible (drones md) = true ->
  forallb camera_rateable (detachable_cameras md) = true ->
  brokerage md = Some b -> as_real b = Some qb -> ~ (qb == 1)%Q ->
  exists highest np gp,
    rate P ((fun d => (rate_drone lib P d).1) <$> drones md) true = Ok highest /\
    compute_model lib P md =
      (ModelData ((fun d => (rate_drone lib P d).1) <$> drones md)
         ((fun c => (rate_camera highest c).1) <$> detachable_cameras md)
         (Some b) (attach (net_prem md) np) (attach (gross_prem md) gp),
       Ok tt) /\
    forallb (fields_real drone_computed_fields)
      ((fun d => (rate_drone lib P d).1) <$> drones md) = true /\
    forallb (fields_real camera_computed_fields)
      ((fun c => (rate_camera highest c).1) <$> detachable_cameras md) = true.
Proof.
  intros Hhull Hliab Hds Hel Hcs Hb Hqb Hne.
  set (ds' := (fun d => (rate_drone lib P d).1) <$> drones md).
  assert (Hloop : for_each (rate_drone lib P) (drones md) = (ds', Ok tt)).
  { apply for_each_ok, Forall_forall. intros d Hd.
    rewrite forallb_forall in Hds. apply list_elem_of_In in Hd.
    apply (rate_drone_rated lib P d Hhull Hliab), Hds, Hd. }
  assert (Hfields : forallb (fields_real drone_computed_fields) ds' = true).
  { unfold ds'. rewrite forallb_fmap. revert Hds. apply forallb_impl.
    intros d Hd. apply (rate_drone_rated lib P d Hhull Hliab Hd). }
  assert (Hok' : forallb (drone_ok P) ds' = true).
  { unfold ds'. rewrite forallb_fmap. revert Hds. apply forallb_impl.
    intros d Hd. rewrite (proj1 (rate_drone_keeps_ok lib P d)).
    unfold drone_rateable in Hd. apply andb_true_iff in Hd as [Hd _].
    exact Hd. }
  assert (Hel' : existsb eligible ds' = true).
  { unfold ds'. rewrite existsb_fmap, <- Hel.
    generalize (drones md) as xs. intros xs.
    induction xs as [|d xs IH]; [reflexivity|].
    cbn [existsb]. rewrite (proj2 (rate_drone_keeps_ok lib P d)), IH.
    reflexivity. }
  destruct (rate_percent_real P ds' Hhull Hok' Hel')
    as (highest & qh & Hrate & Hqh).
  set (cs' := (fun c => (rate_camera highest c).1) <$> detachable_cameras md).
  assert (Hcams : for_each (rate_camera highest) (detachable_cameras md)
                  = (cs', Ok tt)).
  { apply for_each_ok, Forall_forall. intros c Hc.
    rewrite forallb_forall in Hcs. apply list_elem_of_In in Hc.
    apply (rate_camera_rated highest qh c Hqh), Hcs, Hc. }
  assert (Hcfields : forallb (fields_real camera_computed_fields) cs' = true).
  { unfold cs'. rewrite forallb_fmap. revert Hcs. apply forallb_impl.
    intros c Hc. apply (rate_camera_rated highest qh c Hqh Hc). }
  assert (Hfield : forall fields k (xs : list item),
            In k fields -> forallb (fields_real fields) xs = true ->
            forallb (field_real_or_missing k) xs = true).
  { intros fields k xs Hk. apply forallb_impl. intros x Hx.
    apply field_real_or_missing_of_real.
    unfold fields_real in Hx. rewrite forallb_forall in Hx. apply Hx, Hk. }
  assert (Hdh : forallb (field_real_or_missing "hull_premium") ds' = true).
  { apply (Hfield drone_computed_fields); [|exact Hfields].
    unfold drone_computed_fields. simpl. tauto. }
  assert (Hdt : forallb (field_real_or_missing "tpl_layer_premium") ds' = true).
  { apply (Hfield drone_computed_fields); [|exact Hfields].
    unfold drone_computed_fields. simpl. tauto. }
  assert (Hch : forallb (field_real_or_missing "hull_premium") cs' = true).
  { apply (Hfield camera_computed_fields); [|exact Hcfields].
    unfold camera_computed_fields. simpl. tauto. }
  destruct (net_totals_returns ds' cs' (default ∅ (net_prem md)) Hdh Hdt Hch)
    as (dh & dt & ch & nvs & nt & _ & _ & _ & _ & _ & Enet).
  destruct (gross_totals_returns ds' cs' b qb (default ∅ (gross_prem md))
              Hdh Hdt Hch Hqb) as [_ Hgross].
  destruct (Hgross Hne) as (gh & gt & gc & gvs & gtotal & _ & _ & _ & _ & _ & Egross).
  eexists highest, _, _. split; [exact Hrate|].
  split; [|split; [exact Hfields | exact Hcfields]].
  unfold compute_model. rewrite Hloop. cbv beta iota. rewrite Hrate.
  cbv beta iota. rewrite Hcams. cbv beta iota. rewrite Enet. cbv beta iota.
  rewrite Hb. cbv beta iota. rewrite Egross. reflexivity.
Qed.

(** X25.  A well-formed document is rated to the end.  With real hull and
    liability rates configured, drones that are all rateable (the fields
    read are there, a nonzero real value, a band of the table, a real layer
    factor) with at least one eligible for the camera rate, cameras of
    nonzero real value and a real brokerage other than 1, the pass returns
    normally; afterwards every drone carries real numbers in its eight
    computed fields and every camera in [hull_rate] and [hull_premium], no
    field holding the sentinel. *)
Theorem X25_well_formed_document_is_rated (lib : mathlib) (P : params)
    (md : model_data) (b : pyval) (qb : Q) :
  field_real "hull" (gross_base_rates P) = true ->
  field_real "liability" (gross_base_rates P) = true ->
  forallb (drone_rateable lib P) (drones md) = true ->
  existsb eligible (drones md) = true ->
  forallb camera_rateable (detachable_cameras md) = true ->
  brokerage md = Some b -> as_real b = Some qb -> ~ (qb == 1)%Q ->
  (compute_model lib P md).2 = Ok tt /\
  forallb (fields_real drone_computed_fields)
    (drones (compute_model lib P md).1) = true /\
  forallb (fields_real camera_computed_fields)
    (detachable_cameras (compute_model lib P md).1) = true.
Proof.
  intros Hhull Hliab Hds Hel Hcs Hb Hqb Hne.
  destruct (compute_model_rated lib P md b qb Hhull Hliab Hds Hel Hcs Hb Hqb Hne)
    as (highest & np & gp & _ & -> & Hfields & Hcfields).
  split; [reflexivity|]. split; [exact Hfields | exact Hcfields].
Qed.

(** The theorem at a document of two drones and one camera. *)
Lemma witness_X25_reference_document :
  (compute_model dyadic_lib fixture_params reference_document).2 = Ok tt /\
  forallb (fields_real drone_computed_fields)
    (drones (compute_model dyadic_lib fixture_params reference_document).1)
    = true /\
  forallb (fields_real camera_computed_fields)
    (detachable_cameras
       (compute_model dyadic_lib fixture_params reference_document).1) = true.
Proof.
  apply (X25_well_formed_document_is_rated dyadic_lib fixture_params
           reference_document (PFloat (3 # 10)) (3 # 10));
    try reflexivity. discriminate.
Defined.
